(** * docker-security-agent: the remediation pipeline and the manifest updaters

    A shallow embedding of [src/agent/trivy_parser.py], [src/agent/git_client.py],
    [src/agent/test_runner.py], [src/agent/docker_runner.py],
    [src/agent/repo_runner.py] and [src/agent/dependency_updater.py].

    Conventions of the embedding.
    - A Python [str] is a [list ascii]; every character is read as the code
      point of the same number (0..255).  A string literal is coerced.
    - A value that came out of [json.loads] (a scan report, a finding as the
      orchestrator sees it, the content of package.json) is a [value].
    - A Python exception is a value of [exn]; a call that may raise returns
      [exc A].  An exception that no handler catches is the result [Raise].
    - External programs and services (git, docker, trivy, the test command,
      the HTTP API, poetry, pipenv, npm, the json and re libraries where they
      are not re-implemented) are fields of an environment record: each field
      is the answer the collaborator gives.
    - The files of the repository root are a finite map from file name to
      content; text is held decoded (the UTF-8 / UTF-16 choice of
      [PythonUpdater] is below the level of this model). *)

From stdpp Require Import base option list gmap strings.
From Stdlib Require Import Ascii String List ZArith Lia Bool DecimalString.
Import ListNotations.
Local Open Scope string_scope.
Local Open Scope list_scope.
Local Open Scope nat_scope.

Abbreviation str := (list ascii).
#[warnings="-uniform-inheritance"]
Coercion list_ascii_of_string : string >-> list.

(** ** Python strings *)

Module Py.

(** [str.isspace] on one character, for code points below 256. *)
Definition isspace (c : ascii) : bool :=
  let n := nat_of_ascii c in
  ((9 <=? n) && (n <=? 13)) || ((28 <=? n) && (n <=? 32))
  || (n =? 133) || (n =? 160).

(** The line boundaries of [str.splitlines], for code points below 256. *)
Definition is_linebreak (c : ascii) : bool :=
  let n := nat_of_ascii c in
  ((10 <=? n) && (n <=? 13)) || ((28 <=? n) && (n <=? 30)) || (n =? 133).

Fixpoint eqb (a b : str) : bool :=
  match a, b with
  | [], [] => true
  | x :: a', y :: b' => Ascii.eqb x y && eqb a' b'
  | _, _ => false
  end.

(** [bool(s)] *)
Definition nonempty (s : str) : bool :=
  match s with [] => false | _ :: _ => true end.

(** [bool(l)] for a list. *)
Definition nonempty_list {A} (l : list A) : bool :=
  match l with [] => false | _ :: _ => true end.

(** [c in s] for a one-character [c]. *)
Definition has_char (c : ascii) (s : str) : bool :=
  existsb (Ascii.eqb c) s.

(** [s.startswith(p)], returning what follows the prefix. *)
Fixpoint strip_prefix (p s : str) : option str :=
  match p, s with
  | [], _ => Some s
  | a :: p', b :: s' => if Ascii.eqb a b then strip_prefix p' s' else None
  | _ :: _, [] => None
  end.

Definition startswith (s p : str) : bool :=
  match strip_prefix p s with Some _ => true | None => false end.

(** [p in s] for strings. *)
Fixpoint contains (p s : str) : bool :=
  startswith s p || match s with [] => false | _ :: s' => contains p s' end.

Fixpoint drop_while (p : ascii -> bool) (s : str) : str :=
  match s with
  | [] => []
  | c :: s' => if p c then drop_while p s' else s
  end.

Definition lstrip (s : str) : str := drop_while isspace s.
Definition rstrip (s : str) : str := rev (drop_while isspace (rev s)).
(** [s.strip()] *)
Definition strip (s : str) : str := rstrip (lstrip s).

(** [s.split(c)[0]]: the text before the first [c]. *)
Fixpoint before_first (c : ascii) (s : str) : str :=
  match s with
  | [] => []
  | a :: s' => if Ascii.eqb a c then [] else a :: before_first c s'
  end.

(** [s.split(c, 1)[1]]: the text after the first [c] (when [c in s]). *)
Fixpoint after_first (c : ascii) (s : str) : str :=
  match s with
  | [] => []
  | a :: s' => if Ascii.eqb a c then s' else after_first c s'
  end.

(** [s.split(c)]: never empty. *)
Fixpoint split (c : ascii) (s : str) : list str :=
  match s with
  | [] => [[]]
  | a :: s' =>
      if Ascii.eqb a c then [] :: split c s'
      else match split c s' with
           | [] => [[a]]
           | w :: ws => (a :: w) :: ws
           end
  end.

(** [s.split(c)[-1]] *)
Definition after_last (c : ascii) (s : str) : str := List.last (split c s) [].

(** [s.splitlines()]: a CR LF pair is one boundary, and a final boundary
    opens no further line. *)
Fixpoint splitlines (s : str) : list str :=
  match s with
  | [] => []
  | c :: s' =>
      if is_linebreak c then
        match c, s' with
        | "013"%char, "010"%char :: s'' => [] :: splitlines s''
        | _, _ => [] :: splitlines s'
        end
      else match splitlines s' with
           | [] => [[c]]
           | l :: ls => (c :: l) :: ls
           end
  end.

(** [sep.join(parts)] *)
Fixpoint join (sep : str) (parts : list str) : str :=
  match parts with
  | [] => []
  | [p] => p
  | p :: ps => p ++ sep ++ join sep ps
  end.

(** [s.replace(old, new)] for a non-empty [old]: every occurrence, left to
    right, without overlap.  [skip] counts the characters of an occurrence
    still to be dropped. *)
Fixpoint replace_from (old new : str) (skip : nat) (s : str) : str :=
  match s with
  | [] => []
  | c :: s' =>
      match skip with
      | S k => replace_from old new k s'
      | O => if startswith s old
             then new ++ replace_from old new (length old - 1) s'
             else c :: replace_from old new 0 s'
      end
  end.

Definition replace (old new s : str) : str := replace_from old new 0 s.

(** [str(n)] for a natural number. *)
Definition str_of_nat (n : nat) : str :=
  list_ascii_of_string (NilZero.string_of_uint (Nat.to_uint n)).

End Py.

(** ** Exceptions *)

Inductive exn_kind :=
| AttributeError | TypeError | KeyError | IndexError | NameError
| FileNotFoundError | CalledProcessError | JSONDecodeError | ReError
| GitCommandError | RequestException | OSError
| UnsupportedPattern.

Record exn := Exn { kind : exn_kind; message : str }.

Inductive exc (A : Type) :=
| Ok (a : A)
| Raise (e : exn).
Arguments Ok {A} a.
Arguments Raise {A} e.

#[global] Instance exc_ret : MRet exc := λ A a, Ok a.
#[global] Instance exc_bind : MBind exc :=
  λ A B f m, match m with Ok a => f a | Raise e => Raise e end.

#[global] Instance exn_kind_eq_dec : EqDecision exn_kind.
Proof. solve_decision. Defined.

(** ** JSON values as Python objects *)

#[warnings="-register-all"]
Inductive value :=
| VNone
| VBool (b : bool)
| VNum (n : Z)
| VStr (s : str)
| VList (l : list value)
| VDict (d : list (str * value)).

Module Obj.

(** [bool(v)] *)
Definition truthy (v : value) : bool :=
  match v with
  | VNone => false
  | VBool b => b
  | VNum n => negb (n =? 0)%Z
  | VStr s => Py.nonempty s
  | VList l => match l with [] => false | _ => true end
  | VDict d => match d with [] => false | _ => true end
  end.

(** [a or b] *)
Definition or (a b : value) : value := if truthy a then a else b.

Fixpoint lookup (key : str) (d : list (str * value)) : option value :=
  match d with
  | [] => None
  | (k, v) :: d' => if Py.eqb k key then Some v else lookup key d'
  end.

(** [v.get(key)]: only a dict has the method. *)
Definition get (v : value) (key : str) : exc value :=
  match v with
  | VDict d => Ok (default VNone (lookup key d))
  | _ => Raise (Exn AttributeError "object has no attribute 'get'")
  end.

(** [for x in v]: the items the loop visits. *)
Definition iterate (v : value) : exc (list value) :=
  match v with
  | VList l => Ok l
  | VStr s => Ok (map (λ c, VStr [c]) s)
  | VDict d => Ok (map (λ kv, VStr (fst kv)) d)
  | _ => Raise (Exn TypeError "object is not iterable")
  end.

(** [v == s] for a string [s]. *)
Definition eq_str (v : value) (s : str) : bool :=
  match v with VStr t => Py.eqb t s | _ => false end.

(** [v[0]] *)
Definition first (v : value) : exc value :=
  match v with
  | VList (x :: _) => Ok x
  | VList [] => Raise (Exn IndexError "list index out of range")
  | VStr (c :: _) => Ok (VStr [c])
  | VStr [] => Raise (Exn IndexError "string index out of range")
  | VDict _ => Raise (Exn KeyError "0")
  | _ => Raise (Exn TypeError "object is not subscriptable")
  end.

(** Whether [v] can be a member of a [set]. *)
Definition hashable (v : value) : bool :=
  match v with VList _ | VDict _ => false | _ => true end.

End Obj.

(** ** [trivy_parser.parse_trivy_report] *)

Module TrivyParser.

(** [d.get(upper) or d.get(lower) or []] *)
Definition either_casing (d : value) (upper lower : str) : exc value :=
  a ← Obj.get d upper;
  if Obj.truthy a then Ok a
  else b ← Obj.get d lower; Ok (Obj.or b (VList [])).

(** The inner loop: [for v in vulns: findings.append(v)] for one result. *)
Definition result_findings (res : value) : exc (list value) :=
  vulns ← either_casing res "Vulnerabilities" "vulnerabilities";
  Obj.iterate vulns.

(** The outer loop over the results, in order. *)
Fixpoint collect (results : list value) : exc (list value) :=
  match results with
  | [] => Ok []
  | res :: rest =>
      vs ← result_findings res;
      more ← collect rest;
      Ok (vs ++ more)
  end.

Definition parse_trivy_report (report : value) : exc (list value) :=
  results ← either_casing report "Results" "results";
  items ← Obj.iterate results;
  collect items.

End TrivyParser.

(** ** [git_client.GitClient.create_pr] *)

Record response := Response {
  status_code : Z;
  text : str;
  json : exc value          (* [response.json()] *)
}.

(** The hosting API as [requests] reaches it. *)
Record http := Http {
  post : str -> str -> list (str * value) -> exc response;  (* url, token, json *)
  get_ : str -> str -> exc response                          (* url, token *)
}.

Module GitClient.

(** [parts[-2]] and [parts[-1]] of a list of path segments. *)
Definition last_two (parts : list str) : exc (str * str) :=
  match rev parts with
  | repo_name :: owner :: _ => Ok (owner, repo_name)
  | _ => Raise (Exn IndexError "list index out of range")
  end.

(** The lookup of an existing request inside the [try] block: any
    exception is caught there, and the result is what the block returns,
    if it returns. *)
Definition existing_pr (H : http) (query_url token : str) : option value :=
  match get_ H query_url token with
  | Ok get_resp =>
      if (status_code get_resp =? 200)%Z then
        match json get_resp with
        | Ok body =>
            if Obj.truthy body then
              match (first ← Obj.first body; Obj.get first "html_url") with
              | Ok pr_url => Some pr_url
              | Raise _ => None
              end
            else None
        | Raise _ => None
        end
      else None
  | Raise _ => None
  end.

Definition create_pr (token : option str) (H : http)
    (repo_url branch_name title body : str) : exc value :=
  match token with
  | Some ((_ :: _) as tok) =>
      let parts := Py.split "/" (Py.replace ".git" [] repo_url) in
      '(owner, repo_name) ← last_two parts;
      let api_url :=
        "https://api.github.com/repos/" ++ owner ++ "/" ++ repo_name ++ "/pulls" in
      let data := [("title" : str, VStr title); ("body" : str, VStr body);
                   ("head" : str, VStr branch_name); ("base" : str, VStr "main")] in
      resp ← post H api_url tok data;
      if (status_code resp =? 201)%Z then
        j ← json resp; Obj.get j "html_url"
      else if (status_code resp =? 422)%Z
              && Py.contains "A pull request already exists" (text resp) then
        let query_url := api_url ++ "?head=" ++ owner ++ ":" ++ branch_name in
        match existing_pr H query_url tok with
        | Some pr_url => Ok pr_url
        | None => Ok (VStr "exists")
        end
      else Ok (VStr "failed")
  | _ => Ok (VStr "skipped")
  end.

End GitClient.

(** ** The collaborators of one run *)

(** [repo_config]: the keys ["url"] and ["name"] are read with [[]], the key
    ["test_command"] with [.get]. *)
Record RepoConfig := {
  url : str;
  name : str;
  test_command : option str
}.

Record Env := {
  git_token : option str;                       (* [GitClient.token] *)
  api : http;
  clone_repo : str -> str -> exc str;           (* url, work_dir: the path *)
  create_branch : str -> str -> exc unit;       (* repo_path, branch *)
  commit_changes : str -> str -> exc unit;      (* repo_path, message *)
  push_changes : str -> str -> exc unit;        (* repo_path, branch *)
  docker_build : str -> str -> exc Z;           (* the return code *)
  trivy_image : str -> exc value;               (* the parsed output *)
  shell : str -> str -> exc Z;                  (* cwd, command: return code *)
  update_dependencies : str -> list value -> exc (list str)
}.

Module DockerRunner.

(** A non-zero return code and any exception both give [False]. *)
Definition build_image (E : Env) (repo_path image_name : str) : bool :=
  match docker_build E repo_path image_name with
  | Ok code => (code =? 0)%Z
  | Raise _ => false
  end.

(** Three exceptions are turned into [None]; any other one propagates. *)
Definition scan_image (E : Env) (image_name : str) : exc value :=
  match trivy_image E image_name with
  | Ok report => Ok report
  | Raise e =>
      match kind e with
      | CalledProcessError | JSONDecodeError | FileNotFoundError => Ok VNone
      | _ => Raise e
      end
  end.

End DockerRunner.

Module TestRunner.

Definition run_tests (E : Env) (repo_path : str) (test_command : option str)
  : bool :=
  let test_command :=
    match test_command with
    | Some ((_ :: _) as cmd) => cmd
    | _ => "pytest" : str
    end in
  match shell E repo_path test_command with
  | Ok code => (code =? 0)%Z
  | Raise _ => false
  end.

End TestRunner.

(** ** [repo_runner.RepoRunner.run_repo] *)

(** What a run does to the outside world, in the order it does it; each call
    is recorded with what it answered.  The two files written under
    [work_dir] (the raw report and the summary) are recorded by name; writing
    them is taken to succeed. *)
Inductive event :=
| CloneRepo (repo_url : str) (r : exc str)
| BuildImage (image_name : str) (ok : bool)
| ScanImage (image_name : str) (r : exc value)
| SaveReport (file : str)
| CreateBranch (branch_name : str) (r : exc unit)
| UpdateDependencies (vulns : list value) (r : exc (list str))
| SaveSummary (file : str)
| RunTests (passed : bool)
| CommitChanges (msg : str) (r : exc unit)
| PushChanges (branch_name : str) (r : exc unit)
| CreatePr (branch_name title body : str) (r : exc value).

(** A step of the method either goes on with a value, leaves the method with
    [return], or raises. *)
Inductive flow (A : Type) :=
| Next (a : A)
| Return (r : value)
| Crash (e : exn).
Arguments Next {A} a.
Arguments Return {A} r.
Arguments Crash {A} e.

Definition run (A : Type) : Type := list event -> flow A * list event.

#[global] Instance run_ret : MRet run := λ A a t, (Next a, t).
#[global] Instance run_bind : MBind run :=
  λ A B f m t,
    match m t with
    | (Next a, t') => f a t'
    | (Return r, t') => (Return r, t')
    | (Crash e, t') => (Crash e, t')
    end.

Module RepoRunner.

Definition emit (ev : event) : run unit := λ t, (Next tt, t ++ [ev]).
Definition return_ {A} (r : value) : run A := λ t, (Return r, t).
(** A call outside any [try]. *)
Definition call {A} (m : exc A) : run A :=
  λ t, (match m with Ok a => Next a | Raise e => Crash e end, t).
(** [try: x = m  except Exception as e: return h(e)] *)
Definition try_except {A} (m : exc A) (h : exn -> value) : run A :=
  λ t, (match m with Ok a => Next a | Raise e => Return (h e) end, t).

Definition failed (step error : str) : value :=
  VDict [("status" : str, VStr "failed"); ("step" : str, VStr step);
         ("error" : str, VStr error)].
Definition no_action : value :=
  VDict [("status" : str, VStr "success"); ("action" : str, VStr "none");
         ("details" : str, VStr "No vulnerabilities found")].
Definition skipped : value :=
  VDict [("status" : str, VStr "skipped");
         ("reason" : str, VStr "no_updates_possible")].
Definition pr_created (pr_url : value) : value :=
  VDict [("status" : str, VStr "success"); ("action" : str, VStr "pr_created");
         ("pr_url" : str, pr_url)].

(** [[v for v in vulns if v.get("Severity") in ["HIGH", "MEDIUM"]]] *)
Fixpoint high_medium (vulns : list value) : exc (list value) :=
  match vulns with
  | [] => Ok []
  | v :: rest =>
      sev ← Obj.get v "Severity";
      kept ← high_medium rest;
      Ok (if Obj.eq_str sev "HIGH" || Obj.eq_str sev "MEDIUM"
          then v :: kept else kept)
  end.

(** The loop that lists the unfixed findings in the summary: the test
    [pkg not in fixed_names] hashes [pkg].  The text of the summary is not
    modelled. *)
Fixpoint summary_unfixed (vulns : list value) : exc unit :=
  match vulns with
  | [] => Ok tt
  | v :: rest =>
      pkg ← Obj.get v "PkgName";
      if Obj.hashable pkg then summary_unfixed rest
      else Raise (Exn TypeError "unhashable type")
  end.

Definition run_repo (E : Env) (repo_config : RepoConfig) (work_dir : str)
  : run value :=
  let repo_url := url repo_config in
  let repo_name := name repo_config in
  let test_cmd := test_command repo_config in
  (* 1. Clone Repo *)
  let cloned := clone_repo E repo_url work_dir in
  emit (CloneRepo repo_url cloned);;
  repo_path ← try_except cloned (λ e, failed "clone" (message e));
  (* 2. Build Docker Image *)
  let image_name := repo_name ++ ":security-scan" in
  let built := DockerRunner.build_image E repo_path image_name in
  emit (BuildImage image_name built);;
  if negb built then return_ (failed "build" "Docker build failed") else
  (* 3. Scan Image *)
  let scanned := DockerRunner.scan_image E image_name in
  emit (ScanImage image_name scanned);;
  report ← call scanned;
  if negb (Obj.truthy report) then return_ (failed "scan" "Trivy scan failed") else
  (* Save Raw Report *)
  emit (SaveReport (repo_name ++ "_trivy_report.json"));;
  (* 4. Parse Vulnerabilities *)
  vulns ← call (TrivyParser.parse_trivy_report report);
  high_medium_vulns ← call (high_medium vulns);
  if negb (Py.nonempty_list high_medium_vulns) then return_ no_action else
  (* 5. Create Branch *)
  let branch_name :=
    "security/fix-vulns-" ++ Py.str_of_nat (length high_medium_vulns) in
  let branched := create_branch E repo_path branch_name in
  emit (CreateBranch branch_name branched);;
  try_except branched (λ e, failed "git_branch" (message e));;
  (* 6. Update Dependencies *)
  let updated := update_dependencies E repo_path high_medium_vulns in
  emit (UpdateDependencies high_medium_vulns updated);;
  updated_packages ← call updated;
  (* Generate Summary *)
  emit (SaveSummary (repo_name ++ "_security_summary.md"));;
  call (summary_unfixed high_medium_vulns);;
  if negb (Py.nonempty_list updated_packages) then return_ skipped else
  (* 7. Run Tests *)
  let passed := TestRunner.run_tests E repo_path test_cmd in
  emit (RunTests passed);;
  if negb passed then return_ (failed "tests" "Tests failed after update") else
  (* 9. Commit & Push *)
  let committed :=
    commit_changes E repo_path
      "Security: Update dependencies to fix vulnerabilities" in
  emit (CommitChanges "Security: Update dependencies to fix vulnerabilities"
          committed);;
  try_except committed (λ e, failed "git_push" (message e));;
  let pushed := push_changes E repo_path branch_name in
  emit (PushChanges branch_name pushed);;
  try_except pushed (λ e, failed "git_push" (message e));;
  (* 10. Create PR *)
  let pr_body : str :=
    "This PR updates dependencies to fix vulnerabilities detected by Trivy."
    ++ ["010"%char; "010"%char]
    ++ "**Fixed**: " ++ Py.join ", " updated_packages
    ++ ["010"%char; "010"%char]
    ++ "See attached report for details." in
  let title := "Security Fixes for " ++ repo_name in
  let requested :=
    GitClient.create_pr (git_token E) (api E) repo_url branch_name title pr_body in
  emit (CreatePr branch_name title pr_body requested);;
  pr_url ← call requested;
  if Obj.eq_str pr_url "failed"
  then return_ (failed "pr_creation" "PR creation failed")
  else return_ (pr_created pr_url).

(** What the caller of [run_repo] observes: the dict it returns or the
    exception it lets through, and the calls made on the way. *)
Definition outcome (E : Env) (repo_config : RepoConfig) (work_dir : str)
  : exc value * list event :=
  match run_repo E repo_config work_dir [] with
  | (Next r, t) | (Return r, t) => (Ok r, t)
  | (Crash e, t) => (Raise e, t)
  end.

End RepoRunner.

(** ** The repository files and the tools of the updaters *)

(** The files of the repository root, by name. *)
Abbreviation files := (gmap string str).

(** A finding as the updaters read it: they use [v.get("PkgName")] and
    [v.get("FixedVersion")] only, and each is a string or [None] (also when
    the key is missing). *)
Record Finding := {
  PkgName : option str;
  FixedVersion : option str
}.

Record Tools := {
  which : str -> bool;                                   (* [shutil.which] *)
  subprocess_run : list str -> files -> exc unit * files; (* with [check=True] *)
  json_loads : str -> exc value;
  json_dumps : value -> str                              (* with [indent=2] *)
}.

(** A method that reads and writes repository files and may raise. *)
Definition io (A : Type) : Type := files -> exc A * files.

#[global] Instance io_ret : MRet io := λ A a fs, (Ok a, fs).
#[global] Instance io_bind : MBind io :=
  λ A B f m fs,
    match m fs with
    | (Ok a, fs') => f a fs'
    | (Raise e, fs') => (Raise e, fs')
    end.

Module IO.
Definition raise {A} (e : exn) : io A := λ fs, (Raise e, fs).
Definition lift {A} (m : exc A) : io A := λ fs, (m, fs).
(** [path.exists()] *)
Definition exists_ (file : string) : io bool := λ fs, (Ok (bool_decide (is_Some (fs !! file))), fs).
(** [path.read_text()] *)
Definition read_text (file : string) : io str :=
  λ fs, match fs !! file with
        | Some content => (Ok content, fs)
        | None => (Raise (Exn FileNotFoundError "No such file or directory"), fs)
        end.
(** [path.write_text(content)] *)
Definition write_text (file : string) (content : str) : io unit :=
  λ fs, (Ok tt, <[file := content]> fs).
(** [try: subprocess.run(cmd, check=True) except CalledProcessError]:
    whether the command succeeded; any other exception propagates. *)
Definition run_checked (T : Tools) (cmd : list str) : io bool :=
  λ fs, match subprocess_run T cmd fs with
        | (Ok _, fs') => (Ok true, fs')
        | (Raise e, fs') =>
            match kind e with
            | CalledProcessError => (Ok false, fs')
            | _ => (Raise e, fs')
            end
        end.
End IO.

(** ** A Python [dict] with string keys, in insertion order *)

Module Dict.
Section Dict.
Context {V : Type}.

(** [d[k] = v]: an existing key keeps its place. *)
Fixpoint set (k : str) (v : V) (d : list (str * V)) : list (str * V) :=
  match d with
  | [] => [(k, v)]
  | (k', v') :: d' =>
      if Py.eqb k' k then (k, v) :: d' else (k', v') :: set k v d'
  end.

Fixpoint get (k : str) (d : list (str * V)) : option V :=
  match d with
  | [] => None
  | (k', v') :: d' => if Py.eqb k' k then Some v' else get k d'
  end.
End Dict.

(** [k in l] for a list of strings. *)
Definition mem (k : str) (l : list str) : bool := existsb (Py.eqb k) l.
End Dict.

(** ** The Update Set of each updater *)

Module Updates.

(** [fixed.split(",")[-1].strip()] when ["," in fixed]. *)
Definition last_alternative (fixed : str) : str :=
  if Py.has_char "," fixed then Py.strip (Py.after_last "," fixed) else fixed.

(** One turn of the loop that every updater starts with: a finding
    without a package name or without a fixed version is passed over;
    [norm] is what the updater does to the fixed version before it stores
    it. *)
Definition store (norm : str -> str) (updates : list (str * str)) (v : Finding)
  : list (str * str) :=
  match PkgName v, FixedVersion v with
  | Some pkg, Some fixed =>
      if Py.nonempty pkg && Py.nonempty fixed
      then Dict.set pkg (norm fixed) updates
      else updates
  | _, _ => updates
  end.

(** The loop of [PythonUpdater.update], lines 19-26: a fixed version with a
    comma is reduced to its last alternative. *)
Definition python (vulnerabilities : list Finding) : list (str * str) :=
  fold_left (store last_alternative) vulnerabilities [].

(** The loop of the other four updaters (lines 78-83, 137-140, 208-211,
    289-292): the fixed version is stored as it is. *)
Definition plain (vulnerabilities : list Finding) : list (str * str) :=
  fold_left (store id) vulnerabilities [].

End Updates.

(** ** [PythonUpdater] (requirements.txt) *)

Module PythonUpdater.

Definition is_operator (c : ascii) : bool :=
  Py.has_char c "<>=!~".

(** [$] also matches just before a final newline. *)
Definition chop_final_newline (s : str) : str :=
  match rev s with
  | "010"%char :: r => rev r
  | _ => s
  end.

(** The pattern of line 51 matched at the start of [clean_line]: the
    escaped name, then nothing or one operator character followed by
    anything on the same line, then the end of the string. *)
Definition pattern_match (pkg clean_line : str) : bool :=
  match Py.strip_prefix pkg clean_line with
  | None => false
  | Some rest =>
      match chop_final_newline rest with
      | [] => true
      | c :: tail => is_operator c && negb (Py.has_char "010" tail)
      end
  end.

(** The inner loop over [updates.items()], up to its [break]. *)
Fixpoint first_match (updates : list (str * str)) (clean_line : str)
  : option (str * str) :=
  match updates with
  | [] => None
  | (pkg, fixed_ver) :: rest =>
      if pattern_match pkg clean_line then Some (pkg, fixed_ver)
      else first_match rest clean_line
  end.

Definition clean (line : str) : str := Py.strip (Py.before_first "#" line).

Definition comment_of (line : str) : str :=
  if Py.has_char "#" line then " #" ++ Py.after_first "#" line else [].

Record state := State {
  new_lines : list str;
  modified : bool;
  updated_pkgs : list str
}.

(** One turn of the loop over the lines, lines 43-65. *)
Definition step (updates : list (str * str)) (st : state) (line : str) : state :=
  let clean_line := clean line in
  match clean_line with
  | [] => State (new_lines st ++ [line]) (modified st) (updated_pkgs st)
  | _ :: _ =>
      match first_match updates clean_line with
      | Some (pkg, fixed_ver) =>
          let new_line := pkg ++ ">=" ++ fixed_ver ++ comment_of line in
          State (new_lines st ++ [new_line]) true (updated_pkgs st ++ [pkg])
      | None => State (new_lines st ++ [line]) (modified st) (updated_pkgs st)
      end
  end.

Definition process (updates : list (str * str)) (lines : list str) : state :=
  fold_left (step updates) lines (State [] false []).

Definition update (vulnerabilities : list Finding) : io (list str) :=
  found ← IO.exists_ "requirements.txt";
  if negb found then mret [] else
  let updates := Updates.python vulnerabilities in
  if negb (Py.nonempty_list updates) then mret [] else
  content ← IO.read_text "requirements.txt";
  let st := process updates (Py.splitlines content) in
  if modified st then
    IO.write_text "requirements.txt"
      (Py.join ["010"%char] (new_lines st) ++ ["010"%char]);;
    mret (updated_pkgs st)
  else mret [].

End PythonUpdater.

(** ** Regular expressions of the text fallbacks *)

Module Re.

Definition quote : ascii := "034"%char.

(** The characters that are not literal in a pattern. *)
Definition is_meta (c : ascii) : bool :=
  Py.has_char c "\.^$*+?{}[]|()".

Inductive atom :=
| Lit (c : ascii)
| AnyChar.                       (* [.]: any character but a newline *)

(** A package name pasted into a pattern without [re.escape].  A name made
    of literal characters and dots is read as Python reads it; a name with
    another special character is outside this model and is reported as
    [UnsupportedPattern]. *)
Fixpoint compile_name (pkg : str) : exc (list atom) :=
  match pkg with
  | [] => Ok []
  | c :: rest =>
      atoms ← compile_name rest;
      if Ascii.eqb c "." then Ok (AnyChar :: atoms)
      else if is_meta c
           then Raise (Exn UnsupportedPattern "special character in a package name")
           else Ok (Lit c :: atoms)
  end.

Fixpoint match_atoms (atoms : list atom) (s : str) : option str :=
  match atoms, s with
  | [], _ => Some s
  | Lit a :: atoms', c :: s' =>
      if Ascii.eqb a c then match_atoms atoms' s' else None
  | AnyChar :: atoms', c :: s' =>
      if Ascii.eqb c "010" then None else match_atoms atoms' s'
  | _ :: _, [] => None
  end.

(** The [re.match] of lines 180 and 248: the name, optional white space,
    and an equals sign, at the start of [clean_line]. *)
Definition match_assignment (pkg clean_line : str) : exc bool :=
  atoms ← compile_name pkg;
  Ok match match_atoms atoms clean_line with
     | Some rest =>
         match Py.drop_while Py.isspace rest with
         | "="%char :: _ => true
         | _ => false
         end
     | None => false
     end.

(** The position of the first double quote of [s]. *)
Fixpoint find_quote (s : str) : option nat :=
  match s with
  | [] => None
  | c :: s' => if Ascii.eqb c quote then Some 0
               else option_map S (find_quote s')
  end.

(** The [re.search] of line 259: the content of the first substring
    between two double quotes. *)
Fixpoint search_quoted (line : str) : option str :=
  match line with
  | [] => None
  | c :: rest =>
      if Ascii.eqb c quote then
        match find_quote rest with
        | Some n => Some (firstn n rest)
        | None => None
        end
      else search_quoted rest
  end.

(** The [re.sub] of line 186, which has no [count], for a replacement
    text without a backslash: every substring between two double quotes is
    replaced, left to right.  [skip] counts the characters of a match still
    to be dropped. *)
Fixpoint sub_quoted_from (repl : str) (skip : nat) (line : str) : str :=
  match line with
  | [] => []
  | c :: rest =>
      match skip with
      | S k => sub_quoted_from repl k rest
      | O =>
          if Ascii.eqb c quote then
            match find_quote rest with
            | Some n => repl ++ sub_quoted_from repl (S n) rest
            | None => c :: sub_quoted_from repl 0 rest
            end
          else c :: sub_quoted_from repl 0 rest
      end
  end.

(** A backslash in the replacement starts an escape of the template
    language, which is outside this model. *)
Definition sub_quoted (ver line : str) : exc str :=
  if Py.has_char "\" ver
  then Raise (Exn UnsupportedPattern "backslash in a replacement")
  else Ok (sub_quoted_from ([quote] ++ ver ++ [quote]) 0 line).

End Re.

(** ** [PoetryUpdater] (pyproject.toml) *)

Module PoetryUpdater.

(** The loop over [updates.items()] that calls [poetry add], lines 149-161. *)
Fixpoint cli (T : Tools) (updates : list (str * str)) (updated_pkgs : list str)
  : io (list str) :=
  match updates with
  | [] => mret updated_pkgs
  | (pkg, ver) :: rest =>
      ok ← IO.run_checked T ["poetry" : str; "add" : str; pkg ++ ">=" ++ ver];
      cli T rest (if ok : bool then updated_pkgs ++ [pkg] else updated_pkgs)
  end.

(** The inner loop of the fallback over [updates.items()], lines 175-192:
    the first pending package whose pattern matches a line with a quote. *)
Fixpoint first_match (updates : list (str * str)) (updated_pkgs : list str)
    (clean_line line : str) : exc (option (str * str)) :=
  match updates with
  | [] => Ok None
  | (pkg, ver) :: rest =>
      if Dict.mem pkg updated_pkgs
      then first_match rest updated_pkgs clean_line line
      else
        matched ← Re.match_assignment pkg clean_line;
        if matched && Py.has_char Re.quote line then Ok (Some (pkg, ver))
        else first_match rest updated_pkgs clean_line line
  end.

Record state := State {
  new_lines : list str;
  modified : bool;
  updated_pkgs : list str
}.

(** One turn of the loop over the lines, lines 170-195. *)
Definition step (updates : list (str * str)) (st : state) (line : str)
  : exc state :=
  let clean_line := Py.strip line in
  hit ← first_match updates (updated_pkgs st) clean_line line;
  match hit with
  | Some (pkg, ver) =>
      new_line ← Re.sub_quoted ver line;
      Ok (State (new_lines st ++ [new_line]) true (updated_pkgs st ++ [pkg]))
  | None => Ok (State (new_lines st ++ [line]) (modified st) (updated_pkgs st))
  end.

Fixpoint process (updates : list (str * str)) (st : state) (lines : list str)
  : exc state :=
  match lines with
  | [] => Ok st
  | line :: rest => st' ← step updates st line; process updates st' rest
  end.

Definition update (T : Tools) (vulnerabilities : list Finding) : io (list str) :=
  found ← IO.exists_ "pyproject.toml";
  if negb found then mret [] else
  let updates := Updates.plain vulnerabilities in
  if negb (Py.nonempty_list updates) then mret [] else
  (* Try using poetry CLI first *)
  via_cli ← (if which T "poetry" then cli T updates [] else mret []);
  (* Fallback to text replacement if CLI failed or not found *)
  if length via_cli <? length updates then
    content ← IO.read_text "pyproject.toml";
    st ← IO.lift (process updates (State [] false via_cli)
                    (Py.splitlines content));
    (if modified st then
       IO.write_text "pyproject.toml"
         (Py.join ["010"%char] (new_lines st) ++ ["010"%char])
     else mret tt);;
    mret (updated_pkgs st)
  else mret via_cli.

End PoetryUpdater.

(** ** [PipenvUpdater] (Pipfile) *)

Module PipenvUpdater.

(** The loop over [updates.items()] that calls [pipenv install], lines
    219-231.  The keyword argument [env={**os.environ, ...}] of line 227 is
    evaluated before the call, and the module never imports [os]: the first
    turn raises [NameError], which [except subprocess.CalledProcessError]
    does not catch. *)
Definition cli (updates : list (str * str)) (updated_pkgs : list str)
  : io (list str) :=
  match updates with
  | [] => mret updated_pkgs
  | _ :: _ => IO.raise (Exn NameError "name 'os' is not defined")
  end.

(** Lines 259-267: the first quoted text keeps a leading [==]. *)
Definition rewrite (ver line : str) : option str :=
  match Re.search_quoted line with
  | Some old_ver_str =>
      let new_ver_str :=
        if Py.startswith old_ver_str "==" then "==" ++ ver else ver in
      Some (Py.replace ([Re.quote] ++ old_ver_str ++ [Re.quote])
                       ([Re.quote] ++ new_ver_str ++ [Re.quote]) line)
  | None => None
  end.

(** The inner loop of the fallback, lines 244-273. *)
Fixpoint first_match (updates : list (str * str)) (updated_pkgs : list str)
    (clean_line line : str) : exc (option (str * str)) :=
  match updates with
  | [] => Ok None
  | (pkg, ver) :: rest =>
      if Dict.mem pkg updated_pkgs
      then first_match rest updated_pkgs clean_line line
      else
        matched ← Re.match_assignment pkg clean_line;
        if matched && Py.has_char Re.quote line then
          match rewrite ver line with
          | Some new_line => Ok (Some (pkg, new_line))
          | None => first_match rest updated_pkgs clean_line line
          end
        else first_match rest updated_pkgs clean_line line
  end.

Record state := State {
  new_lines : list str;
  modified : bool;
  updated_pkgs : list str
}.

Definition step (updates : list (str * str)) (st : state) (line : str)
  : exc state :=
  let clean_line := Py.strip line in
  hit ← first_match updates (updated_pkgs st) clean_line line;
  match hit with
  | Some (pkg, new_line) =>
      Ok (State (new_lines st ++ [new_line]) true (updated_pkgs st ++ [pkg]))
  | None => Ok (State (new_lines st ++ [line]) (modified st) (updated_pkgs st))
  end.

Fixpoint process (updates : list (str * str)) (st : state) (lines : list str)
  : exc state :=
  match lines with
  | [] => Ok st
  | line :: rest => st' ← step updates st line; process updates st' rest
  end.

Definition update (T : Tools) (vulnerabilities : list Finding) : io (list str) :=
  found ← IO.exists_ "Pipfile";
  if negb found then mret [] else
  let updates := Updates.plain vulnerabilities in
  if negb (Py.nonempty_list updates) then mret [] else
  via_cli ← (if which T "pipenv" then cli updates [] else mret []);
  (* Fallback text replacement *)
  if length via_cli <? length updates then
    content ← IO.read_text "Pipfile";
    st ← IO.lift (process updates (State [] false via_cli)
                    (Py.splitlines content));
    (if modified st then
       IO.write_text "Pipfile"
         (Py.join ["010"%char] (new_lines st) ++ ["010"%char])
     else mret tt);;
    mret (updated_pkgs st)
  else mret via_cli.

End PipenvUpdater.

(** ** [MavenUpdater] (pom.xml) *)

Module MavenUpdater.

(** The longest prefix of [s] whose characters satisfy [p], and the rest. *)
Fixpoint span (p : ascii -> bool) (s : str) : str * str :=
  match s with
  | [] => ([], [])
  | c :: s' => if p c then let '(a, b) := span p s' in (c :: a, b)
               else ([], s)
  end.

(** [artifact_id] of lines 314-316. *)
Definition artifact_of (pkg : str) : str :=
  if Py.has_char ":" pkg then Py.after_first ":" pkg else pkg.

(** The pattern of lines 323-326 matched at the start of [s]: the three
    groups are the artifact tag up to and including the opening version
    tag, the version text (one or more characters other than [<]), and the
    closing version tag.  The result is group 1, group 2 and what follows
    the match. *)
Definition match_here (artifact_id s : str) : option (str * str * str) :=
  let head := "<artifactId>" ++ artifact_id ++ "</artifactId>" in
  match Py.strip_prefix head s with
  | None => None
  | Some s1 =>
      let '(ws, s2) := span Py.isspace s1 in
      match Py.strip_prefix "<version>" s2 with
      | None => None
      | Some s3 =>
          let '(old, s4) := span (λ c, negb (Ascii.eqb c "<")) s3 in
          match old, Py.strip_prefix "</version>" s4 with
          | _ :: _, Some rest => Some (head ++ ws ++ "<version>", old, rest)
          | _, _ => None
          end
      end
  end.

(** [pattern.search(content)] *)
Fixpoint search (artifact_id content : str) : bool :=
  match match_here artifact_id content with
  | Some _ => true
  | None => match content with
            | [] => false
            | _ :: rest => search artifact_id rest
            end
  end.

(** [pattern.sub(template, content)] where the template puts [ver] between
    group 1 and group 3: every match, left to right.  [skip] counts the
    characters of a match still to be dropped. *)
Fixpoint sub_from (artifact_id ver : str) (skip : nat) (content : str) : str :=
  match content with
  | [] => []
  | c :: rest =>
      match skip with
      | S k => sub_from artifact_id ver k rest
      | O =>
          match match_here artifact_id content with
          | Some (g1, old, _) =>
              g1 ++ ver ++ "</version>"
              ++ sub_from artifact_id ver
                   (length g1 + length old + length ("</version>" : str) - 1) rest
          | None => c :: sub_from artifact_id ver 0 rest
          end
      end
  end.

(** A backslash in [ver] starts an escape of the template language, which is
    outside this model. *)
Definition sub (artifact_id ver content : str) : exc str :=
  if Py.has_char "\" ver
  then Raise (Exn UnsupportedPattern "backslash in a replacement")
  else Ok (sub_from artifact_id ver 0 content).

(** The loop over [updates.items()], lines 310-331. *)
Fixpoint process (updates : list (str * str)) (content : str)
    (updated_pkgs : list str) : exc (str * list str) :=
  match updates with
  | [] => Ok (content, updated_pkgs)
  | (pkg, ver) :: rest =>
      let artifact_id := artifact_of pkg in
      if search artifact_id content then
        content' ← sub artifact_id ver content;
        process rest content' (updated_pkgs ++ [pkg])
      else process rest content updated_pkgs
  end.

Definition update (vulnerabilities : list Finding) : io (list str) :=
  found ← IO.exists_ "pom.xml";
  if negb found then mret [] else
  let updates := Updates.plain vulnerabilities in
  if negb (Py.nonempty_list updates) then mret [] else
  original_content ← IO.read_text "pom.xml";
  '(content, updated_pkgs) ← IO.lift (process updates original_content []);
  if negb (Py.eqb content original_content) then
    IO.write_text "pom.xml" content;;
    mret updated_pkgs
  else mret [].

End MavenUpdater.

(** ** [NodeUpdater] (package.json) *)

Module NodeUpdater.

(** [s in container] for a string [s]. *)
Definition str_in (s : str) (container : value) : exc bool :=
  match container with
  | VDict d => Ok (match Dict.get s d with Some _ => true | None => false end)
  | VList l => Ok (existsb (λ x, Obj.eq_str x s) l)
  | VStr t => Ok (Py.contains s t)
  | _ => Raise (Exn TypeError "argument is not iterable")
  end.

(** [container[key]] for a string [key]. *)
Definition getitem (container : value) (key : str) : exc value :=
  match container with
  | VDict d => match Dict.get key d with
               | Some v => Ok v
               | None => Raise (Exn KeyError key)
               end
  | VList _ | VStr _ => Raise (Exn TypeError "indices must be integers")
  | _ => Raise (Exn TypeError "object is not subscriptable")
  end.

(** [container[key] = v] for a string [key]. *)
Definition setitem (container : value) (key : str) (v : value) : exc value :=
  match container with
  | VDict d => Ok (VDict (Dict.set key v d))
  | _ => Raise (Exn TypeError "object does not support item assignment")
  end.

Record state := State {
  data : value;
  modified : bool;
  updated_pkgs : list str
}.

(** The loop over [updates.items()] for one section, lines 101-107. *)
Fixpoint section_loop (section : str) (updates : list (str * str)) (st : state)
  : exc state :=
  match updates with
  | [] => Ok st
  | (pkg, fixed_ver) :: rest =>
      deps ← getitem (data st) section;
      present ← str_in pkg deps;
      if present : bool then
        deps' ← setitem deps pkg (VStr fixed_ver);
        data' ← setitem (data st) section deps';
        section_loop section rest (State data' true (updated_pkgs st ++ [pkg]))
      else section_loop section rest st
  end.

(** The loop over the two sections, lines 99-107. *)
Fixpoint sections_loop (sections : list str) (updates : list (str * str))
    (st : state) : exc state :=
  match sections with
  | [] => Ok st
  | section :: rest =>
      present ← str_in section (data st);
      st' ← (if present : bool then section_loop section updates st else Ok st);
      sections_loop rest updates st'
  end.

Definition update (T : Tools) (vulnerabilities : list Finding) : io (list str) :=
  found ← IO.exists_ "package.json";
  if negb found then mret [] else
  let updates := Updates.plain vulnerabilities in
  if negb (Py.nonempty_list updates) then mret [] else
  text ← IO.read_text "package.json";
  match json_loads T text with
  | Raise e =>
      match kind e with
      | JSONDecodeError => mret []
      | _ => IO.raise e
      end
  | Ok parsed =>
      st ← IO.lift (sections_loop ["dependencies" : str; "devDependencies" : str]
                      updates (State parsed false []));
      if modified st then
        IO.write_text "package.json" (json_dumps T (data st) ++ ["010"%char]);;
        (if which T "npm"
         then IO.run_checked T ["npm" : str; "install" : str;
                                "--package-lock-only" : str];; mret tt
         else mret tt);;
        mret (updated_pkgs st)
      else mret []
  end.

End NodeUpdater.

(** ** [DependencyUpdater] *)

Module DependencyUpdater.

Inductive updater := Python | Node | Poetry | Pipenv | Maven.

(** The manifest each updater owns. *)
Definition manifest (u : updater) : string :=
  match u with
  | Python => "requirements.txt"
  | Node => "package.json"
  | Poetry => "pyproject.toml"
  | Pipenv => "Pipfile"
  | Maven => "pom.xml"
  end.

(** [updater.update(repo_path, vulnerabilities)] *)
Definition update (T : Tools) (u : updater) (vulnerabilities : list Finding)
  : io (list str) :=
  match u with
  | Python => PythonUpdater.update vulnerabilities
  | Node => NodeUpdater.update T vulnerabilities
  | Poetry => PoetryUpdater.update T vulnerabilities
  | Pipenv => PipenvUpdater.update T vulnerabilities
  | Maven => MavenUpdater.update vulnerabilities
  end.

(** The Update Set an updater builds from the findings. *)
Definition update_set (u : updater) (vulnerabilities : list Finding)
  : list (str * str) :=
  match u with
  | Python => Updates.python vulnerabilities
  | _ => Updates.plain vulnerabilities
  end.

Definition updaters : list updater := [Python; Node; Poetry; Pipenv; Maven].

(** The loop of [update_dependencies], lines 354-356. *)
Fixpoint update_each (T : Tools) (us : list updater)
    (vulnerabilities : list Finding) (all_updated : list str) : io (list str) :=
  match us with
  | [] => mret all_updated
  | u :: rest =>
      updated ← update T u vulnerabilities;
      update_each T rest vulnerabilities (all_updated ++ updated)
  end.

Definition update_dependencies (T : Tools) (vulnerabilities : list Finding)
  : io (list str) :=
  update_each T updaters vulnerabilities [].

End DependencyUpdater.

(** ** Observations on a run, and sample inputs *)

Module Observe.

(** The side effects that remediate: branch, update, commit, push, change
    request. *)
Definition is_remediation (ev : event) : bool :=
  match ev with
  | CreateBranch _ _ | UpdateDependencies _ _ | CommitChanges _ _
  | PushChanges _ _ | CreatePr _ _ _ _ => true
  | _ => false
  end.

(** The side effects that publish: commit, push, change request. *)
Definition is_publication (ev : event) : bool :=
  match ev with
  | CommitChanges _ _ | PushChanges _ _ | CreatePr _ _ _ _ => true
  | _ => false
  end.

(** A finding that is a JSON object. *)
Definition is_record (v : value) : bool :=
  match v with VDict _ => true | _ => false end.

(** A finding whose severity is exactly HIGH or MEDIUM. *)
Definition high_or_medium (v : value) : bool :=
  match v with
  | VDict d =>
      match Obj.lookup "Severity" d with
      | Some sev => Obj.eq_str sev "HIGH" || Obj.eq_str sev "MEDIUM"
      | None => false
      end
  | _ => false
  end.

(** What the trace of a run tells about its result: a test run that did
    not pass ends the run as a failure of the step "tests" before any
    publication; a change-request call that returned decides the result. *)
Definition trace_facts (o : exc value * list event) : Prop :=
  (In (RunTests false) o.2 ->
     o.1 = Ok (RepoRunner.failed "tests" "Tests failed after update")
     /\ Forall (λ ev, is_publication ev = false) o.2)
  /\ (forall branch title body pr_url,
        In (CreatePr branch title body (Ok pr_url)) o.2 ->
        o.1 = Ok (if Obj.eq_str pr_url "failed"
                  then RepoRunner.failed "pr_creation" "PR creation failed"
                  else RepoRunner.pr_created pr_url)).

End Observe.

Module Sample.

Definition finding (pkg severity : str) : value :=
  VDict [("VulnerabilityID" : str, VStr "CVE-2020-1234");
         ("PkgName" : str, VStr pkg);
         ("FixedVersion" : str, VStr "2.31.0");
         ("Severity" : str, VStr severity)].

Definition report (findings : list value) : value :=
  VDict [("SchemaVersion" : str, VNum 2);
         ("Results" : str,
          VList [VDict [("Target" : str, VStr "requirements.txt");
                        ("Vulnerabilities" : str, VList findings)]])].

Definition config : RepoConfig :=
  {| url := "https://github.com/acme/app.git"; name := "app";
     test_command := None |}.

(** An API that is never reached or always answers [201] with a link. *)
Definition api_created : http :=
  {| post := λ _ _ _,
       Ok (Response 201 []
             (Ok (VDict [("html_url" : str,
                          VStr "https://github.com/acme/app/pull/7")])));
     get_ := λ _ _, Raise (Exn RequestException "unused") |}.

(** An API that answers [422]: the request exists, and the lookup fails. *)
Definition api_exists : http :=
  {| post := λ _ _ _,
       Ok (Response 422 "Validation Failed: A pull request already exists for acme:fix."
             (Ok VNone));
     get_ := λ _ _, Raise (Exn RequestException "connection reset") |}.

(** An API that answers [500]. *)
Definition api_down : http :=
  {| post := λ _ _ _, Ok (Response 500 "Server Error" (Ok VNone));
     get_ := λ _ _, Raise (Exn RequestException "unused") |}.

(** Collaborators that all succeed, around a given scan output, test return
    code, token and API. *)
Definition env (scan : value) (test_code : Z) (token : option str) (H : http)
  : Env :=
  {| git_token := token;
     api := H;
     clone_repo := λ _ _, Ok ("work/app" : str);
     create_branch := λ _ _, Ok tt;
     commit_changes := λ _ _, Ok tt;
     push_changes := λ _ _, Ok tt;
     docker_build := λ _ _, Ok 0%Z;
     trivy_image := λ _, Ok scan;
     shell := λ _ _, Ok test_code;
     update_dependencies := λ _ _, Ok ["requests" : str] |}.

End Sample.

(** ** The Update Set as the specification words it *)

Module Spec.

(** A finding that names [pkg] and carries a fixed version, both
    non-empty. *)
Definition fixes (pkg : str) (v : Finding) : option str :=
  match PkgName v, FixedVersion v with
  | Some p, Some fixed =>
      if Py.eqb p pkg && Py.nonempty p && Py.nonempty fixed
      then Some fixed else None
  | _, _ => None
  end.

(** The fixed version of the last finding that fixes [pkg]. *)
Fixpoint last_fixed (pkg : str) (vulnerabilities : list Finding) : option str :=
  match vulnerabilities with
  | [] => None
  | v :: rest =>
      match last_fixed pkg rest with
      | Some fixed => Some fixed
      | None => fixes pkg v
      end
  end.

(** A text that neither starts nor ends with white space. *)
Definition trimmed (s : str) : bool :=
  match s with
  | [] => true
  | c :: _ => negb (Py.isspace c) && negb (Py.isspace (List.last s c))
  end.

(** The reduction of the policy, told by the shape of the field: a fixed
    version without a comma stands for itself; of several alternatives the
    target is the text behind the last comma, without the white space
    around it. *)
Inductive reduced : str -> str -> Prop :=
| reduced_single fixed :
    Py.has_char "," fixed = false -> reduced fixed fixed
| reduced_last before ws alt ws' :
    Py.has_char "," alt = false ->
    forallb Py.isspace ws = true ->
    forallb Py.isspace ws' = true ->
    trimmed alt = true ->
    reduced (before ++ "," ++ ws ++ alt ++ ws') alt.

(** The last finding whose package name is [pkg], whatever else it
    carries. *)
Fixpoint last_naming (pkg : str) (vulnerabilities : list Finding)
  : option Finding :=
  match vulnerabilities with
  | [] => None
  | v :: rest =>
      match last_naming pkg rest with
      | Some w => Some w
      | None => match PkgName v with
                | Some p => if Py.eqb p pkg then Some v else None
                | None => None
                end
      end
  end.

(** The target the claim words: the fixed version of the last finding
    naming [pkg], reduced to its last comma-separated alternative. *)
Definition claimed_target (pkg : str) (vulnerabilities : list Finding)
  : option str :=
  match last_naming pkg vulnerabilities with
  | Some v => option_map Updates.last_alternative (FixedVersion v)
  | None => None
  end.

End Spec.

Module SampleRepo.

Definition finding (pkg fixed : str) : Finding :=
  {| PkgName := Some pkg; FixedVersion := Some fixed |}.

(** Lines joined and ended by a newline. *)
Definition text (lines : list str) : str :=
  Py.join ["010"%char] lines ++ ["010"%char].

Definition quoted (s : str) : str := [Re.quote] ++ s ++ [Re.quote].

(** Tools: the named programs are installed and every command succeeds
    without touching a file; the JSON library is not reached. *)
Definition tools (installed : list str) : Tools :=
  {| which := λ program, Dict.mem program installed;
     subprocess_run := λ _ fs, (Ok tt, fs);
     json_loads := λ _, Raise (Exn JSONDecodeError "not a JSON document");
     json_dumps := λ _, [] |}.

Definition pipfile : str :=
  text ["[packages]" : str; "requests = " ++ quoted "==2.25.1"].

Definition pom : str :=
  text ["<dependency>" : str;
        "  <artifactId>jackson-databind</artifactId>" : str;
        "  <version>2.10.0</version>" : str;
        "</dependency>" : str].

Definition pyproject : str :=
  text ["[tool.poetry.dependencies]" : str;
        "requests = { version = " ++ quoted "2.25.1" ++ ", extras = ["
          ++ quoted "security" ++ "] }"].

End SampleRepo.

(** ** The lines [PythonUpdater] writes *)

Module Lines.

Definition nl : str := ["010"%char].

(** A line as [splitlines] returns it holds no line boundary. *)
Definition no_linebreak (s : str) : Prop :=
  Forall (λ c, Py.is_linebreak c = false) s.

(** Whether the loop of [PythonUpdater.update] rewrites [line]. *)
Definition hit (updates : list (str * str)) (line : str) : bool :=
  match PythonUpdater.clean line with
  | [] => false
  | _ :: _ =>
      match PythonUpdater.first_match updates (PythonUpdater.clean line) with
      | Some _ => true
      | None => false
      end
  end.

(** The line the loop appends to [new_lines] for [line]. *)
Definition line_out (updates : list (str * str)) (line : str) : str :=
  match PythonUpdater.clean line with
  | [] => line
  | _ :: _ =>
      match PythonUpdater.first_match updates (PythonUpdater.clean line) with
      | Some (pkg, fixed_ver) =>
          pkg ++ ">=" ++ fixed_ver ++ PythonUpdater.comment_of line
      | None => line
      end
  end.

(** The content [PythonUpdater.update] leaves in requirements.txt. *)
Definition written (updates : list (str * str)) (content : str) : str :=
  let lines := Py.splitlines content in
  if existsb (hit updates) lines
  then Py.join nl (map (line_out updates) lines) ++ nl
  else content.

(** [s.endswith(t)] *)
Definition ends_with (s t : str) : Prop := exists r, s = r ++ t.

(** Names and versions over which the rewriting is stable: a name holds no
    version operator, a version holds no [#] and no line boundary. *)
Definition stable_entry (entry : str * str) : Prop :=
  Forall (λ c, PythonUpdater.is_operator c = false) entry.1
  /\ Py.has_char "#" entry.2 = false
  /\ no_linebreak entry.2.

(** The text of [s] before any version operator. *)
Fixpoint before_operator (s : str) : str :=
  match s with
  | [] => []
  | c :: s' => if PythonUpdater.is_operator c then [] else c :: before_operator s'
  end.

(** The package token of a line: the text before any version operator, the
    comment and the surrounding white space left aside. *)
Definition package_token (line : str) : str :=
  before_operator (PythonUpdater.clean line).

(** A name that holds no version operator. *)
Definition plain_name (pkg : str) : Prop :=
  Forall (λ c, PythonUpdater.is_operator c = false) pkg.

(** The files after one and after two applications of
    [PythonUpdater.update] with the same findings. *)
Definition once (vulns : list Finding) (fs : files) : files :=
  (PythonUpdater.update vulns fs).2.
Definition twice (vulns : list Finding) (fs : files) : files :=
  once vulns (once vulns fs).

End Lines.

(** ** The pom.xml of the claims *)

Module Pom.





(** The pom.xml of [tests/test_extended_updaters.py]. *)
Definition test_pom (version : str) : str :=
  SampleRepo.text
    [[]; "<project>" : str; "    <dependencies>" : str;
     "        <dependency>" : str;
     "            <groupId>com.fasterxml.jackson.core</groupId>" : str;
     "            <artifactId>jackson-databind</artifactId>" : str;
     "            <version>" ++ version ++ "</version>";
     "        </dependency>" : str; "    </dependencies>" : str;
     "</project>" : str].

End Pom.

From Stdlib Require Import Sorted.

(** ** The ways a run of [run_repo] ends *)

Module Pipeline.
Import RepoRunner.

(** The place of a call in the method, by the numbered comments of
    [run_repo]: clone, build, scan, saved report, branch, update, summary,
    tests, commit, push, change request. *)
Definition stage (ev : event) : nat :=
  match ev with
  | CloneRepo _ _ => 1
  | BuildImage _ _ => 2
  | ScanImage _ _ => 3
  | SaveReport _ => 4
  | CreateBranch _ _ => 5
  | UpdateDependencies _ _ => 6
  | SaveSummary _ => 7
  | RunTests _ => 8
  | CommitChanges _ _ => 9
  | PushChanges _ _ => 10
  | CreatePr _ _ _ _ => 11
  end.

(** The call that a failed result with the given step and error text goes
    back to. *)
Definition blamed (step error : str) (ev : event) : Prop :=
  match ev with
  | CloneRepo _ (Raise e) => step = "clone" /\ error = message e
  | BuildImage _ false => step = "build" /\ error = "Docker build failed"
  | ScanImage _ (Ok report) =>
      step = "scan" /\ error = "Trivy scan failed" /\ Obj.truthy report = false
  | CreateBranch _ (Raise e) => step = "git_branch" /\ error = message e
  | RunTests false => step = "tests" /\ error = "Tests failed after update"
  | CommitChanges _ (Raise e) | PushChanges _ (Raise e) =>
      step = "git_push" /\ error = message e
  | CreatePr _ _ _ (Ok pr_url) =>
      step = "pr_creation" /\ error = "PR creation failed"
      /\ pr_url = VStr "failed"
  | _ => False
  end.

(** The call an exception that leaves [run_repo] comes from: the scan, the
    update or the change request raised it; or it was raised after the
    report was saved (while the findings were read) or after the summary
    was opened (while it was written), and then it is an [AttributeError]
    or a [TypeError]. *)
Definition raised_at (e : exn) (ev : event) : Prop :=
  match ev with
  | ScanImage _ r => r = Raise e
  | UpdateDependencies _ r => r = Raise e
  | CreatePr _ _ _ r => r = Raise e
  | SaveReport _ | SaveSummary _ => kind e = AttributeError \/ kind e = TypeError
  | _ => False
  end.

Section Exits.
Variables (E : Env) (cfg : RepoConfig) (wd : str).

Definition image : str := name cfg ++ ":security-scan".

Definition branch (vulns : list value) : str :=
  "security/fix-vulns-" ++ Py.str_of_nat (length vulns).

Definition commit_message : str :=
  "Security: Update dependencies to fix vulnerabilities".

Definition pr_title : str := "Security Fixes for " ++ name cfg.

Definition pr_body (updated_packages : list str) : str :=
  "This PR updates dependencies to fix vulnerabilities detected by Trivy."
  ++ ["010"%char; "010"%char]
  ++ "**Fixed**: " ++ Py.join ", " updated_packages
  ++ ["010"%char; "010"%char]
  ++ "See attached report for details.".

(** The calls of a run up to the build, the scan, the saved report, the
    update, the summary and the push, when each call before the last
    succeeded. *)
Definition built (path : str) (ok : bool) : list event :=
  [CloneRepo (url cfg) (Ok path); BuildImage image ok].

Definition scanned (path : str) (r : exc value) : list event :=
  built path true ++ [ScanImage image r].

Definition saved (path : str) (report : value) : list event :=
  scanned path (Ok report) ++ [SaveReport (name cfg ++ "_trivy_report.json")].

Definition branched (path : str) (report : value) (vulns : list value)
    (r : exc unit) : list event :=
  saved path report ++ [CreateBranch (branch vulns) r].

Definition updated (path : str) (report : value) (vulns : list value)
    (r : exc (list str)) : list event :=
  branched path report vulns (Ok tt) ++ [UpdateDependencies vulns r].

Definition summarized (path : str) (report : value) (vulns : list value)
    (pkgs : list str) : list event :=
  updated path report vulns (Ok pkgs)
  ++ [SaveSummary (name cfg ++ "_security_summary.md")].

Definition tested (path : str) (report : value) (vulns : list value)
    (pkgs : list str) (passed : bool) : list event :=
  summarized path report vulns pkgs ++ [RunTests passed].

Definition committed (path : str) (report : value) (vulns : list value)
    (pkgs : list str) (r : exc unit) : list event :=
  tested path report vulns pkgs true ++ [CommitChanges commit_message r].

Definition pushed (path : str) (report : value) (vulns : list value)
    (pkgs : list str) (r : exc unit) : list event :=
  committed path report vulns pkgs (Ok tt) ++ [PushChanges (branch vulns) r].

Definition requested (path : str) (report : value) (vulns : list value)
    (pkgs : list str) (r : exc value) : list event :=
  pushed path report vulns pkgs (Ok tt)
  ++ [CreatePr (branch vulns) pr_title (pr_body pkgs) r].

(** What the steps before a given call answered. *)
Definition scan_done (path : str) (report : value) : Prop :=
  clone_repo E (url cfg) wd = Ok path
  /\ DockerRunner.build_image E path image = true
  /\ DockerRunner.scan_image E image = Ok report
  /\ Obj.truthy report = true.

Definition branch_due (path : str) (report : value) (vulns : list value)
  : Prop :=
  scan_done path report
  /\ (exists found,
        TrivyParser.parse_trivy_report report = Ok found
        /\ high_medium found = Ok vulns)
  /\ vulns <> [].

Definition update_done (path : str) (report : value) (vulns : list value)
    (pkgs : list str) : Prop :=
  branch_due path report vulns
  /\ create_branch E path (branch vulns) = Ok tt
  /\ update_dependencies E path vulns = Ok pkgs.

Definition tests_due (path : str) (report : value) (vulns : list value)
    (pkgs : list str) : Prop :=
  update_done path report vulns pkgs
  /\ summary_unfixed vulns = Ok tt
  /\ pkgs <> [].

Definition push_done (path : str) (report : value) (vulns : list value)
    (pkgs : list str) : Prop :=
  tests_due path report vulns pkgs
  /\ TestRunner.run_tests E path (test_command cfg) = true
  /\ commit_changes E path commit_message = Ok tt
  /\ push_changes E path (branch vulns) = Ok tt.

(** Every way [run_repo] ends: what the caller gets, and the calls made. *)
Inductive exit : exc value -> list event -> Prop :=
| exit_clone e :
    clone_repo E (url cfg) wd = Raise e ->
    exit (Ok (failed "clone" (message e))) [CloneRepo (url cfg) (Raise e)]
| exit_build path :
    clone_repo E (url cfg) wd = Ok path ->
    DockerRunner.build_image E path image = false ->
    exit (Ok (failed "build" "Docker build failed")) (built path false)
| exit_scan_raised path e :
    clone_repo E (url cfg) wd = Ok path ->
    DockerRunner.build_image E path image = true ->
    DockerRunner.scan_image E image = Raise e ->
    exit (Raise e) (scanned path (Raise e))
| exit_scan path report :
    clone_repo E (url cfg) wd = Ok path ->
    DockerRunner.build_image E path image = true ->
    DockerRunner.scan_image E image = Ok report ->
    Obj.truthy report = false ->
    exit (Ok (failed "scan" "Trivy scan failed")) (scanned path (Ok report))
| exit_parse_raised path report e :
    scan_done path report ->
    TrivyParser.parse_trivy_report report = Raise e ->
    exit (Raise e) (saved path report)
| exit_filter_raised path report found e :
    scan_done path report ->
    TrivyParser.parse_trivy_report report = Ok found ->
    high_medium found = Raise e ->
    exit (Raise e) (saved path report)
| exit_none path report found :
    scan_done path report ->
    TrivyParser.parse_trivy_report report = Ok found ->
    high_medium found = Ok [] ->
    exit (Ok no_action) (saved path report)
| exit_branch path report vulns e :
    branch_due path report vulns ->
    create_branch E path (branch vulns) = Raise e ->
    exit (Ok (failed "git_branch" (message e)))
      (branched path report vulns (Raise e))
| exit_update_raised path report vulns e :
    branch_due path report vulns ->
    create_branch E path (branch vulns) = Ok tt ->
    update_dependencies E path vulns = Raise e ->
    exit (Raise e) (updated path report vulns (Raise e))
| exit_summary_raised path report vulns pkgs e :
    update_done path report vulns pkgs ->
    summary_unfixed vulns = Raise e ->
    exit (Raise e) (summarized path report vulns pkgs)
| exit_skipped path report vulns :
    update_done path report vulns [] ->
    summary_unfixed vulns = Ok tt ->
    exit (Ok skipped) (summarized path report vulns [])
| exit_tests path report vulns pkgs :
    tests_due path report vulns pkgs ->
    TestRunner.run_tests E path (test_command cfg) = false ->
    exit (Ok (failed "tests" "Tests failed after update"))
      (tested path report vulns pkgs false)
| exit_commit path report vulns pkgs e :
    tests_due path report vulns pkgs ->
    TestRunner.run_tests E path (test_command cfg) = true ->
    commit_changes E path commit_message = Raise e ->
    exit (Ok (failed "git_push" (message e)))
      (committed path report vulns pkgs (Raise e))
| exit_push path report vulns pkgs e :
    tests_due path report vulns pkgs ->
    TestRunner.run_tests E path (test_command cfg) = true ->
    commit_changes E path commit_message = Ok tt ->
    push_changes E path (branch vulns) = Raise e ->
    exit (Ok (failed "git_push" (message e)))
      (pushed path report vulns pkgs (Raise e))
| exit_pr_raised path report vulns pkgs e :
    push_done path report vulns pkgs ->
    GitClient.create_pr (git_token E) (api E) (url cfg) (branch vulns)
      pr_title (pr_body pkgs) = Raise e ->
    exit (Raise e) (requested path report vulns pkgs (Raise e))
| exit_pr_failed path report vulns pkgs :
    push_done path report vulns pkgs ->
    GitClient.create_pr (git_token E) (api E) (url cfg) (branch vulns)
      pr_title (pr_body pkgs) = Ok (VStr "failed") ->
    exit (Ok (failed "pr_creation" "PR creation failed"))
      (requested path report vulns pkgs (Ok (VStr "failed")))
| exit_pr path report vulns pkgs pr_url :
    push_done path report vulns pkgs ->
    GitClient.create_pr (git_token E) (api E) (url cfg) (branch vulns)
      pr_title (pr_body pkgs) = Ok pr_url ->
    pr_url <> VStr "failed" ->
    exit (Ok (pr_created pr_url)) (requested path report vulns pkgs (Ok pr_url)).

End Exits.
End Pipeline.

Module SampleRun.

(** Collaborators that all succeed, without a token, around a given scan
    output and a given answer of the dependency update. *)
Definition env (scan : value) (updated : exc (list str)) : Env :=
  {| git_token := None;
     api := Sample.api_created;
     clone_repo := λ _ _, Ok ("work/app" : str);
     create_branch := λ _ _, Ok tt;
     commit_changes := λ _ _, Ok tt;
     push_changes := λ _ _, Ok tt;
     docker_build := λ _ _, Ok 0%Z;
     trivy_image := λ _, Ok scan;
     shell := λ _ _, Ok 0%Z;
     update_dependencies := λ _ _, updated |}.

Definition critical_and_high : value :=
  Sample.report [Sample.finding "openssl" "CRITICAL";
                 Sample.finding "requests" "HIGH";
                 Sample.finding "zlib" "LOW";
                 Sample.finding "flask" "MEDIUM"].

End SampleRun.

(** ** The shape of a scan report *)

Module Report.

(** The items an object [d] lists under one of two spellings of a key: the
    non-empty list under the capitalised key; or, when the capitalised key
    is missing or holds nothing, what the lower-case key holds, a list or
    nothing. *)
Definition lists (upper lower : str) (d : list (str * value))
    (items : list value) : Prop :=
  let u := default VNone (Obj.lookup upper d) in
  let l := default VNone (Obj.lookup lower d) in
  (u = VList items /\ items <> [])
  \/ (Obj.truthy u = false
      /\ (l = VList items \/ (Obj.truthy l = false /\ items = []))).

(** A result object and the findings it lists. *)
Definition result_lists (res : value) (findings : list value) : Prop :=
  exists d, res = VDict d /\ lists "Vulnerabilities" "vulnerabilities" d findings.

End Report.

(** ** What the updaters are given and what they leave alone *)

Module Pending.

(** The test [if pkg and fixed] of the loop that builds an Update Set. *)
Definition fixable (v : Finding) : bool :=
  match PkgName v, FixedVersion v with
  | Some pkg, Some fixed => Py.nonempty pkg && Py.nonempty fixed
  | _, _ => false
  end.

(** [pkg] is named by a finding that carries a fixed version. *)
Definition has_fix (vulnerabilities : list Finding) (pkg : str) : Prop :=
  exists v fixed,
    In v vulnerabilities /\ PkgName v = Some pkg /\ FixedVersion v = Some fixed
    /\ pkg <> [] /\ fixed <> [].

End Pending.

Module Frame.

(** No command that the tools run changes the file [f]. *)
Definition keeps (T : Tools) (f : string) : Prop :=
  forall cmd fs, (subprocess_run T cmd fs).2 !! f = fs !! f.

(** The method [m] leaves the file [f] as it is: it does not create it,
    change it or delete it. *)
Definition preserves {A} (f : string) (m : io A) : Prop :=
  forall fs, (m fs).2 !! f = fs !! f.

(** Whatever the method [m] returns satisfies [P]. *)
Definition yields {A} (P : A -> Prop) (m : io A) : Prop :=
  forall fs r fs', m fs = (Ok r, fs') -> P r.

End Frame.

(** ** The commands of the command-line path *)

Module Commands.

(** The files after the commands [cmds] were run one after the other,
    each to its end. *)
Fixpoint after (T : Tools) (cmds : list (list str)) (fs : files) : files :=
  match cmds with
  | [] => fs
  | cmd :: rest => after T rest (subprocess_run T cmd fs).2
  end.

(** [poetry add pkg>=ver] for each entry of an Update Set. *)
Definition poetry_add (updates : list (str * str)) : list (list str) :=
  map (λ entry, ["poetry" : str; "add" : str; entry.1 ++ ">=" ++ entry.2]) updates.

(** Every command the tools run comes to its end without an error. *)
Definition succeed (T : Tools) : Prop :=
  forall cmd fs, (subprocess_run T cmd fs).1 = Ok tt.

End Commands.

(** ** package.json after the update *)

Module PackageJson.

(** The entries of a section after the update: an entry whose name is in
    the Update Set holds the fixed version, as a string; any other entry is
    what it was; the order of the entries is kept. *)
Definition pinned (updates : list (str * str)) (deps : list (str * value))
  : list (str * value) :=
  map (λ entry, (entry.1, match Dict.get entry.1 updates with
                          | Some fixed_ver => VStr fixed_ver
                          | None => entry.2
                          end)) deps.

(** The names of the Update Set that a section lists, in the order of the
    set. *)
Definition hits (updates : list (str * str)) (deps : list (str * value))
  : list str :=
  List.filter (λ pkg, match Dict.get pkg deps with
                      | Some _ => true
                      | None => false
                      end) (map fst updates).

(** The entries of the section [section] of the document [d]; none when
    the document has no such section. *)
Definition entries (section : str) (d : list (str * value))
  : list (str * value) :=
  match Dict.get section d with
  | Some (VDict deps) => deps
  | _ => []
  end.

(** The document with the entries of one section pinned. *)
Definition pin (updates : list (str * str)) (section : str)
    (d : list (str * value)) : list (str * value) :=
  match Dict.get section d with
  | Some (VDict deps) => Dict.set section (VDict (pinned updates deps)) d
  | _ => d
  end.

(** A section is missing, or it is an object, which has no key twice. *)
Definition object_or_missing (section : str) (d : list (str * value)) : Prop :=
  Dict.get section d = None
  \/ exists deps, Dict.get section d = Some (VDict deps)
                  /\ List.NoDup (map fst deps).

Definition npm_install : list str :=
  ["npm" : str; "install" : str; "--package-lock-only" : str].

(** The files after package.json was written and, when npm is installed,
    the lock file was refreshed. *)
Definition written (T : Tools) (content : str) (fs : files) : files :=
  let fs' := <["package.json" := content]> fs in
  if which T "npm" then (subprocess_run T npm_install fs').2 else fs'.

(** When the command [cmd] fails, it fails with [CalledProcessError]. *)
Definition fails_softly (T : Tools) (cmd : list str) : Prop :=
  forall fs e, (subprocess_run T cmd fs).1 = Raise e -> kind e = CalledProcessError.

End PackageJson.

Module SamplePackage.

(** A package.json that lists lodash in both sections. *)
Definition document : list (str * value) :=
  [("name" : str, VStr "app");
   ("dependencies" : str,
    VDict [("lodash" : str, VStr "^4.17.15"); ("express" : str, VStr "^4.17.1")]);
   ("devDependencies" : str, VDict [("lodash" : str, VStr "^4.17.15")]);
   ("license" : str, VStr "MIT")].

(** Tools without npm whose JSON library reads every text as [parsed] and
    writes every value as the same text. *)
Definition tools (parsed : exc value) : Tools :=
  {| which := λ _, false;
     subprocess_run := λ _ fs, (Ok tt, fs);
     json_loads := λ _, parsed;
     json_dumps := λ _, "{}" : str |}.

End SamplePackage.

(** ** The packages the requirements.txt updater reports *)

Module Reported.

(** The package the loop of [PythonUpdater.update] appends to
    [updated_pkgs] for [line], if it rewrites the line. *)
Definition of_line (updates : list (str * str)) (line : str) : list str :=
  match PythonUpdater.clean line with
  | [] => []
  | _ :: _ =>
      match PythonUpdater.first_match updates (PythonUpdater.clean line) with
      | Some (pkg, _) => [pkg]
      | None => []
      end
  end.

Definition of_lines (updates : list (str * str)) (lines : list str)
  : list str :=
  flat_map (of_line updates) lines.

End Reported.

(** ** The request of [GitClient.create_pr] *)

Module PullRequest.

(** The address the change request is posted to. *)
Definition pulls (owner repo_name : str) : str :=
  "https://api.github.com/repos/" ++ owner ++ "/" ++ repo_name ++ "/pulls".

(** The JSON body of the request. *)
Definition data (branch_name title body : str) : list (str * value) :=
  [("title" : str, VStr title); ("body" : str, VStr body);
   ("head" : str, VStr branch_name); ("base" : str, VStr "main")].

(** The address of the lookup of an existing request. *)
Definition lookup (owner repo_name branch_name : str) : str :=
  pulls owner repo_name ++ "?head=" ++ owner ++ ":" ++ branch_name.

(** A repository address: what stands before the owner, the owner, the
    name, with [.git] nowhere in them and no slash in owner and name. *)
Definition address (prefix owner repo_name : str) : Prop :=
  Py.contains ".git" (prefix ++ "/" ++ owner ++ "/" ++ repo_name) = false
  /\ Py.has_char "/" owner = false
  /\ Py.has_char "/" repo_name = false.

End PullRequest.

(** ** [git_client.GitClient.clone_repo] *)

Module Clone.

(** The exceptions of a git call as [clone_repo] tells them apart. *)
Inductive git_exn :=
| InvalidGitRepositoryError
| GitCommandError (msg : str)
| OtherError (e : exn).

Inductive result (A : Type) :=
| Done (a : A)
| Failed (e : git_exn).
Arguments Done {A} a.
Arguments Failed {A} e.

(** [Path(dest) / repo_name], kept as its two parts. *)
Record path := Path { parent : str; child : str }.

(** The file system and the git library as one call of [clone_repo]
    reaches them. *)
Record Git := {
  exists_ : path -> bool;                    (* [dest_path.exists()] *)
  open_repo : path -> result unit;           (* [git.Repo(dest_path)] *)
  fetch : path -> result unit;               (* [repo.remotes.origin.fetch()] *)
  checkout_main : path -> result unit;       (* [repo.git.checkout('main')] *)
  reset_hard : path -> result unit;          (* [repo.git.reset('--hard', 'origin/main')] *)
  pull : path -> result unit;                (* [repo.remotes.origin.pull()] *)
  clone_from : str -> path -> result unit    (* [git.Repo.clone_from] *)
}.

Definition and_then (a : result unit) (b : result unit) : result unit :=
  match a with
  | Done _ => b
  | Failed e => Failed e
  end.

(** Line 13: the last segment of the address, without [.git]. *)
Definition repo_name (repo_url : str) : str :=
  Py.replace ".git" [] (Py.after_last "/" repo_url).

(** Lines 41-44: the token goes behind every [https://] of the address. *)
Definition auth_url (token : option str) (repo_url : str) : str :=
  match token with
  | Some ((_ :: _) as tok) =>
      if Py.contains "https://" repo_url
      then Py.replace "https://" ("https://" ++ tok ++ "@") repo_url
      else repo_url
  | _ => repo_url
  end.

(** Lines 24-32: the four calls that bring an existing copy up to date. *)
Definition refresh (G : Git) (dest_path : path) : result unit :=
  and_then (fetch G dest_path)
    (and_then (checkout_main G dest_path)
       (and_then (reset_hard G dest_path) (pull G dest_path))).

(** Lines 40-47. *)
Definition fresh (token : option str) (G : Git) (repo_url : str)
    (dest_path : path) : result path :=
  match clone_from G (auth_url token repo_url) dest_path with
  | Done _ => Done dest_path
  | Failed e => Failed e
  end.

Definition clone_repo (token : option str) (G : Git) (repo_url dest : str)
  : result path :=
  let dest_path := Path dest (repo_name repo_url) in
  if exists_ G dest_path then
    match open_repo G dest_path with
    | Done _ =>
        match refresh G dest_path with
        | Done _ => Done dest_path
        | Failed (GitCommandError _) => Done dest_path
        | Failed InvalidGitRepositoryError => fresh token G repo_url dest_path
        | Failed (OtherError e) => Failed (OtherError e)
        end
    | Failed InvalidGitRepositoryError => fresh token G repo_url dest_path
    | Failed e => Failed e
    end
  else fresh token G repo_url dest_path.

End Clone.

Module SampleClone.
Import Clone.

(** A machine on which the paths of [present] exist and are repositories,
    every refreshing call fails with a git command error, and a clone
    fails. *)
Definition offline (present : list str) : Git :=
  {| exists_ := λ p, Dict.mem (child p) present;
     open_repo := λ _, Done tt;
     fetch := λ _, Failed (GitCommandError "could not resolve host");
     checkout_main := λ _, Done tt;
     reset_hard := λ _, Done tt;
     pull := λ _, Done tt;
     clone_from := λ _ _, Failed (GitCommandError "could not resolve host") |}.

(** [G] with another answer of [git.Repo.clone_from]. *)
Definition with_clone (G : Git) (f : str -> path -> result unit) : Git :=
  {| exists_ := exists_ G;
     open_repo := open_repo G;
     fetch := fetch G;
     checkout_main := checkout_main G;
     reset_hard := reset_hard G;
     pull := pull G;
     clone_from := f |}.

End SampleClone.

(** ** [config_loader.load_yaml] *)

Module ConfigLoader.
Section Load.
(** [yaml.safe_load] on the text of the file; a document is kept as the
    object it denotes. *)
Variable safe_load : str -> exc value.

Definition load_yaml (fs : files) (path : string) : exc value :=
  match fs !! path with
  | None => Raise (Exn FileNotFoundError ("Config file not found: " ++ path))
  | Some content =>
      doc ← safe_load content;
      Ok (Obj.or doc (VDict []))
  end.

End Load.
End ConfigLoader.

(** ** [routes_scans.run_repo_scan] *)

Module ScanApi.
Import RepoRunner.

Definition CONFIG_PATH : string := "configs/repos.yaml".

(** [SCAN_STATUS]: a dict from repository names to status dicts. *)
Abbreviation statuses := (list (str * value)).

(** [v.get(key, default)] *)
Definition get_default (v : value) (key : str) (dflt : value) : exc value :=
  match v with
  | VDict d => Ok (default dflt (Obj.lookup key d))
  | _ => Raise (Exn AttributeError "object has no attribute 'get'")
  end.

(** [next((r for r in repos if r["name"] == repo_name), None)]: the
    generator is consumed up to the first entry with the name. *)
Fixpoint find_repo (repos : list value) (repo_name : str) : exc (option value) :=
  match repos with
  | [] => Ok None
  | r :: rest =>
      n ← NodeUpdater.getitem r "name";
      if Obj.eq_str n repo_name then Ok (Some r) else find_repo rest repo_name
  end.

(** Lines 29-31 of [run_repo]: ["url"] and ["name"] are read with [[]] and
    ["test_command"] with [.get].  [run_repo] is modelled for a url and a
    name that are strings and a test command that is a string or [None];
    another entry is outside that model and is reported as
    [UnsupportedPattern]. *)
Definition read_config (repo_config : value) : exc RepoConfig :=
  repo_url ← NodeUpdater.getitem repo_config "url";
  repo_name ← NodeUpdater.getitem repo_config "name";
  test_cmd ← Obj.get repo_config "test_command";
  match repo_url, repo_name, test_cmd with
  | VStr u, VStr n, VStr t => Ok {| url := u; name := n; test_command := Some t |}
  | VStr u, VStr n, VNone => Ok {| url := u; name := n; test_command := None |}
  | _, _, _ => Raise (Exn UnsupportedPattern "a field that is no string")
  end.

(** [runner.run_repo(repo_config, work_dir="temp_repos")]: the result or the
    exception, and the calls of the run. *)
Definition run_config (E : Env) (repo_config : value) : exc value * list event :=
  match read_config repo_config with
  | Ok c => outcome E c "temp_repos"
  | Raise e => (Raise e, [])
  end.

Definition entry (status message : str) : value :=
  VDict [("status" : str, VStr status); ("message" : str, VStr message)].

Definition entry_with_pr (pr_url : value) : value :=
  VDict [("status" : str, VStr "success");
         ("message" : str, VStr "Scan completed successfully");
         ("pr_url" : str, pr_url)].

Section Scan.
Variable safe_load : str -> exc value.
(** [str(v)] of an object that is neither a string nor [None]. *)
Variable repr : value -> str.
(** The collaborators of [RepoRunner(git_token=os.getenv("GITHUB_TOKEN"))]. *)
Variable E : Env.
(** The files of the working directory. *)
Variable fs : files.

(** [f"{v}"] *)
Definition format (v : value) : str :=
  match v with
  | VStr s => s
  | VNone => "None"
  | _ => repr v
  end.

(** Lines 38-52: the status entry for a result of [run_repo]. *)
Definition report (result : value) : exc value :=
  status ← NodeUpdater.getitem result "status";
  if Obj.eq_str status "success" then
    pr_url ← Obj.get result "pr_url";
    Ok (entry_with_pr pr_url)
  else
    status ← NodeUpdater.getitem result "status";
    if Obj.eq_str status "skipped" then
      reason ← Obj.get result "reason";
      Ok (entry "success" ("Scan skipped: " ++ format reason))
    else
      step ← Obj.get result "step";
      error ← Obj.get result "error";
      Ok (entry "failed"
            ("Scan failed at step " ++ format step ++ ": " ++ format error)).

(** [SCAN_STATUS[repo_name]["message"] = message] *)
Definition set_message (repo_name message : str) (store : statuses)
  : exc statuses :=
  current ← NodeUpdater.getitem (VDict store) repo_name;
  current' ← NodeUpdater.setitem current "message" (VStr message);
  Ok (Dict.set repo_name current' store).

(** The body of the [try], lines 18-52: how it ends, the status store then,
    and the calls of the run. *)
Definition attempt (repo_name : str) (store : statuses)
  : exc unit * statuses * list event :=
  let store := Dict.set repo_name (entry "running" "Initializing scan...") store in
  (* Load config to find the specific repo *)
  match ConfigLoader.load_yaml safe_load fs CONFIG_PATH with
  | Raise e => (Raise e, store, [])
  | Ok cfg =>
      match (repos ← get_default cfg "repos" (VList []);
             items ← Obj.iterate repos;
             find_repo items repo_name) with
      | Raise e => (Raise e, store, [])
      | Ok found =>
          let repo_config := default VNone found in
          if negb (Obj.truthy repo_config) then
            (Ok tt,
             Dict.set repo_name
               (entry "failed" "Repo config not found during execution") store,
             [])
          else
            match set_message repo_name "Running scan logic..." store with
            | Raise e => (Raise e, store, [])
            | Ok store =>
                (* Run the scan *)
                match run_config E repo_config with
                | (Raise e, calls) => (Raise e, store, calls)
                | (Ok result, calls) =>
                    (* Update status based on result *)
                    match report result with
                    | Raise e => (Raise e, store, calls)
                    | Ok status => (Ok tt, Dict.set repo_name status store, calls)
                    end
                end
            end
      end
  end.

(** [run_repo_scan]: the status store when the task is over, and the calls
    of the run. *)
Definition run_repo_scan (repo_name : str) (store : statuses)
  : statuses * list event :=
  match attempt repo_name store with
  | (Ok _, store, calls) => (store, calls)
  | (Raise e, store, calls) =>
      (Dict.set repo_name (entry "failed" ("Unexpected error: " ++ message e)) store,
       calls)
  end.

End Scan.
End ScanApi.

Module SampleScan.
Import RepoRunner ScanApi.

(** A loader for which every text denotes the same document. *)
Definition loads (doc : value) : str -> exc value := λ _, Ok doc.

Definition repo (repo_name : str) : value :=
  VDict [("name" : str, VStr repo_name);
         ("url" : str, VStr ("https://github.com/acme/" ++ repo_name ++ ".git"))].

Definition document (names : list str) : value :=
  VDict [("repos" : str, VList (map repo names))].

Definition configured : files := {[ CONFIG_PATH := ("repos: ..." : str) ]}.

Definition repr : value -> str := λ _, "<object>".

End SampleScan.

(** * Properties *)

(** ** Strings *)

Lemma eqb_eq (a b : str) : Py.eqb a b = true <-> a = b.
Proof.
  revert b. induction a as [|x a IH]; intros [|y b]; simpl; try easy.
  rewrite andb_true_iff, Ascii.eqb_eq, IH. split.
  - intros [-> ->]. reflexivity.
  - intros [= -> ->]. auto.
Qed.

Lemma eqb_refl (a : str) : Py.eqb a a = true.
Proof. apply eqb_eq. reflexivity. Qed.

Lemma eqb_neq (a b : str) : Py.eqb a b = false <-> a <> b.
Proof.
  rewrite <- eqb_eq. destruct (Py.eqb a b); split; congruence.
Qed.

Lemma eq_str_true (v : value) (s : str) : Obj.eq_str v s = true <-> v = VStr s.
Proof.
  destruct v; simpl; try (split; [discriminate | intros [=]]).
  rewrite eqb_eq. split; [intros -> | intros [= ->]]; reflexivity.
Qed.

Lemma has_char_cons c x (s : str) :
  Py.has_char c (x :: s) = false ->
  Ascii.eqb x c = false /\ Py.has_char c s = false.
Proof.
  unfold Py.has_char. simpl. rewrite (Ascii.eqb_sym c x).
  apply orb_false_iff.
Qed.

Lemma split_some c (s : str) : Py.split c s <> [].
Proof.
  induction s as [|a s IH]; simpl; [discriminate|].
  destruct (Ascii.eqb a c); [discriminate|].
  destruct (Py.split c s); discriminate.
Qed.

Lemma split_app c (a b : str) :
  Py.split c (a ++ c :: b) = Py.split c a ++ Py.split c b.
Proof.
  induction a as [|x a IH]; cbn [app Py.split].
  - rewrite Ascii.eqb_refl. reflexivity.
  - rewrite IH. destruct (Ascii.eqb x c); [reflexivity|].
    pose proof (split_some c a) as Hsome.
    destruct (Py.split c a); [contradiction | reflexivity].
Qed.

Lemma split_word c (w : str) : Py.has_char c w = false -> Py.split c w = [w].
Proof.
  induction w as [|x w IH]; [reflexivity|].
  intros [Hx Hw]%has_char_cons. cbn [Py.split]. rewrite Hx, IH by exact Hw.
  reflexivity.
Qed.

Lemma drop_while_split p (s : str) :
  exists ws, s = ws ++ Py.drop_while p s /\ Forall (λ c, p c = true) ws.
Proof.
  induction s as [|c s (ws & Hs & Hws)]; simpl.
  - exists []. split; [reflexivity | constructor].
  - destruct (p c) eqn:Hc.
    + exists (c :: ws). split; [simpl; congruence | constructor; assumption].
    + exists []. split; [reflexivity | constructor].
Qed.

Lemma drop_while_all p (ws s : str) :
  Forall (λ c, p c = true) ws -> Py.drop_while p (ws ++ s) = Py.drop_while p s.
Proof.
  induction 1 as [|c ws Hc _ IH]; [reflexivity|].
  simpl. rewrite Hc. exact IH.
Qed.

Section Strings.
Import Lines.

Lemma has_char_app c (a b : str) :
  Py.has_char c (a ++ b) = Py.has_char c a || Py.has_char c b.
Proof. unfold Py.has_char. apply existsb_app. Qed.

Lemma has_char_false c (s : str) :
  Py.has_char c s = false <-> Forall (λ x, x <> c) s.
Proof.
  unfold Py.has_char. induction s as [|a s IH]; simpl.
  - split; [constructor | reflexivity].
  - rewrite orb_false_iff, IH, Forall_cons_iff.
    rewrite <- not_true_iff_false, Ascii.eqb_eq. split; intros [H1 H2]; split; auto; congruence.
Qed.

Lemma before_first_app c (a b : str) :
  Py.has_char c a = false ->
  Py.before_first c (a ++ b) = a ++ Py.before_first c b.
Proof.
  unfold Py.has_char. induction a as [|x a IH]; simpl; [reflexivity|].
  rewrite (Ascii.eqb_sym c x). intros [Hx Ha]%orb_false_iff.
  rewrite Hx, IH; auto.
Qed.

Lemma after_first_app c (a b : str) :
  Py.has_char c a = false ->
  Py.after_first c (a ++ b) = Py.after_first c b.
Proof.
  unfold Py.has_char. induction a as [|x a IH]; simpl; [reflexivity|].
  rewrite (Ascii.eqb_sym c x). intros [Hx Ha]%orb_false_iff.
  rewrite Hx, IH; auto.
Qed.

Lemma before_first_no c (s : str) : Py.has_char c (Py.before_first c s) = false.
Proof.
  unfold Py.has_char. induction s as [|x s IH]; simpl; [reflexivity|].
  destruct (Ascii.eqb x c) eqn:Hx; simpl; [reflexivity|].
  rewrite (Ascii.eqb_sym c x), Hx. exact IH.
Qed.

Lemma before_first_none c (s : str) :
  Py.has_char c s = false -> Py.before_first c s = s.
Proof.
  intros H. rewrite <- (app_nil_r s) at 1.
  rewrite before_first_app by exact H. apply app_nil_r.
Qed.

(** [before_first] and [after_first] cut the string at the first [c]. *)
Lemma split_at_first c (s : str) :
  Py.has_char c s = true ->
  s = Py.before_first c s ++ c :: Py.after_first c s.
Proof.
  unfold Py.has_char. induction s as [|x s IH]; simpl; [discriminate|].
  rewrite (Ascii.eqb_sym c x).
  destruct (Ascii.eqb x c) eqn:Hx; simpl.
  - apply Ascii.eqb_eq in Hx. subst. reflexivity.
  - intros H. rewrite <- IH by exact H. reflexivity.
Qed.

Lemma strip_prefix_app (p r : str) : Py.strip_prefix p (p ++ r) = Some r.
Proof.
  induction p as [|a p IH]; simpl; [reflexivity|].
  rewrite Ascii.eqb_refl. exact IH.
Qed.

Lemma strip_prefix_Some (p s r : str) :
  Py.strip_prefix p s = Some r -> s = p ++ r.
Proof.
  revert s. induction p as [|a p IH]; intros [|b s]; simpl; try congruence.
  destruct (Ascii.eqb a b) eqn:Hab; [|discriminate].
  apply Ascii.eqb_eq in Hab. subst. intros H. rewrite (IH _ H). reflexivity.
Qed.

(** *** White space at both ends *)

Lemma drop_while_head p (s : str) c r :
  Py.drop_while p s = c :: r -> p c = false.
Proof.
  induction s as [|x s IH]; simpl; [discriminate|].
  destruct (p x) eqn:Hx; [exact IH|]. intros [= -> _]. exact Hx.
Qed.

Lemma drop_while_stable p c (s : str) :
  p c = false -> Py.drop_while p (c :: s) = c :: s.
Proof. intros H. simpl. rewrite H. reflexivity. Qed.

Lemma drop_while_app_stop p (a b : str) c :
  p c = false ->
  Py.drop_while p (a ++ c :: b) = Py.drop_while p a ++ c :: b.
Proof.
  intros Hc. induction a as [|x a IH]; simpl.
  - rewrite Hc. reflexivity.
  - destruct (p x); [exact IH | reflexivity].
Qed.

(** Stripping on the right keeps everything up to a character that is not
    white space. *)
Lemma rstrip_app_stop (a b : str) c :
  Py.isspace c = false ->
  Py.rstrip (a ++ c :: b) = a ++ c :: Py.rstrip b.
Proof.
  intros Hc. unfold Py.rstrip.
  replace (rev (a ++ c :: b)) with (rev b ++ c :: rev a).
  - rewrite drop_while_app_stop by exact Hc.
    rewrite rev_app_distr. simpl. rewrite rev_involutive, <- app_assoc.
    reflexivity.
  - rewrite rev_app_distr. simpl. rewrite <- app_assoc. reflexivity.
Qed.

Lemma lstrip_stable c (s : str) :
  Py.isspace c = false -> Py.lstrip (c :: s) = c :: s.
Proof. apply drop_while_stable. Qed.

End Strings.

(** ** The orchestrator *)

Section Orchestrator.
Import RepoRunner Observe.

Lemma high_medium_none (vulns : list value) :
  Forall (λ v, is_record v = true /\ high_or_medium v = false) vulns ->
  high_medium vulns = Ok [].
Proof.
  induction 1 as [|v vulns [Hrec Hsev] _ IH]; [reflexivity|].
  destruct v; try discriminate. simpl in *. rewrite IH. simpl.
  destruct (Obj.lookup _ d); simpl in *; [rewrite Hsev|]; reflexivity.
Qed.

Lemma high_medium_sound (vulns kept : list value) :
  high_medium vulns = Ok kept ->
  Forall (λ v, is_record v = true) vulns
  /\ kept = List.filter high_or_medium vulns.
Proof.
  revert kept. induction vulns as [|v vulns IH]; intros kept; simpl.
  - intros [= <-]. split; constructor.
  - destruct v; try discriminate. simpl.
    destruct (high_medium vulns) as [kept'|]; [|discriminate]. simpl.
    destruct (IH kept' eq_refl) as [Hrec ->]. intros [= <-].
    split; [constructor; auto|].
    destruct (Obj.lookup _ d) as [sev|]; simpl; [|reflexivity].
    destruct (Obj.eq_str sev "HIGH" || Obj.eq_str sev "MEDIUM"); reflexivity.
Qed.

Ltac step_in H :=
  match type of H with
  | context [if negb ?x then _ else _] =>
      lazymatch x with
      | context [match _ with _ => _ end] => fail
      | _ => destruct x eqn:?
      end
  | context [match ?x with _ => _ end] =>
      lazymatch x with
      | context [match _ with _ => _ end] => fail
      | _ => destruct x eqn:?
      end
  | context [if ?x then _ else _] =>
      lazymatch x with
      | context [match _ with _ => _ end] => fail
      | _ => destruct x eqn:?
      end
  end.

Ltac run_cbn_in H :=
  cbn -[list_ascii_of_string Py.join Py.str_of_nat DockerRunner.build_image
        DockerRunner.scan_image TestRunner.run_tests GitClient.create_pr
        TrivyParser.parse_trivy_report high_medium summary_unfixed
        Obj.truthy Obj.eq_str In] in H.

(** Case analysis on the path a run takes: [H] states what [outcome]
    returned. *)
Ltac run_cases H :=
  unfold outcome, run_repo, mbind, run_bind, emit, return_, call, try_except in H;
  run_cbn_in H; repeat (step_in H; run_cbn_in H);
  injection H as <- <-.

Lemma run_repo_trace_facts E cfg wd : trace_facts (outcome E cfg wd).
Proof.
  destruct (outcome E cfg wd) as [r t] eqn:Hrun.
  unfold trace_facts. run_cases Hrun.
  all: cbn [In fst snd]; split;
    [intros Hin | intros branch title body pr_url Hin].
  all: try (exfalso; intuition discriminate).
  all: try (split; [reflexivity | repeat constructor]).
  all: intuition (try discriminate).
  all: match goal with
       | H : CreatePr _ _ _ _ = _ |- _ => inversion H; subst; clear H
       end.
  all: match goal with H : Obj.eq_str _ _ = _ |- _ => rewrite H end.
  all: reflexivity.
Qed.

(** C1, as the code has it: once clone and build have succeeded and the
    scan has returned a non-empty report, if the normalized findings are
    objects none of which has severity exactly HIGH or MEDIUM, then
    [run_repo] returns the success outcome with action "none", and the run
    makes no call that creates a branch, updates dependencies, commits,
    pushes or opens a change request. *)
Theorem no_high_medium_no_action E cfg wd repo_path report vulns :
  clone_repo E (url cfg) wd = Ok repo_path ->
  DockerRunner.build_image E repo_path (name cfg ++ ":security-scan") = true ->
  DockerRunner.scan_image E (name cfg ++ ":security-scan") = Ok report ->
  Obj.truthy report = true ->
  TrivyParser.parse_trivy_report report = Ok vulns ->
  Forall (λ v, is_record v = true /\ high_or_medium v = false) vulns ->
  exists t, outcome E cfg wd = (Ok no_action, t)
            /\ Forall (λ ev, is_remediation ev = false) t.
Proof.
  intros Hclone Hbuild Hscan Htruthy Hparse Hnone.
  apply high_medium_none in Hnone.
  unfold outcome, run_repo, mbind, run_bind, emit, return_, call, try_except.
  cbn -[list_ascii_of_string DockerRunner.build_image DockerRunner.scan_image
        TrivyParser.parse_trivy_report high_medium Obj.truthy].
  rewrite Hclone. cbn -[list_ascii_of_string DockerRunner.build_image
        DockerRunner.scan_image TrivyParser.parse_trivy_report high_medium Obj.truthy].
  rewrite Hbuild. cbn -[list_ascii_of_string DockerRunner.build_image
        DockerRunner.scan_image TrivyParser.parse_trivy_report high_medium Obj.truthy].
  rewrite Hscan. cbn -[list_ascii_of_string DockerRunner.build_image
        DockerRunner.scan_image TrivyParser.parse_trivy_report high_medium Obj.truthy].
  rewrite Htruthy. cbn -[list_ascii_of_string DockerRunner.build_image
        DockerRunner.scan_image TrivyParser.parse_trivy_report high_medium Obj.truthy].
  rewrite Hparse. cbn -[list_ascii_of_string DockerRunner.build_image
        DockerRunner.scan_image TrivyParser.parse_trivy_report high_medium Obj.truthy].
  rewrite Hnone. cbn -[list_ascii_of_string].
  eexists. split; [reflexivity|]. repeat constructor.
Qed.

(** C2: in every run in which a HIGH or MEDIUM finding was found, the
    dependency update reported at least one package and the test run did
    not pass, [run_repo] returns the failed outcome that names the step
    "tests", and the run makes no commit, push or change-request call. *)
Theorem failed_tests_abort_before_publish
    E cfg wd r t image report found vulns pkgs :
  outcome E cfg wd = (r, t) ->
  In (ScanImage image (Ok report)) t ->
  TrivyParser.parse_trivy_report report = Ok found ->
  Exists (λ v, high_or_medium v = true) found ->
  In (UpdateDependencies vulns (Ok pkgs)) t ->
  pkgs <> [] ->
  In (RunTests false) t ->
  r = Ok (failed "tests" "Tests failed after update")
  /\ Obj.get (failed "tests" "Tests failed after update") "step" = Ok (VStr "tests")
  /\ Forall (λ ev, is_publication ev = false) t.
Proof.
  intros Hrun _ _ _ _ _ Htests.
  destruct (run_repo_trace_facts E cfg wd) as [Hfacts _].
  rewrite Hrun in Hfacts. cbn [fst snd] in Hfacts.
  destruct (Hfacts Htests) as [-> Hpub].
  split; [reflexivity|]. split; [reflexivity | exact Hpub].
Qed.


(** Without a token the change request is skipped. *)
Lemma create_pr_without_token H repo_url branch title body :
  GitClient.create_pr None H repo_url branch title body = Ok (VStr "skipped")
  /\ GitClient.create_pr (Some []) H repo_url branch title body
     = Ok (VStr "skipped").
Proof. split; reflexivity. Qed.

(** When the API says the request exists and the lookup of the existing
    request gives nothing, the answer is "exists". *)
Lemma create_pr_exists_without_reference
    H c tok owner repo_name repo_url branch title body resp :
  GitClient.last_two (Py.split "/" (Py.replace ".git" [] repo_url))
    = Ok (owner, repo_name) ->
  (forall u d, post H u (c :: tok) d = Ok resp) ->
  status_code resp = 422%Z ->
  Py.contains "A pull request already exists" (text resp) = true ->
  (forall u, GitClient.existing_pr H u (c :: tok) = None) ->
  GitClient.create_pr (Some (c :: tok)) H repo_url branch title body
  = Ok (VStr "exists").
Proof.
  intros Hparts Hpost Hstatus Htext Hnone.
  unfold GitClient.create_pr. rewrite Hparts.
  cbv beta iota zeta delta [mbind exc_bind]. rewrite Hpost.
  cbv beta iota zeta. rewrite Hstatus, Htext. cbv beta iota.
  rewrite Hnone. reflexivity.
Qed.

End Orchestrator.

(** ** The orchestrator on sample runs *)

Section OrchestratorSamples.
Import RepoRunner Observe.

Ltac in_list := cbn; repeat (first [left; reflexivity | right]).

Example parse_sample_report :
  TrivyParser.parse_trivy_report
    (Sample.report [Sample.finding "openssl" "LOW"; Sample.finding "requests" "HIGH"])
  = Ok [Sample.finding "openssl" "LOW"; Sample.finding "requests" "HIGH"].
Proof. reflexivity. Qed.

Example parse_lowercase_report :
  TrivyParser.parse_trivy_report
    (VDict [("results" : str,
             VList [VDict [("vulnerabilities" : str,
                            VList [Sample.finding "flask" "MEDIUM"])];
                    VDict [("Target" : str, VStr "os")]])])
  = Ok [Sample.finding "flask" "MEDIUM"].
Proof. reflexivity. Qed.

Example run_with_pr :
  outcome (Sample.env (Sample.report [Sample.finding "requests" "HIGH"]) 0
             (Some ("ghp_token" : str)) Sample.api_created)
    Sample.config "work"
  = (Ok (pr_created (VStr "https://github.com/acme/app/pull/7")),
     [CloneRepo "https://github.com/acme/app.git" (Ok ("work/app" : str));
      BuildImage "app:security-scan" true;
      ScanImage "app:security-scan"
        (Ok (Sample.report [Sample.finding "requests" "HIGH"]));
      SaveReport "app_trivy_report.json";
      CreateBranch "security/fix-vulns-1" (Ok tt);
      UpdateDependencies [Sample.finding "requests" "HIGH"] (Ok ["requests" : str]);
      SaveSummary "app_security_summary.md";
      RunTests true;
      CommitChanges "Security: Update dependencies to fix vulnerabilities" (Ok tt);
      PushChanges "security/fix-vulns-1" (Ok tt);
      CreatePr "security/fix-vulns-1" "Security Fixes for app"
        ("This PR updates dependencies to fix vulnerabilities detected by Trivy."
         ++ ["010"%char; "010"%char] ++ "**Fixed**: requests"
         ++ ["010"%char; "010"%char] ++ "See attached report for details.")
        (Ok (VStr "https://github.com/acme/app/pull/7"))]).
Proof. vm_compute. reflexivity. Qed.

(** C1 as stated fails on the empty report: it normalizes to no finding at
    all, clone and build succeed, and the run still ends as a failure of
    the scan step, because [not report] holds of an empty dict.  It also
    fails on a report whose finding is not an object: the finding has no
    severity, and the severity filter raises on it. *)
Lemma empty_report_is_a_scan_failure :
  (let E := Sample.env (VDict []) 0 None Sample.api_created in
   clone_repo E (url Sample.config) "work" = Ok ("work/app" : str)
   /\ DockerRunner.build_image E "work/app" "app:security-scan" = true
   /\ DockerRunner.scan_image E "app:security-scan" = Ok (VDict [])
   /\ TrivyParser.parse_trivy_report (VDict []) = Ok []
   /\ high_medium [] = Ok []
   /\ (outcome E Sample.config "work").1 = Ok (failed "scan" "Trivy scan failed")
   /\ (outcome E Sample.config "work").1 <> Ok no_action)
  /\ (let report := Sample.report [VStr "CVE-2020-1234"] in
      let E := Sample.env report 0 None Sample.api_created in
      TrivyParser.parse_trivy_report report = Ok [VStr "CVE-2020-1234"]
      /\ high_or_medium (VStr "CVE-2020-1234") = false
      /\ (outcome E Sample.config "work").1
         = Raise (Exn AttributeError "object has no attribute 'get'")).
Proof.
  split.
  - repeat split; try reflexivity. vm_compute. discriminate.
  - repeat split; reflexivity.
Qed.

Lemma no_high_medium_no_action_witness :
  exists t,
    outcome (Sample.env (Sample.report [Sample.finding "openssl" "LOW"]) 0 None
               Sample.api_created) Sample.config "work"
    = (Ok no_action, t)
    /\ Forall (λ ev, is_remediation ev = false) t.
Proof.
  apply (no_high_medium_no_action _ _ _ "work/app"
           (Sample.report [Sample.finding "openssl" "LOW"])
           [Sample.finding "openssl" "LOW"]); try reflexivity.
  repeat constructor.
Defined.

Lemma failed_tests_abort_before_publish_witness :
  let o := outcome (Sample.env (Sample.report [Sample.finding "requests" "HIGH"])
                      1 None Sample.api_created) Sample.config "work" in
  o.1 = Ok (failed "tests" "Tests failed after update")
  /\ Obj.get (failed "tests" "Tests failed after update") "step" = Ok (VStr "tests")
  /\ Forall (λ ev, is_publication ev = false) o.2.
Proof.
  intros o.
  apply (failed_tests_abort_before_publish
           (Sample.env (Sample.report [Sample.finding "requests" "HIGH"])
              1 None Sample.api_created) Sample.config "work" o.1 o.2
           "app:security-scan"
           (Sample.report [Sample.finding "requests" "HIGH"])
           [Sample.finding "requests" "HIGH"]
           [Sample.finding "requests" "HIGH"] ["requests" : str]).
  - apply surjective_pairing.
  - in_list.
  - reflexivity.
  - constructor. reflexivity.
  - in_list.
  - discriminate.
  - in_list.
Defined.


Example run_ends_with_exists :
  (outcome (Sample.env (Sample.report [Sample.finding "requests" "MEDIUM"]) 0
              (Some ("ghp_token" : str)) Sample.api_exists)
     Sample.config "work").1
  = Ok (pr_created (VStr "exists")).
Proof. vm_compute. reflexivity. Qed.

Example run_ends_with_failed :
  (outcome (Sample.env (Sample.report [Sample.finding "requests" "MEDIUM"]) 0
              (Some ("ghp_token" : str)) Sample.api_down)
     Sample.config "work").1
  = Ok (failed "pr_creation" "PR creation failed").
Proof. vm_compute. reflexivity. Qed.

End OrchestratorSamples.

(** ** The updaters: absent manifests, the dispatcher, the Update Set *)

Section Updaters.
Import DependencyUpdater.

(** Every [update] method starts with the test that its manifest exists. *)
Lemma update_without_manifest
    (T : Tools) (u : updater) (vulns : list Finding) (fs : files) :
  fs !! manifest u = None ->
  update T u vulns fs = (Ok [], fs).
Proof.
  intros Habsent.
  destruct u; simpl in Habsent; simpl;
    unfold PythonUpdater.update, NodeUpdater.update, PoetryUpdater.update,
           PipenvUpdater.update, MavenUpdater.update,
           mbind, io_bind, IO.exists_;
    rewrite Habsent; reflexivity.
Qed.

(** C8: for every list of findings and every updater, if the manifest the
    updater owns is absent from the repository root, the updater returns
    the empty list and the files of the repository are what they were:
    none is created, modified or deleted. *)
Theorem absent_manifest_is_noop
    (T : Tools) (u : updater) (vulns : list Finding) (fs : files) :
  fs !! manifest u = None ->
  update T u vulns fs = (Ok [], fs).
Proof. apply update_without_manifest. Qed.

Lemma absent_manifest_is_noop_witness :
  update (SampleRepo.tools ["poetry" : str; "pipenv" : str; "npm" : str]) Maven
    [SampleRepo.finding "jackson-databind" "2.12.0"]
    {["Pipfile" := SampleRepo.pipfile]}
  = (Ok [], {["Pipfile" := SampleRepo.pipfile]}).
Proof.
  apply (absent_manifest_is_noop _ Maven). reflexivity.
Defined.

(** The dispatcher stops at the first updater that raises. *)
Lemma update_each_raises T us1 u us2 vulns acc fs e fs' :
  Forall (λ w, exists l, forall fs0, update T w vulns fs0 = (Ok l, fs0)) us1 ->
  update T u vulns fs = (Raise e, fs') ->
  update_each T (us1 ++ u :: us2) vulns acc fs = (Raise e, fs').
Proof.
  intros Hquiet Hraise. revert acc.
  induction Hquiet as [|w us1 [l Hw] _ IH]; intros acc; simpl.
  - unfold mbind, io_bind. rewrite Hraise. reflexivity.
  - unfold mbind, io_bind. rewrite Hw. apply IH.
Qed.

(** With pipenv installed, a Pipfile present and one package to update,
    [PipenvUpdater.update] raises [NameError] and writes nothing. *)
Lemma pipenv_cli_raises T vulns fs :
  which T "pipenv" = true ->
  is_Some (fs !! "Pipfile") ->
  Updates.plain vulns <> [] ->
  PipenvUpdater.update T vulns fs
  = (Raise (Exn NameError "name 'os' is not defined"), fs).
Proof.
  intros Hwhich [content Hfile] Hupdates.
  unfold PipenvUpdater.update, mbind, io_bind, IO.exists_.
  rewrite Hfile, Hwhich. simpl.
  destruct (Updates.plain vulns); [contradiction | reflexivity].
Qed.

(** The sibling loop of [PoetryUpdater] does catch a failing command: when
    every [poetry add] exits with an error, the loop ends normally and
    reports no package. *)
Lemma poetry_cli_catches T updates updated_pkgs (fs : files) :
  (forall cmd fs0, exists e,
      subprocess_run T cmd fs0 = (Raise e, fs0) /\ kind e = CalledProcessError) ->
  PoetryUpdater.cli T updates updated_pkgs fs = (Ok updated_pkgs, fs).
Proof.
  intros Hfail. revert updated_pkgs.
  induction updates as [|[pkg ver] updates IH]; intros updated_pkgs;
    cbn [PoetryUpdater.cli].
  - reflexivity.
  - unfold mbind, io_bind, IO.run_checked.
    destruct (Hfail ["poetry" : str; "add" : str; pkg ++ ">=" ++ ver] fs)
      as (e & -> & ->).
    apply IH.
Qed.

(** C4 at a failing input: the repository holds a Pipfile and a pom.xml,
    pipenv is installed, and two packages are to be updated.  The Pipfile
    updater raises on its first package; the exception leaves
    [update_dependencies], the Maven updater never runs and pom.xml keeps
    the vulnerable version.  Without pipenv the same call updates both
    files. *)
Theorem pipenv_failure_aborts_the_dispatcher :
  let vulns := [SampleRepo.finding "requests" "2.26.0";
                SampleRepo.finding "jackson-databind" "2.12.0"] in
  let fs : files := {["Pipfile" := SampleRepo.pipfile; "pom.xml" := SampleRepo.pom]} in
  update_dependencies (SampleRepo.tools ["pipenv" : str]) vulns fs
  = (Raise (Exn NameError "name 'os' is not defined"), fs)
  /\ update_dependencies (SampleRepo.tools []) vulns fs
     = (Ok ["requests" : str; "jackson-databind" : str],
        {["Pipfile" :=
            SampleRepo.text ["[packages]" : str;
                             "requests = " ++ SampleRepo.quoted "==2.26.0"];
          "pom.xml" :=
            SampleRepo.text ["<dependency>" : str;
                             "  <artifactId>jackson-databind</artifactId>" : str;
                             "  <version>2.12.0</version>" : str;
                             "</dependency>" : str]]}).
Proof.
  split.
  - vm_compute. reflexivity.
  - vm_compute. reflexivity.
Qed.

End Updaters.

(** ** The Update Set *)

Section UpdateSet.
Import DependencyUpdater.

Lemma dict_get_set_same {V} (k : str) (v : V) d :
  Dict.get k (Dict.set k v d) = Some v.
Proof.
  induction d as [|[k' v'] d IH]; simpl.
  - rewrite eqb_refl. reflexivity.
  - destruct (Py.eqb k' k) eqn:Hk; simpl.
    + rewrite eqb_refl. reflexivity.
    + rewrite Hk. exact IH.
Qed.

Lemma dict_get_set_other {V} (k k0 : str) (v : V) d :
  k <> k0 -> Dict.get k0 (Dict.set k v d) = Dict.get k0 d.
Proof.
  intros Hne. induction d as [|[k' v'] d IH]; simpl.
  - apply eqb_neq in Hne. rewrite Hne. reflexivity.
  - destruct (Py.eqb k' k) eqn:Hk; simpl.
    + apply eqb_eq in Hk. subst k'.
      apply eqb_neq in Hne. rewrite Hne. reflexivity.
    + destruct (Py.eqb k' k0); [reflexivity | exact IH].
Qed.

Lemma store_get norm updates v pkg :
  Dict.get pkg (Updates.store norm updates v)
  = match Spec.fixes pkg v with
    | Some fixed => Some (norm fixed)
    | None => Dict.get pkg updates
    end.
Proof.
  unfold Updates.store, Spec.fixes.
  destruct (PkgName v) as [p|]; [|reflexivity].
  destruct (FixedVersion v) as [fixed|]; [|reflexivity].
  destruct (Py.eqb p pkg) eqn:Hp; simpl.
  - apply eqb_eq in Hp. subst p.
    destruct (Py.nonempty pkg && Py.nonempty fixed); [|reflexivity].
    apply dict_get_set_same.
  - apply eqb_neq in Hp.
    destruct (Py.nonempty p && Py.nonempty fixed); [|reflexivity].
    apply dict_get_set_other. exact Hp.
Qed.

Lemma fold_store_get norm vulns updates pkg :
  Dict.get pkg (fold_left (Updates.store norm) vulns updates)
  = match Spec.last_fixed pkg vulns with
    | Some fixed => Some (norm fixed)
    | None => Dict.get pkg updates
    end.
Proof.
  revert updates. induction vulns as [|v vulns IH]; intros updates; simpl.
  - reflexivity.
  - rewrite IH. destruct (Spec.last_fixed pkg vulns); [reflexivity|].
    apply store_get.
Qed.

Lemma update_set_get u vulns pkg :
  Dict.get pkg (update_set u vulns)
  = option_map (match u with Python => Updates.last_alternative | _ => id end)
      (Spec.last_fixed pkg vulns).
Proof.
  destruct u; simpl; unfold Updates.python, Updates.plain;
    rewrite fold_store_get; destruct (Spec.last_fixed pkg vulns); reflexivity.
Qed.

Lemma forallb_spaces (ws : str) :
  forallb Py.isspace ws = true -> Forall (λ c, Py.isspace c = true) ws.
Proof.
  intros H. apply Forall_forall. intros c Hc.
  exact (proj1 (forallb_forall _ _) H c Hc).
Qed.

Lemma spaces_no_comma (ws : str) :
  forallb Py.isspace ws = true -> Py.has_char "," ws = false.
Proof.
  induction ws as [|c ws IH]; [reflexivity|]. cbn [forallb].
  intros [Hc Hws]%andb_true_iff. unfold Py.has_char. cbn [existsb].
  fold (Py.has_char "," ws). rewrite (IH Hws), orb_false_r.
  destruct (Ascii.eqb "," c) eqn:Heq; [|reflexivity].
  apply Ascii.eqb_eq in Heq. subst c. discriminate Hc.
Qed.

(** What follows the last separator. *)
Lemma after_last_app c (a b : str) :
  Py.has_char c b = false -> Py.after_last c (a ++ c :: b) = b.
Proof.
  intros Hb. unfold Py.after_last.
  rewrite split_app, (split_word c b Hb). apply last_last.
Qed.

(** Stripping takes the white space around a trimmed text away, and no
    more. *)
Lemma strip_around (ws alt ws' : str) :
  forallb Py.isspace ws = true ->
  forallb Py.isspace ws' = true ->
  Spec.trimmed alt = true ->
  Py.strip (ws ++ alt ++ ws') = alt.
Proof.
  intros Hws%forallb_spaces Hws'%forallb_spaces Halt.
  unfold Py.strip, Py.lstrip. rewrite drop_while_all by exact Hws.
  destruct alt as [|c alt].
  - cbn [app]. rewrite <- (app_nil_r ws'), drop_while_all by exact Hws'.
    reflexivity.
  - cbn [Spec.trimmed] in Halt. apply andb_true_iff in Halt as [Hc Hlast].
    apply negb_true_iff in Hc, Hlast.
    cbn [app Py.drop_while]. rewrite Hc. unfold Py.rstrip.
    change (c :: alt ++ ws') with ((c :: alt) ++ ws').
    rewrite rev_app_distr, drop_while_all by (apply Forall_rev; exact Hws').
    rewrite (app_removelast_last c (l := c :: alt)) by discriminate.
    rewrite rev_app_distr. cbn [rev app Py.drop_while]. rewrite Hlast.
    change (List.last (c :: alt) c :: rev (removelast (c :: alt)))
      with (rev [List.last (c :: alt) c] ++ rev (removelast (c :: alt))).
    rewrite <- rev_app_distr, rev_involutive. reflexivity.
Qed.

(** The reduction of lines 24-25 is the one the policy words. *)
Lemma last_alternative_reduced (fixed target : str) :
  Spec.reduced fixed target -> Updates.last_alternative fixed = target.
Proof.
  intros [fixed' Hplain | before ws alt ws' Halt Hws Hws' Htrim];
    unfold Updates.last_alternative.
  - rewrite Hplain. reflexivity.
  - change ("," : str) with [","%char]. cbn [app].
    assert (Py.has_char "," (ws ++ alt ++ ws') = false) as Hrest.
    { rewrite !has_char_app, Halt, !spaces_no_comma by assumption. reflexivity. }
    assert (Py.has_char "," (before ++ ","%char :: ws ++ alt ++ ws') = true)
      as -> by (rewrite has_char_app; apply orb_true_iff; right; reflexivity).
    rewrite after_last_app by exact Hrest.
    apply strip_around; assumption.
Qed.

(** C5, as the code has it: the Update Set of every updater maps a package
    to the fixed version of the last finding that carries that package name
    and a fixed version, both non-empty; the requirements.txt updater first
    reduces it to the text behind its last comma, without the white space
    around that text, and for the other four updaters the statement covers
    fixed versions without a comma, which stand for themselves. *)
Theorem update_set_takes_last_fixed u vulns pkg fixed target :
  Spec.last_fixed pkg vulns = Some fixed ->
  Spec.reduced fixed target ->
  u = Python \/ Py.has_char "," fixed = false ->
  Dict.get pkg (update_set u vulns) = Some target.
Proof.
  intros Hlast Hreduced Hcase. rewrite update_set_get, Hlast. cbn [option_map].
  f_equal. destruct Hcase as [-> | Hcomma].
  - apply last_alternative_reduced, Hreduced.
  - pose proof (last_alternative_reduced _ _ Hreduced) as Htarget.
    unfold Updates.last_alternative in Htarget. rewrite Hcomma in Htarget.
    subst target. destruct u; try reflexivity.
    unfold Updates.last_alternative. rewrite Hcomma. reflexivity.
Qed.

Lemma update_set_takes_last_fixed_witness :
  Dict.get "requests"
    (update_set Python [SampleRepo.finding "requests" "2.25.0";
                        SampleRepo.finding "flask" "2.0.0";
                        SampleRepo.finding "requests" "2.31.0,  2.32.0 "])
  = Some ("2.32.0" : str).
Proof.
  apply (update_set_takes_last_fixed Python _ "requests" "2.31.0,  2.32.0 ").
  - reflexivity.
  - apply (Spec.reduced_last "2.31.0" "  " "2.32.0" " "); reflexivity.
  - left. reflexivity.
Defined.

(** A package that no finding fixes is not in the Update Set. *)
Lemma update_set_only_fixed u vulns pkg :
  Spec.last_fixed pkg vulns = None -> Dict.get pkg (update_set u vulns) = None.
Proof. intros H. rewrite update_set_get, H. reflexivity. Qed.

(** C5 as stated fails twice.  A later finding that names the package
    without a fixed version does not win: every updater keeps the earlier
    version.  And only the requirements.txt updater reduces a
    comma-separated list: the other four store the whole field. *)
Lemma update_set_differs_from_claim :
  (forall u,
      let vulns := [SampleRepo.finding "requests" "2.31.0";
                    {| PkgName := Some ("requests" : str); FixedVersion := None |}] in
      Spec.claimed_target "requests" vulns = None
      /\ Dict.get "requests" (update_set u vulns) = Some ("2.31.0" : str))
  /\ (forall u, u <> Python ->
      let vulns := [SampleRepo.finding "lodash" "4.17.12";
                    SampleRepo.finding "lodash" "4.17.19, 4.17.21"] in
      Spec.claimed_target "lodash" vulns = Some ("4.17.21" : str)
      /\ Dict.get "lodash" (update_set u vulns) = Some ("4.17.19, 4.17.21" : str)
      /\ Dict.get "lodash" (update_set Python vulns) = Some ("4.17.21" : str)).
Proof.
  split.
  - intros u. split; [reflexivity|]. destruct u; reflexivity.
  - intros u Hu. split; [reflexivity|]. split; [|reflexivity].
    destruct u; [contradiction | reflexivity ..].
Qed.

End UpdateSet.

(** ** The pyproject.toml fallback *)

Section Poetry.

Lemma find_quote_app (a r : str) :
  Py.has_char Re.quote a = false ->
  Re.find_quote (a ++ Re.quote :: r) = Some (length a).
Proof.
  induction a as [|c a IH]; [reflexivity|].
  intros [Hc Ha]%has_char_cons. cbn [app Re.find_quote length].
  rewrite Hc, IH by exact Ha. reflexivity.
Qed.

Lemma sub_quoted_skip repl k (s : str) :
  Re.sub_quoted_from repl k s = Re.sub_quoted_from repl 0 (skipn k s).
Proof.
  revert k. induction s as [|c s IH]; intros [|k]; try reflexivity.
  simpl. apply IH.
Qed.

(** Text without a quote is copied. *)
Lemma sub_quoted_plain repl (a s : str) :
  Py.has_char Re.quote a = false ->
  Re.sub_quoted_from repl 0 (a ++ s) = a ++ Re.sub_quoted_from repl 0 s.
Proof.
  induction a as [|c a IH]; [reflexivity|].
  intros [Hc Ha]%has_char_cons. cbn [app Re.sub_quoted_from].
  rewrite Hc, IH by exact Ha. reflexivity.
Qed.

(** A quoted substring is replaced, and the substitution goes on behind it. *)
Lemma sub_quoted_pair repl (a s : str) :
  Py.has_char Re.quote a = false ->
  Re.sub_quoted_from repl 0 (Re.quote :: a ++ Re.quote :: s)
  = repl ++ Re.sub_quoted_from repl 0 s.
Proof.
  intros Ha. cbn [Re.sub_quoted_from].
  rewrite Ascii.eqb_refl, find_quote_app by exact Ha. f_equal.
  rewrite sub_quoted_skip. f_equal.
  replace (S (length a)) with (length (a ++ [Re.quote])).
  - replace (a ++ Re.quote :: s) with ((a ++ [Re.quote]) ++ s).
    + rewrite skipn_app, skipn_all, Nat.sub_diag. reflexivity.
    + rewrite <- app_assoc. reflexivity.
  - rewrite length_app. simpl. lia.
Qed.

(** On a line with one quoted substring the fallback replaces it and keeps
    the rest of the line. *)
Lemma sub_quoted_one (ver pre old post : str) :
  Py.has_char "\" ver = false ->
  Py.has_char Re.quote pre = false ->
  Py.has_char Re.quote old = false ->
  Py.has_char Re.quote post = false ->
  Re.sub_quoted ver (pre ++ SampleRepo.quoted old ++ post)
  = Ok (pre ++ SampleRepo.quoted ver ++ post).
Proof.
  intros Hver Hpre Hold Hpost. unfold Re.sub_quoted, SampleRepo.quoted.
  rewrite Hver, sub_quoted_plain by exact Hpre.
  rewrite <- !app_assoc. cbn [app].
  rewrite sub_quoted_pair by exact Hold.
  rewrite <- (app_nil_r post) at 1.
  rewrite sub_quoted_plain by exact Hpost.
  cbn [Re.sub_quoted_from app]. rewrite ?app_nil_r.
  repeat rewrite <- app_assoc. reflexivity.
Qed.

(** On a line with two quoted substrings the fallback replaces both. *)
Lemma sub_quoted_two (ver pre a mid b post : str) :
  Py.has_char "\" ver = false ->
  Py.has_char Re.quote pre = false ->
  Py.has_char Re.quote a = false ->
  Py.has_char Re.quote mid = false ->
  Py.has_char Re.quote b = false ->
  Py.has_char Re.quote post = false ->
  Re.sub_quoted ver
    (pre ++ SampleRepo.quoted a ++ mid ++ SampleRepo.quoted b ++ post)
  = Ok (pre ++ SampleRepo.quoted ver ++ mid ++ SampleRepo.quoted ver ++ post).
Proof.
  intros Hver Hpre Ha Hmid Hb Hpost. unfold Re.sub_quoted, SampleRepo.quoted.
  rewrite Hver, sub_quoted_plain by exact Hpre.
  rewrite <- !app_assoc. cbn [app].
  rewrite sub_quoted_pair by exact Ha.
  rewrite sub_quoted_plain by exact Hmid.
  rewrite sub_quoted_pair by exact Hb.
  rewrite <- (app_nil_r post) at 1.
  rewrite sub_quoted_plain by exact Hpost.
  cbn [Re.sub_quoted_from app]. rewrite ?app_nil_r.
  repeat rewrite <- app_assoc. reflexivity.
Qed.

(** C6 at a failing input: an inline table that carries the version and a
    list of extras.  The fallback replaces both quoted substrings with the
    new version, where the claim has only the first one replaced. *)
Theorem poetry_fallback_rewrites_every_quoted_substring :
  let fs : files := {["pyproject.toml" := SampleRepo.pyproject]} in
  PoetryUpdater.update (SampleRepo.tools []) [SampleRepo.finding "requests" "2.26.0"] fs
  = (Ok ["requests" : str],
     {["pyproject.toml" :=
         SampleRepo.text
           ["[tool.poetry.dependencies]" : str;
            "requests = { version = " ++ SampleRepo.quoted "2.26.0"
              ++ ", extras = [" ++ SampleRepo.quoted "2.26.0" ++ "] }"]]}).
Proof. vm_compute. reflexivity. Qed.

End Poetry.

(** ** The requirements.txt updater *)

Section PinnedList.
Import Lines.

Lemma process_fold updates lines st :
  exists pkgs,
    fold_left (PythonUpdater.step updates) lines st
    = PythonUpdater.State
        (PythonUpdater.new_lines st ++ map (line_out updates) lines)
        (PythonUpdater.modified st || existsb (hit updates) lines)
        (PythonUpdater.updated_pkgs st ++ pkgs).
Proof.
  revert st. induction lines as [|line lines IH]; intros st; simpl.
  - exists []. destruct st as [nls [] pkgs]; simpl; rewrite !app_nil_r; reflexivity.
  - destruct (IH (PythonUpdater.step updates st line)) as [pkgs ->].
    unfold PythonUpdater.step, line_out, hit.
    destruct (PythonUpdater.clean line) as [|c cl] eqn:Hclean; simpl.
    + exists pkgs. rewrite <- app_assoc. reflexivity.
    + destruct (PythonUpdater.first_match updates (c :: cl)) as [[pkg ver]|];
        simpl.
      * exists (pkg :: pkgs). rewrite <- !app_assoc, orb_true_r. reflexivity.
      * exists pkgs. rewrite <- app_assoc. reflexivity.
Qed.

(** What [PythonUpdater.update] does to an existing requirements.txt. *)
Lemma python_update_written vulns content (fs : files) :
  fs !! "requirements.txt" = Some content ->
  exists pkgs,
    PythonUpdater.update vulns fs
    = (Ok pkgs,
       <["requirements.txt" := written (Updates.python vulns) content]> fs).
Proof.
  intros Hfile.
  unfold PythonUpdater.update, mbind, io_bind, IO.exists_, IO.read_text,
    IO.write_text, mret, io_ret, written.
  rewrite Hfile. simpl.
  destruct (Updates.python vulns) as [|entry updates] eqn:Hupd.
  - exists []. simpl.
    replace (existsb (hit []) (Py.splitlines content)) with false.
    + rewrite insert_id by exact Hfile. reflexivity.
    + symmetry. induction (Py.splitlines content) as [|l ls IH]; simpl; auto.
      rewrite IH. unfold hit.
      destruct (PythonUpdater.clean l); reflexivity.
  - simpl. rewrite Hfile. unfold PythonUpdater.process.
    destruct (process_fold (entry :: updates) (Py.splitlines content)
                (PythonUpdater.State [] false [])) as [pkgs ->].
    simpl.
    destruct (existsb (hit (entry :: updates)) (Py.splitlines content)).
    + exists pkgs. reflexivity.
    + exists []. rewrite insert_id by exact Hfile. reflexivity.
Qed.

Lemma line_out_unmatched updates line :
  PythonUpdater.first_match updates (PythonUpdater.clean line) = None ->
  line_out updates line = line.
Proof.
  intros H. unfold line_out. rewrite H.
  destruct (PythonUpdater.clean line); reflexivity.
Qed.

Lemma line_out_blank updates line :
  PythonUpdater.clean line = [] -> line_out updates line = line.
Proof. intros H. unfold line_out. rewrite H. reflexivity. Qed.

(** The line of the claim, for a name that holds no [#] and does not start
    with white space. *)
Lemma line_out_pinned (pkg : str) :
  pkg <> [] ->
  Py.has_char "#" pkg = false ->
  (forall c r, pkg = c :: r -> Py.isspace c = false) ->
  line_out (Updates.python [SampleRepo.finding pkg "2.0.0"])
    (pkg ++ ">=1.0.0 # note")
  = pkg ++ ">=2.0.0 # note".
Proof.
  intros Hne Hhash Hhead.
  destruct pkg as [|c p]; [contradiction|]. specialize (Hhead c p eq_refl).
  assert (PythonUpdater.clean ((c :: p) ++ ">=1.0.0 # note")
          = (c :: p) ++ ">=1.0.0") as Hclean.
  { unfold PythonUpdater.clean.
    rewrite before_first_app by exact Hhash.
    change (Py.before_first "#" ">=1.0.0 # note") with (">=1.0.0 " : str).
    unfold Py.strip. rewrite <- app_comm_cons.
    rewrite lstrip_stable by exact Hhead.
    transitivity (Py.rstrip (((c :: p) ++ (">=1.0." : str))
                               ++ "0"%char :: (" " : str))).
    { f_equal. rewrite <- app_assoc. reflexivity. }
    rewrite rstrip_app_stop by reflexivity.
    rewrite <- app_assoc. reflexivity. }
  unfold line_out. rewrite Hclean.
  assert (Updates.python [SampleRepo.finding (c :: p) "2.0.0"]
          = [(c :: p, "2.0.0" : str)]) as -> by reflexivity.
  cbn [PythonUpdater.first_match].
  assert (PythonUpdater.pattern_match (c :: p) ((c :: p) ++ ">=1.0.0") = true)
    as ->.
  { unfold PythonUpdater.pattern_match. rewrite strip_prefix_app. reflexivity. }
  unfold PythonUpdater.comment_of.
  rewrite has_char_app, after_first_app by exact Hhash.
  rewrite orb_true_r. reflexivity.
Qed.

End PinnedList.

(** ** Applying the requirements.txt updater twice *)

Section Idempotence.
Import Lines.

Lemma Forall_drop_while (P : ascii -> Prop) p (s : str) :
  Forall P s -> Forall P (Py.drop_while p s).
Proof.
  induction 1 as [|c s Hc Hs IH]; simpl; [constructor|].
  destruct (p c); [exact IH | constructor; assumption].
Qed.

Lemma Forall_strip (P : ascii -> Prop) (s : str) :
  Forall P s -> Forall P (Py.strip s).
Proof.
  intros H. unfold Py.strip, Py.rstrip, Py.lstrip.
  apply Forall_rev, Forall_drop_while, Forall_rev, Forall_drop_while, H.
Qed.

Lemma Forall_before_first (P : ascii -> Prop) c (s : str) :
  Forall P s -> Forall P (Py.before_first c s).
Proof.
  induction 1 as [|x s Hx Hs IH]; simpl; [constructor|].
  destruct (Ascii.eqb x c); constructor; assumption.
Qed.

Lemma Forall_after_first (P : ascii -> Prop) c (s : str) :
  Forall P s -> Forall P (Py.after_first c s).
Proof.
  induction 1 as [|x s Hx Hs IH]; simpl; [constructor|].
  destruct (Ascii.eqb x c); assumption.
Qed.

Lemma Forall_clean (P : ascii -> Prop) (line : str) :
  Forall P line -> Forall P (PythonUpdater.clean line).
Proof. intros H. apply Forall_strip, Forall_before_first, H. Qed.

Lemma strip_head (s : str) c r : Py.strip s = c :: r -> Py.isspace c = false.
Proof.
  unfold Py.strip, Py.lstrip.
  destruct (Py.drop_while Py.isspace s) as [|x t] eqn:Hdrop.
  - discriminate.
  - pose proof (drop_while_head _ _ _ _ Hdrop) as Hx.
    pose proof (rstrip_app_stop [] t x Hx) as Hr. simpl in Hr.
    rewrite Hr. intros [= <- _]. exact Hx.
Qed.

Lemma clean_no_hash (line : str) :
  Py.has_char "#" (PythonUpdater.clean line) = false.
Proof.
  apply has_char_false. unfold PythonUpdater.clean. apply Forall_strip.
  apply has_char_false, before_first_no.
Qed.

Lemma chop_final_newline_id (s : str) :
  Forall (λ c, c <> "010"%char) s -> PythonUpdater.chop_final_newline s = s.
Proof.
  intros H. unfold PythonUpdater.chop_final_newline.
  destruct (rev s) as [|c r] eqn:Hrev; [reflexivity|].
  assert (c <> "010"%char) as Hc.
  { rewrite Forall_forall in H. apply H, in_rev. rewrite Hrev. left. reflexivity. }
  destruct c as [[] [] [] [] [] [] [] []]; try reflexivity. contradiction.
Qed.

Lemma no_linebreak_no_newline (s : str) :
  no_linebreak s -> Forall (λ c, c <> "010"%char) s.
Proof.
  apply Forall_impl. intros c Hc ->. discriminate.
Qed.

Lemma first_match_split updates clean_line pkg ver :
  PythonUpdater.first_match updates clean_line = Some (pkg, ver) ->
  exists before after,
    updates = before ++ (pkg, ver) :: after
    /\ PythonUpdater.pattern_match pkg clean_line = true
    /\ Forall (λ e, PythonUpdater.pattern_match e.1 clean_line = false) before.
Proof.
  induction updates as [|[p v] updates IH]; simpl; [discriminate|].
  destruct (PythonUpdater.pattern_match p clean_line) eqn:Hp.
  - intros [= -> ->]. exists [], updates. repeat split; [exact Hp | constructor].
  - intros H. destruct (IH H) as (before & after & -> & Hm & Hb).
    exists ((p, v) :: before), after. repeat split; [exact Hm|].
    constructor; assumption.
Qed.

Lemma first_match_found before after clean_line pkg ver :
  Forall (λ e, PythonUpdater.pattern_match e.1 clean_line = false) before ->
  PythonUpdater.pattern_match pkg clean_line = true ->
  PythonUpdater.first_match (before ++ (pkg, ver) :: after) clean_line
  = Some (pkg, ver).
Proof.
  intros Hb Hm. induction Hb as [|[p v] before Hp _ IH]; simpl.
  - rewrite Hm. reflexivity.
  - simpl in Hp. rewrite Hp. exact IH.
Qed.

Lemma pattern_match_prefix pkg clean_line :
  PythonUpdater.pattern_match pkg clean_line = true ->
  exists rest, clean_line = pkg ++ rest.
Proof.
  unfold PythonUpdater.pattern_match.
  destruct (Py.strip_prefix pkg clean_line) as [rest|] eqn:H; [|discriminate].
  intros _. exists rest. apply strip_prefix_Some, H.
Qed.

(** The pattern on a string without a newline. *)
Lemma pattern_match_app pkg (rest : str) :
  Forall (λ c, c <> "010"%char) rest ->
  PythonUpdater.pattern_match pkg (pkg ++ rest)
  = match rest with
    | [] => true
    | c :: _ => PythonUpdater.is_operator c
    end.
Proof.
  intros Hrest. unfold PythonUpdater.pattern_match.
  rewrite strip_prefix_app, chop_final_newline_id by exact Hrest.
  destruct rest as [|c tail]; [reflexivity|].
  inversion Hrest as [|? ? _ Htail]; subst.
  replace (Py.has_char "010" tail) with false; [apply andb_true_r|].
  symmetry. apply has_char_false. exact Htail.
Qed.

Lemma Forall_rstrip (P : ascii -> Prop) (s : str) :
  Forall P s -> Forall P (Py.rstrip s).
Proof.
  intros H. unfold Py.rstrip. apply Forall_rev, Forall_drop_while, Forall_rev, H.
Qed.

(** The comment the loop keeps is empty or starts with [" #"]. *)
Lemma comment_of_cases (line : str) :
  (Py.has_char "#" line = false /\ PythonUpdater.comment_of line = [])
  \/ (Py.has_char "#" line = true
      /\ PythonUpdater.comment_of line = " #" ++ Py.after_first "#" line).
Proof.
  unfold PythonUpdater.comment_of.
  destruct (Py.has_char "#" line); [right | left]; split; reflexivity.
Qed.

(** The text before the comment of a rewritten line, stripped. *)
Lemma clean_rewritten c (p ver comment : str) :
  Py.isspace c = false ->
  Py.has_char "#" (c :: p) = false ->
  Py.has_char "#" ver = false ->
  comment = [] \/ (exists a, comment = " #" ++ a) ->
  exists y,
    PythonUpdater.clean ((c :: p) ++ ">=" ++ ver ++ comment)
    = (c :: p) ++ ">=" ++ y
    /\ forall P : ascii -> Prop, Forall P ver -> P " "%char -> Forall P y.
Proof.
  intros Hc Hpkg Hver Hcomment.
  set (w := Py.before_first "#" comment).
  assert (forall P : ascii -> Prop, P " "%char -> Forall P w) as Hw.
  { intros P Hsp. subst w. destruct Hcomment as [-> | [a ->]]; simpl.
    - constructor.
    - repeat constructor. exact Hsp. }
  exists (Py.rstrip (ver ++ w)). split.
  - unfold PythonUpdater.clean.
    rewrite before_first_app by exact Hpkg.
    rewrite (before_first_app "#" ">=") by reflexivity.
    rewrite before_first_app by exact Hver. fold w.
    unfold Py.strip. rewrite <- app_comm_cons.
    rewrite lstrip_stable by exact Hc.
    transitivity (Py.rstrip (((c :: p) ++ (">" : str)) ++ "="%char :: (ver ++ w))).
    { f_equal. rewrite <- app_assoc. reflexivity. }
    rewrite rstrip_app_stop by reflexivity.
    rewrite <- app_assoc. reflexivity.
  - intros P Hv Hsp. apply Forall_rstrip, Forall_app. split; auto.
Qed.

(** The comment of a rewritten line is the comment it was given. *)
Lemma comment_rewritten (pkg ver line : str) :
  Py.has_char "#" pkg = false ->
  Py.has_char "#" ver = false ->
  PythonUpdater.comment_of (pkg ++ ">=" ++ ver ++ PythonUpdater.comment_of line)
  = PythonUpdater.comment_of line.
Proof.
  intros Hpkg Hver.
  destruct (comment_of_cases line) as [[_ ->] | [_ ->]].
  - unfold PythonUpdater.comment_of.
    rewrite !has_char_app, Hpkg, Hver. reflexivity.
  - unfold PythonUpdater.comment_of at 1.
    rewrite !has_char_app, Hpkg, Hver.
    rewrite after_first_app by exact Hpkg.
    rewrite (after_first_app "#" ">=") by reflexivity.
    rewrite after_first_app by exact Hver.
    reflexivity.
Qed.

(** A name without an operator that did not match the cleaned line does
    not match the cleaned rewritten line either. *)
Lemma unmatched_stays_unmatched (q pkg rest y : str) :
  Forall (λ c, PythonUpdater.is_operator c = false) q ->
  Forall (λ c, PythonUpdater.is_operator c = false) pkg ->
  Forall (λ c, c <> "010"%char) pkg ->
  Forall (λ c, c <> "010"%char) y ->
  PythonUpdater.pattern_match pkg (pkg ++ rest) = true ->
  PythonUpdater.pattern_match q (pkg ++ rest) = false ->
  PythonUpdater.pattern_match q (pkg ++ ">=" ++ y) = false.
Proof.
  intros Hq Hpkg Hnl Hy Hhit Hmiss.
  destruct (PythonUpdater.pattern_match q (pkg ++ ">=" ++ y)) eqn:Hm;
    [exfalso | reflexivity].
  destruct (pattern_match_prefix _ _ Hm) as [rest' Heq].
  apply app_eq_app in Heq. destruct Heq as [d [[Hp Hr] | [Hp Hr]]].
  - (* q is a prefix of pkg *)
    subst pkg rest'. destruct d as [|x d].
    + rewrite app_nil_r in *. congruence.
    + rewrite <- app_assoc in Hm. rewrite pattern_match_app in Hm.
      * simpl in Hm. apply Forall_app in Hpkg. destruct Hpkg as [_ Hd].
        inversion Hd; subst. congruence.
      * apply Forall_app in Hnl. destruct Hnl as [_ Hd].
        apply Forall_app. split; [exact Hd|].
        constructor; [discriminate|]. constructor; [discriminate | exact Hy].
  - (* pkg is a prefix of q *)
    subst q. destruct d as [|x d].
    + rewrite app_nil_r in *. congruence.
    + simpl in Hr. injection Hr as <- _.
      apply Forall_app in Hq. destruct Hq as [_ Hd].
      inversion Hd; subst. discriminate.
Qed.

(** A rewritten line is rewritten to itself. *)
Lemma rewritten_line_fixed updates line pkg ver :
  Forall stable_entry updates ->
  Forall (λ e : str * str, e.1 <> []) updates ->
  no_linebreak line ->
  PythonUpdater.first_match updates (PythonUpdater.clean line) = Some (pkg, ver) ->
  let line' := pkg ++ ">=" ++ ver ++ PythonUpdater.comment_of line in
  line_out updates line' = line' /\ no_linebreak line'.
Proof.
  intros Hstable Hnames Hline Hfirst line'.
  destruct (first_match_split _ _ _ _ Hfirst)
    as (before & after & -> & Hhit & Hbefore).
  apply Forall_app in Hstable. destruct Hstable as [Hsb Hsa].
  inversion Hsa as [|? ? (Hop & Hvh & Hvl) _]; subst. simpl in Hop, Hvh, Hvl.
  apply Forall_app in Hnames. destruct Hnames as [_ Hna].
  inversion Hna as [|? ? Hne _]; subst. simpl in Hne.
  destruct (pattern_match_prefix _ _ Hhit) as [rest Hclean].
  destruct pkg as [|c p]; [contradiction|].
  assert (Py.isspace c = false) as Hc.
  { unfold PythonUpdater.clean in Hclean. apply (strip_head _ _ _ Hclean). }
  assert (Py.has_char "#" (c :: p) = false) as Hhash.
  { pose proof (clean_no_hash line) as H. rewrite Hclean, has_char_app in H.
    apply orb_false_iff in H. tauto. }
  assert (no_linebreak (PythonUpdater.clean line)) as Hcl.
  { apply Forall_clean, Hline. }
  rewrite Hclean in Hcl. apply Forall_app in Hcl. destruct Hcl as [Hpl Hrl].
  assert (no_linebreak line') as Hline'.
  { subst line'. apply Forall_app. split; [exact Hpl|].
    apply Forall_app. split; [repeat constructor|].
    apply Forall_app. split; [exact Hvl|].
    destruct (comment_of_cases line) as [[_ ->] | [_ ->]]; [constructor|].
    apply Forall_app. split; [repeat constructor|].
    apply Forall_after_first, Hline. }
  split; [|exact Hline'].
  destruct (clean_rewritten c p ver (PythonUpdater.comment_of line) Hc Hhash Hvh)
    as (y & Hclean' & Hy).
  { destruct (comment_of_cases line) as [[_ ->] | [_ ->]]; eauto. }
  assert (Forall (λ x, x <> "010"%char) y) as Hynl.
  { apply Hy; [|discriminate]. apply no_linebreak_no_newline, Hvl. }
  unfold line_out. fold line'. subst line'. rewrite Hclean'.
  rewrite <- app_comm_cons.
  rewrite app_comm_cons.
  rewrite first_match_found.
  - rewrite comment_rewritten by assumption. reflexivity.
  - rewrite Forall_forall in Hbefore, Hsb |- *. intros e He.
    apply unmatched_stays_unmatched with (rest := rest).
    + apply (Hsb e He).
    + exact Hop.
    + apply no_linebreak_no_newline, Hpl.
    + exact Hynl.
    + rewrite <- Hclean. exact Hhit.
    + rewrite <- Hclean. apply (Hbefore e He).
  - rewrite pattern_match_app; [reflexivity|].
    constructor; [discriminate|]. constructor; [discriminate | exact Hynl].
Qed.

Lemma line_out_idempotent updates line :
  Forall stable_entry updates ->
  Forall (λ e : str * str, e.1 <> []) updates ->
  no_linebreak line ->
  line_out updates (line_out updates line) = line_out updates line
  /\ no_linebreak (line_out updates line).
Proof.
  intros Hstable Hnames Hline.
  unfold line_out at 2 3 4.
  destruct (PythonUpdater.clean line) as [|c cl] eqn:Hclean.
  - split; [apply line_out_blank, Hclean | exact Hline].
  - destruct (PythonUpdater.first_match updates (c :: cl)) as [[pkg ver]|] eqn:Hfirst.
    + rewrite <- Hclean in Hfirst.
      apply (rewritten_line_fixed updates line pkg ver); assumption.
    + split; [|exact Hline]. apply line_out_unmatched.
      rewrite Hclean. exact Hfirst.
Qed.

(** *** [splitlines] after [join] *)

Lemma splitlines_no_linebreak (s : str) : Forall no_linebreak (Py.splitlines s).
Proof.
  assert (forall n (t : str), length t <= n -> Forall no_linebreak (Py.splitlines t))
    as H.
  { induction n as [|n IH]; intros [|c t] Hlen; simpl in *;
      try constructor; try lia.
    - destruct (Py.is_linebreak c) eqn:Hc.
      + assert (Forall no_linebreak (Py.splitlines t)) as Ht by (apply IH; lia).
        assert (forall t', length t' <= n ->
                           Forall no_linebreak ([] :: Py.splitlines t')) as Hcons.
        { intros t' Ht'. constructor; [constructor | apply IH, Ht']. }
        destruct c as [[] [] [] [] [] [] [] []]; try (apply Hcons; lia).
        destruct t as [|d t]; [apply Hcons; simpl; lia|].
        simpl in Hlen.
        destruct d as [[] [] [] [] [] [] [] []];
          try (apply Hcons; simpl; lia).
      + assert (Forall no_linebreak (Py.splitlines t)) as Ht by (apply IH; lia).
        destruct (Py.splitlines t) as [|l ls].
        * repeat constructor. exact Hc.
        * inversion Ht; subst. constructor; [constructor|]; assumption. }
  apply (H (length s)). lia.
Qed.

Lemma splitlines_line (l rest : str) :
  no_linebreak l ->
  Py.splitlines (l ++ "010"%char :: rest) = l :: Py.splitlines rest.
Proof.
  induction 1 as [|c l Hc _ IH]; simpl.
  - reflexivity.
  - rewrite Hc, IH. reflexivity.
Qed.

Lemma splitlines_join (ls : list str) :
  Forall no_linebreak ls -> ls <> [] ->
  Py.splitlines (Py.join nl ls ++ nl) = ls.
Proof.
  induction 1 as [|l ls Hl Hls IH]; [contradiction|]. intros _.
  destruct ls as [|l2 ls].
  - simpl. unfold nl. rewrite splitlines_line by exact Hl. reflexivity.
  - change (Py.join nl (l :: l2 :: ls)) with (l ++ nl ++ Py.join nl (l2 :: ls)).
    rewrite <- !app_assoc. unfold nl at 1. simpl app at 2.
    rewrite splitlines_line by exact Hl.
    f_equal. apply IH. discriminate.
Qed.

Lemma dict_set_names (P : str -> Prop) k (v : str) d :
  P k -> Forall (λ e : str * str, P e.1) d ->
  Forall (λ e : str * str, P e.1) (Dict.set k v d).
Proof.
  intros Hk. induction 1 as [|[k' v'] d Hk' Hd IH]; simpl.
  - repeat constructor. exact Hk.
  - destruct (Py.eqb k' k); constructor; auto.
Qed.

(** Every name of an Update Set is non-empty. *)
Lemma update_set_names_nonempty norm vulns updates :
  Forall (λ e : str * str, e.1 <> []) updates ->
  Forall (λ e : str * str, e.1 <> []) (fold_left (Updates.store norm) vulns updates).
Proof.
  revert updates. induction vulns as [|v vulns IH]; intros updates H; simpl.
  - exact H.
  - apply IH. unfold Updates.store.
    destruct (PkgName v) as [pkg|]; [|exact H].
    destruct (FixedVersion v) as [fixed|]; [|exact H].
    destruct pkg as [|c pkg]; [exact H|]. simpl.
    destruct (Py.nonempty fixed); [|exact H].
    apply (dict_set_names (λ k, k <> [])); [discriminate | exact H].
Qed.

(** The content the updater leaves is a fixed point of the updater. *)
Lemma written_idempotent updates content :
  Forall stable_entry updates ->
  Forall (λ e : str * str, e.1 <> []) updates ->
  written updates (written updates content) = written updates content.
Proof.
  intros Hstable Hnames. unfold written at 2 3.
  destruct (existsb (hit updates) (Py.splitlines content)) eqn:Hhit.
  - set (outs := map (line_out updates) (Py.splitlines content)).
    assert (Forall (λ l, line_out updates l = l /\ no_linebreak l) outs) as Houts.
    { subst outs. apply Forall_map.
      generalize (splitlines_no_linebreak content).
      apply Forall_impl. intros l Hl.
      apply line_out_idempotent; assumption. }
    assert (outs <> []) as Hne.
    { subst outs. destruct (Py.splitlines content); [discriminate|]. discriminate. }
    unfold written. rewrite splitlines_join; [|
      revert Houts; apply Forall_impl; tauto | exact Hne].
    assert (map (line_out updates) outs = outs) as ->.
    { clear Hne. induction Houts as [|l ls [Hl _] _ IH]; simpl; [reflexivity|].
      rewrite Hl, IH. reflexivity. }
    destruct (existsb (hit updates) outs); reflexivity.
  - unfold written. rewrite Hhit. reflexivity.
Qed.

Lemma update_twice vulns (fs fs1 fs2 : files) r1 r2 :
  Forall stable_entry (Updates.python vulns) ->
  PythonUpdater.update vulns fs = (r1, fs1) ->
  PythonUpdater.update vulns fs1 = (r2, fs2) ->
  fs2 = fs1.
Proof.
  intros Hstable H1 H2.
  assert (Forall (λ e : str * str, e.1 <> []) (Updates.python vulns)) as Hnames.
  { apply update_set_names_nonempty. constructor. }
  destruct (fs !! "requirements.txt") as [content|] eqn:Hfile.
  - destruct (python_update_written vulns content fs Hfile) as [pkgs Hw].
    rewrite Hw in H1. injection H1 as _ <-.
    destruct (python_update_written vulns
                (written (Updates.python vulns) content)
                (<["requirements.txt" := written (Updates.python vulns) content]> fs))
      as [pkgs' Hw'].
    { apply lookup_insert_eq. }
    rewrite Hw' in H2. injection H2 as _ <-.
    rewrite written_idempotent by assumption.
    apply insert_insert_eq.
  - pose proof (update_without_manifest (SampleRepo.tools [])
                  DependencyUpdater.Python vulns fs Hfile) as Hn.
    simpl in Hn. rewrite Hn in H1. injection H1 as _ <-.
    rewrite Hn in H2. injection H2 as _ <-. reflexivity.
Qed.

(** C7, as the code has it: for an Update Set whose names hold no version
    operator and whose versions hold no [#] and no line boundary, applying
    the requirements.txt updater a second time with the same findings to the
    files a first application left gives the same files again:
    requirements.txt holds the content the first application produced. *)
Theorem pinned_list_update_idempotent vulns (fs : files) :
  Forall stable_entry (Updates.python vulns) ->
  twice vulns fs = once vulns fs
  /\ twice vulns fs !! "requirements.txt" = once vulns fs !! "requirements.txt".
Proof.
  intros Hstable.
  assert (twice vulns fs = once vulns fs) as Heq.
  { unfold twice, once.
    apply (update_twice vulns fs _ _ (PythonUpdater.update vulns fs).1
             (PythonUpdater.update vulns (PythonUpdater.update vulns fs).2).1);
      [exact Hstable | apply surjective_pairing ..]. }
  split; [exact Heq | rewrite Heq; reflexivity].
Qed.

(** C7 as stated fails outside these names and versions.  A version that
    holds [#] is read back as a version and a comment; a version that ends
    with a line boundary adds a blank line at every application; a name that
    ends with an operator matches the line another name has rewritten. *)
Lemma second_application_can_differ :
  (let fs : files := {["requirements.txt" := ("pkg==1.0.0" : str) ++ nl]} in
   let vulns := [SampleRepo.finding "pkg" "2.0.0#beta"] in
   once vulns fs !! "requirements.txt" = Some (("pkg>=2.0.0#beta" : str) ++ nl)
   /\ twice vulns fs !! "requirements.txt"
      = Some (("pkg>=2.0.0#beta #beta" : str) ++ nl))
  /\ (let fs : files := {["requirements.txt" := ("pkg==1.0.0" : str) ++ nl]} in
      let vulns := [SampleRepo.finding "pkg" (("2.0.0" : str) ++ nl)] in
      once vulns fs !! "requirements.txt"
        = Some (("pkg>=2.0.0" : str) ++ nl ++ nl)
      /\ twice vulns fs !! "requirements.txt"
         = Some (("pkg>=2.0.0" : str) ++ nl ++ nl ++ nl))
  /\ (let fs : files := {["requirements.txt" := ("a==0" : str) ++ nl]} in
      let vulns := [SampleRepo.finding "a>" "9"; SampleRepo.finding "a" "1"] in
      once vulns fs !! "requirements.txt" = Some (("a>=1" : str) ++ nl)
      /\ twice vulns fs !! "requirements.txt" = Some (("a>>=9" : str) ++ nl)).
Proof. repeat split; vm_compute; reflexivity. Qed.

Lemma pinned_list_update_idempotent_witness :
  let vulns := [SampleRepo.finding "requests" "2.31.0";
                SampleRepo.finding "flask" "2.0.0, 2.2.5"] in
  let fs : files :=
    {["requirements.txt" :=
        SampleRepo.text ["requests==2.0.0" : str; "flask>=1.0.0 # comment" : str;
                         "django" : str; "numpy==1.18.0" : str]]} in
  once vulns fs !! "requirements.txt"
    = Some (SampleRepo.text ["requests>=2.31.0" : str; "flask>=2.2.5 # comment" : str;
                             "django" : str; "numpy==1.18.0" : str])
  /\ twice vulns fs = once vulns fs
  /\ twice vulns fs !! "requirements.txt" = once vulns fs !! "requirements.txt".
Proof.
  intros vulns fs. split; [vm_compute; reflexivity|].
  apply (pinned_list_update_idempotent vulns fs).
  vm_compute. repeat (constructor || split).
Defined.

End Idempotence.
(** ** The package token of a line *)

Section PackageToken.
Import Lines.

Lemma strip_last (s a : str) c : Py.strip s = a ++ [c] -> Py.isspace c = false.
Proof.
  unfold Py.strip, Py.rstrip. intros H.
  apply (f_equal (@rev ascii)) in H.
  rewrite rev_involutive, rev_app_distr in H. simpl in H.
  exact (drop_while_head _ _ _ _ H).
Qed.

Lemma chop_final_newline_cases (s : str) :
  PythonUpdater.chop_final_newline s = s
  \/ s = PythonUpdater.chop_final_newline s ++ nl.
Proof.
  unfold PythonUpdater.chop_final_newline.
  destruct (rev s) as [|c r] eqn:Hrev; [left; reflexivity|].
  destruct c as [[] [] [] [] [] [] [] []]; try (left; reflexivity).
  right. rewrite <- (rev_involutive s), Hrev. reflexivity.
Qed.

(** What follows the name in a line the pattern matches. *)
Lemma pattern_match_cases pkg clean_line :
  PythonUpdater.pattern_match pkg clean_line = true ->
  exists rest,
    clean_line = pkg ++ rest
    /\ (rest = [] \/ rest = nl
        \/ exists c tail, rest = c :: tail /\ PythonUpdater.is_operator c = true).
Proof.
  unfold PythonUpdater.pattern_match.
  destruct (Py.strip_prefix pkg clean_line) as [rest|] eqn:Hpre; [|discriminate].
  apply strip_prefix_Some in Hpre. intros Hm. exists rest. split; [exact Hpre|].
  destruct (chop_final_newline_cases rest) as [Hchop | Hchop];
    destruct (PythonUpdater.chop_final_newline rest) as [|c tail].
  - left. symmetry. exact Hchop.
  - right. right. exists c, tail. split; [symmetry; exact Hchop|].
    apply andb_prop in Hm. apply Hm.
  - right. left. exact Hchop.
  - right. right. exists c, (tail ++ nl). split; [exact Hchop|].
    apply andb_prop in Hm. apply Hm.
Qed.

Lemma before_operator_app (pkg rest : str) :
  plain_name pkg ->
  rest = [] \/ (exists c tail, rest = c :: tail /\ PythonUpdater.is_operator c = true) ->
  before_operator (pkg ++ rest) = pkg.
Proof.
  intros Hpkg Hrest. induction Hpkg as [|x pkg Hx _ IH]; simpl.
  - destruct Hrest as [-> | (c & tail & -> & Hc)]; [reflexivity|].
    simpl. rewrite Hc. reflexivity.
  - rewrite Hx, IH. reflexivity.
Qed.

(** A line that the pattern matches for a name without operators has that
    name as its package token. *)
Lemma token_of_match (pkg line : str) :
  plain_name pkg ->
  PythonUpdater.pattern_match pkg (PythonUpdater.clean line) = true ->
  package_token line = pkg.
Proof.
  intros Hpkg Hm. unfold package_token.
  destruct (pattern_match_cases _ _ Hm) as (rest & Hline & [-> | [-> | Hop]]).
  - rewrite Hline. apply before_operator_app; [exact Hpkg | left; reflexivity].
  - unfold PythonUpdater.clean in Hline. apply strip_last in Hline. discriminate.
  - rewrite Hline. apply before_operator_app; [exact Hpkg | right; exact Hop].
Qed.

Lemma dict_get_member {V} (k : str) (v : V) before after :
  Dict.get k (before ++ (k, v) :: after) <> None.
Proof.
  induction before as [|[k' v'] before IH]; simpl.
  - rewrite eqb_refl. discriminate.
  - destruct (Py.eqb k' k); [discriminate | exact IH].
Qed.

(** The loop changes a line only if its package token is a pending name. *)
Lemma line_out_token updates line :
  Forall (λ entry, plain_name entry.1) updates ->
  Dict.get (package_token line) updates = None ->
  line_out updates line = line.
Proof.
  intros Hnames Hget. apply line_out_unmatched.
  destruct (PythonUpdater.first_match updates (PythonUpdater.clean line))
    as [[pkg ver]|] eqn:Hfirst; [|reflexivity].
  destruct (first_match_split _ _ _ _ Hfirst) as (before & after & -> & Hm & _).
  apply Forall_app in Hnames. destruct Hnames as [_ Hnames].
  inversion Hnames as [|? ? Hpkg _]; subst. simpl in Hpkg.
  rewrite (token_of_match pkg line Hpkg Hm) in Hget.
  exfalso. exact (dict_get_member _ _ _ _ Hget).
Qed.

(** C3, as the code has it: with requirements.txt present, the updater
    leaves in it the content [written]: when some line matches a pending
    update, every line is replaced by its output line and each output line,
    a blank one included, is followed by one newline, so that the content
    ends with a newline; a line that matches no pending update, and a blank
    line, is its own output line; when no pending name holds a version
    operator, a line whose package token is not a pending name is its own
    output line; and with the one finding that fixes [pkg] at 2.0.0 the
    output line of [pkg>=1.0.0 # note] is [pkg>=2.0.0 # note]. *)
Theorem pinned_list_rewrites_matching_lines vulns content (fs : files) :
  fs !! "requirements.txt" = Some content ->
  let updates := Updates.python vulns in
  let lines := Py.splitlines content in
  (exists pkgs,
      PythonUpdater.update vulns fs
      = (Ok pkgs, <["requirements.txt" := written updates content]> fs))
  /\ (existsb (hit updates) lines = true ->
      written updates content = Py.join nl (map (line_out updates) lines) ++ nl
      /\ ends_with (written updates content) nl)
  /\ (existsb (hit updates) lines = false -> written updates content = content)
  /\ (forall line,
        PythonUpdater.first_match updates (PythonUpdater.clean line) = None ->
        line_out updates line = line)
  /\ (forall line, PythonUpdater.clean line = [] -> line_out updates line = line)
  /\ (forall line,
        Forall (λ entry, plain_name entry.1) updates ->
        Dict.get (package_token line) updates = None ->
        line_out updates line = line)
  /\ (forall pkg,
        vulns = [SampleRepo.finding pkg "2.0.0"] ->
        pkg <> [] -> Py.has_char "#" pkg = false ->
        (forall c r, pkg = c :: r -> Py.isspace c = false) ->
        line_out updates (pkg ++ ">=1.0.0 # note") = pkg ++ ">=2.0.0 # note").
Proof.
  intros Hfile updates lines. repeat split.
  - apply python_update_written. exact Hfile.
  - unfold written. fold lines. rewrite H. reflexivity.
  - unfold written. fold lines. rewrite H. eexists. reflexivity.
  - unfold written. fold lines. intros ->. reflexivity.
  - apply line_out_unmatched.
  - apply line_out_blank.
  - apply line_out_token.
  - intros pkg -> Hne Hhash Hhead. apply line_out_pinned; assumption.
Qed.

(** C3 as stated fails on a file that ends with a blank line: the blank
    line is kept, as the claim also demands, and the content then ends with
    two newlines, not with exactly one.  And when [pkg] stands for any
    package name, it fails for a name that holds [#] or starts with white
    space: the line is cut at the [#], or stripped, before it is compared,
    and is left as it is.  And a pending name that holds a version operator
    rewrites a line whose package token is another name. *)
Lemma final_blank_line_gives_two_newlines :
  (let fs : files :=
     {["requirements.txt" := ("pkg>=1.0.0 # note" : str) ++ nl ++ nl]} in
   Py.splitlines (("pkg>=1.0.0 # note" : str) ++ nl ++ nl)
     = ["pkg>=1.0.0 # note" : str; []]
   /\ PythonUpdater.update [SampleRepo.finding "pkg" "2.0.0"] fs
      = (Ok ["pkg" : str],
         {["requirements.txt" := ("pkg>=2.0.0 # note" : str) ++ nl ++ nl]})
   /\ ends_with (("pkg>=2.0.0 # note" : str) ++ nl ++ nl) (nl ++ nl))
  /\ line_out (Updates.python [SampleRepo.finding "a#b" "2.0.0"])
       "a#b>=1.0.0 # note" = ("a#b>=1.0.0 # note" : str)
  /\ line_out (Updates.python [SampleRepo.finding " pkg" "2.0.0"])
       " pkg>=1.0.0 # note" = (" pkg>=1.0.0 # note" : str)
  /\ (package_token "a=b>=1.0.0" = ("a" : str)
      /\ Dict.get ("a" : str) (Updates.python [SampleRepo.finding "a=b" "2.0.0"])
         = None
      /\ line_out (Updates.python [SampleRepo.finding "a=b" "2.0.0"])
           "a=b>=1.0.0" = ("a=b>=2.0.0" : str)).
Proof.
  split; [|repeat split; reflexivity].
  split; [reflexivity|]. split; [vm_compute; reflexivity|].
  eexists. reflexivity.
Qed.

Lemma pinned_list_rewrites_matching_lines_witness :
  let content : str :=
    SampleRepo.text ["flask==1.0" : str; "pkg>=1.0.0 # note" : str; [];
                     "numpy" : str] in
  let vulns := [SampleRepo.finding "pkg" "2.0.0"] in
  (exists pkgs,
      PythonUpdater.update vulns {["requirements.txt" := content]}
      = (Ok pkgs,
         <["requirements.txt" := written (Updates.python vulns) content]>
           {["requirements.txt" := content]}))
  /\ written (Updates.python vulns) content
     = SampleRepo.text ["flask==1.0" : str; "pkg>=2.0.0 # note" : str; [];
                        "numpy" : str]
  /\ package_token "flask==1.0" = ("flask" : str)
  /\ line_out (Updates.python vulns) "flask==1.0" = ("flask==1.0" : str).
Proof.
  intros content vulns.
  destruct (pinned_list_rewrites_matching_lines vulns content
              {["requirements.txt" := content]})
    as (Hupdate & _ & _ & _ & _ & Htoken & _).
  - reflexivity.
  - split; [exact Hupdate|]. split; [reflexivity|]. split; [reflexivity|].
    apply Htoken; [|reflexivity].
    repeat constructor.
Defined.

End PackageToken.

(** ** The pom.xml updater *)

Section Maven.
Import MavenUpdater.








(** *** A match does not run into a later artifact tag *)




(** *** The dependency of the claim *)









(** [update] on an existing pom.xml with at least one package to update. *)
Lemma update_unfold vulns content (fs : files) :
  fs !! "pom.xml" = Some content ->
  Updates.plain vulns <> [] ->
  update vulns fs
  = match process (Updates.plain vulns) content [] with
    | Ok (content', pkgs) =>
        if Py.eqb content' content then (Ok [], fs)
        else (Ok pkgs, <["pom.xml" := content']> fs)
    | Raise e => (Raise e, fs)
    end.
Proof.
  intros Hfile Hupd.
  unfold update, mbind, io_bind, IO.exists_, IO.read_text, IO.lift, IO.write_text.
  rewrite Hfile.
  destruct (Updates.plain vulns) as [|e updates]; [contradiction|].
  cbn -[Py.eqb process]. rewrite Hfile.
  generalize (process (e :: updates) content []). intros r.
  destruct r as [[content' pkgs]|err]; [|reflexivity].
  destruct (Py.eqb content' content); reflexivity.
Qed.





(** The pom.xml of the repository's own test. *)
Example maven_updates_the_test_pom :
  update [SampleRepo.finding "jackson-databind" "2.12.0"]
    {["pom.xml" := Pom.test_pom "2.10.0"]}
  = (Ok ["jackson-databind" : str], {["pom.xml" := Pom.test_pom "2.12.0"]}).
Proof. vm_compute. reflexivity. Qed.

(** A finding for another artifact: nothing is reported or written. *)
Example maven_ignores_an_unknown_package :
  update [SampleRepo.finding "log4j-core" "2.17.1"]
    {["pom.xml" := Pom.test_pom "2.10.0"]}
  = (Ok [], {["pom.xml" := Pom.test_pom "2.10.0"]}).
Proof. vm_compute. reflexivity. Qed.

End Maven.

(** ** Every way a run ends *)

Section Exits.
Import RepoRunner Pipeline.

Ltac branch_on H :=
  match type of H with
  | context [if negb ?x then _ else _] =>
      lazymatch x with
      | context [match _ with _ => _ end] => fail
      | _ => destruct x eqn:?
      end
  | context [match ?x with _ => _ end] =>
      lazymatch x with
      | context [match _ with _ => _ end] => fail
      | _ => destruct x eqn:?
      end
  | context [if ?x then _ else _] =>
      lazymatch x with
      | context [match _ with _ => _ end] => fail
      | _ => destruct x eqn:?
      end
  end.

Ltac run_simpl H :=
  cbn -[list_ascii_of_string Py.join Py.str_of_nat DockerRunner.build_image
        DockerRunner.scan_image TestRunner.run_tests GitClient.create_pr
        TrivyParser.parse_trivy_report high_medium summary_unfixed
        Obj.truthy Obj.eq_str In] in H.

Ltac paths H :=
  unfold outcome, run_repo, mbind, run_bind, emit, return_, call, try_except in H;
  run_simpl H; repeat (branch_on H; run_simpl H);
  injection H as <- <-.

Lemma run_repo_exit E cfg wd :
  exit E cfg wd (outcome E cfg wd).1 (outcome E cfg wd).2.
Proof.
  destruct (outcome E cfg wd) as [r t] eqn:Hrun. cbn [fst snd].
  paths Hrun.
  all: repeat match goal with u : unit |- _ => destruct u end.
  all: repeat match goal with
         | H : negb _ = true |- _ => apply negb_true_iff in H
         | H : negb _ = false |- _ => apply negb_false_iff in H
         end.
  all: repeat match goal with
         | H : Obj.eq_str _ _ = true |- _ => apply eq_str_true in H; subst
         | H : Py.nonempty_list ?l = _ |- _ =>
             destruct l; simpl in H; try discriminate H; clear H
         end.
  all: try solve [econstructor; unfold push_done, tests_due, update_done,
                    branch_due, scan_done; repeat split; eauto; congruence].
  apply exit_pr; [|assumption|].
  - unfold push_done, tests_due, update_done, branch_due, scan_done;
      repeat split; eauto; congruence.
  - intros ->. discriminate.
Qed.

(** The exit of a run whose outcome is known. *)
Lemma run_repo_exit_of E cfg wd r t :
  outcome E cfg wd = (r, t) -> exit E cfg wd r t.
Proof.
  intros Hrun. pose proof (run_repo_exit E cfg wd) as Hexit.
  rewrite Hrun in Hexit. exact Hexit.
Qed.

Lemma get_raises_attribute_error v key e :
  Obj.get v key = Raise e -> kind e = AttributeError.
Proof. destruct v; simpl; intros [= <-]; reflexivity. Qed.

Lemma iterate_raises_type_error v e :
  Obj.iterate v = Raise e -> kind e = TypeError.
Proof. destruct v; simpl; intros [= <-]; reflexivity. Qed.

Lemma either_casing_raises d upper lower e :
  TrivyParser.either_casing d upper lower = Raise e -> kind e = AttributeError.
Proof.
  unfold TrivyParser.either_casing.
  destruct (Obj.get d upper) as [a|e1] eqn:Hupper; simpl.
  - destruct (Obj.truthy a); [discriminate|].
    destruct (Obj.get d lower) as [b|e2] eqn:Hlower; simpl; [discriminate|].
    intros [= <-]. exact (get_raises_attribute_error _ _ _ Hlower).
  - intros [= <-]. exact (get_raises_attribute_error _ _ _ Hupper).
Qed.

Lemma collect_raises results e :
  TrivyParser.collect results = Raise e ->
  kind e = AttributeError \/ kind e = TypeError.
Proof.
  induction results as [|res results IH]; simpl; [discriminate|].
  unfold TrivyParser.result_findings.
  destruct (TrivyParser.either_casing res _ _) as [vulns|e1] eqn:Hcase; simpl.
  - destruct (Obj.iterate vulns) as [vs|e2] eqn:Hiter; simpl.
    + destruct (TrivyParser.collect results); simpl; [discriminate|].
      intros [= <-]. apply IH. reflexivity.
    + intros [= <-]. right. exact (iterate_raises_type_error _ _ Hiter).
  - intros [= <-]. left. exact (either_casing_raises _ _ _ _ Hcase).
Qed.

Lemma parse_raises report e :
  TrivyParser.parse_trivy_report report = Raise e ->
  kind e = AttributeError \/ kind e = TypeError.
Proof.
  unfold TrivyParser.parse_trivy_report.
  destruct (TrivyParser.either_casing report _ _) as [results|e1] eqn:Hcase; simpl.
  - destruct (Obj.iterate results) as [items|e2] eqn:Hiter; simpl.
    + apply collect_raises.
    + intros [= <-]. right. exact (iterate_raises_type_error _ _ Hiter).
  - intros [= <-]. left. exact (either_casing_raises _ _ _ _ Hcase).
Qed.

Lemma high_medium_raises vulns e :
  high_medium vulns = Raise e -> kind e = AttributeError.
Proof.
  induction vulns as [|v vulns IH]; simpl; [discriminate|].
  destruct v; simpl; try (intros [= <-]; reflexivity).
  destruct (high_medium vulns); simpl; [discriminate|].
  intros [= <-]. apply IH. reflexivity.
Qed.

Lemma summary_unfixed_raises vulns e :
  summary_unfixed vulns = Raise e ->
  kind e = AttributeError \/ kind e = TypeError.
Proof.
  induction vulns as [|v vulns IH]; simpl; [discriminate|].
  destruct v; simpl; try (intros [= <-]; left; reflexivity).
  destruct (Obj.hashable _); [exact IH|].
  intros [= <-]. right. reflexivity.
Qed.

Ltac traces :=
  unfold requested, pushed, committed, tested, summarized, updated, branched,
    saved, scanned, built in *;
  cbn [app] in *.

Ltac last_call :=
  traces;
  match goal with
  | |- exists before ev, ?l = _ /\ _ =>
      exists (removelast l), (List.last l (SaveReport [])); cbn [removelast List.last]
  end.

(** X1: whatever [run_repo] returns is one of four dicts: the success
    outcome with action "none", the skipped outcome, the success outcome
    that carries the answer of the change-request call (which is then not
    "failed"), or a failed outcome whose step is one of clone, build, scan,
    git_branch, tests, git_push and pr_creation.  So the key "status" is
    always there and holds "success", "skipped" or "failed". *)
Theorem run_repo_returns_one_of_four_results E cfg wd r :
  (outcome E cfg wd).1 = Ok r ->
  (r = no_action
   \/ r = skipped
   \/ (exists pr_url, r = pr_created pr_url /\ pr_url <> VStr "failed")
   \/ (exists step error,
         r = failed step error
         /\ In step ["clone" : str; "build" : str; "scan" : str;
                     "git_branch" : str; "tests" : str; "git_push" : str;
                     "pr_creation" : str]))
  /\ (exists status,
        Obj.get r "status" = Ok (VStr status)
        /\ In status ["success" : str; "skipped" : str; "failed" : str]).
Proof.
  intros Hr. pose proof (run_repo_exit E cfg wd) as Hexit.
  rewrite Hr in Hexit. clear Hr.
  inversion Hexit; subst; split.
  all: try (left; reflexivity).
  all: try (right; left; reflexivity).
  all: try (right; right; left; eexists; split; [reflexivity | assumption]).
  all: try (right; right; right; eexists _, _; split; [reflexivity|];
            cbn [In]; tauto).
  all: eexists; (split; [reflexivity|]); cbn [In]; tauto.
Qed.

Lemma run_repo_returns_one_of_four_results_witness :
  exists status,
    Obj.get (pr_created (VStr "https://github.com/acme/app/pull/7")) "status"
    = Ok (VStr status)
    /\ In status ["success" : str; "skipped" : str; "failed" : str].
Proof.
  refine (proj2 (run_repo_returns_one_of_four_results
            (Sample.env (Sample.report [Sample.finding "requests" "HIGH"]) 0
               (Some ("ghp_token" : str)) Sample.api_created)
            Sample.config "work" _ _)).
  vm_compute. reflexivity.
Defined.

(** X2: a failed result names the step of the last call the run made, and
    that call is the one that failed: the clone, the branch, the commit or
    the push raised the exception whose text is the error; the build or the
    tests answered false; the scan gave an empty report; the change-request
    call answered "failed". *)
Theorem failed_step_is_the_last_call E cfg wd step error t :
  outcome E cfg wd = (Ok (failed step error), t) ->
  exists before ev, t = before ++ [ev] /\ blamed step error ev.
Proof.
  intros Hrun. apply run_repo_exit_of in Hrun.
  inversion Hrun; subst; try discriminate.
  all: match goal with
       | H : failed _ _ = failed _ _ |- _ => injection H as <- <-
       | H : _ = failed _ _ |- _ => injection H as -> ->
       | _ => idtac
       end.
  all: last_call; (split; [reflexivity|]); cbn [blamed]; auto.
Qed.

Lemma failed_step_is_the_last_call_witness :
  exists before ev,
    [CloneRepo "https://github.com/acme/app.git" (Ok ("work/app" : str));
     BuildImage "app:security-scan" true;
     ScanImage "app:security-scan" (Ok (VDict []))]
    = before ++ [ev]
    /\ blamed "scan" "Trivy scan failed" ev.
Proof.
  apply (failed_step_is_the_last_call
           (Sample.env (VDict []) 0 None Sample.api_created)
           Sample.config "work").
  vm_compute. reflexivity.
Defined.

(** X3: an exception leaves [run_repo] only from the last call the run
    made, and that call is the scan, the dependency update or the
    change-request call, which raised it, or the exception is an
    [AttributeError] or a [TypeError] raised while the findings of the saved
    report were read or while the summary was written.  The clone, the
    build, the branch, the tests, the commit and the push never let one
    through. *)
Theorem exceptions_leave_from_five_places E cfg wd e t :
  outcome E cfg wd = (Raise e, t) ->
  exists before ev, t = before ++ [ev] /\ raised_at e ev.
Proof.
  intros Hrun. apply run_repo_exit_of in Hrun.
  inversion Hrun; subst.
  all: last_call; (split; [reflexivity|]); cbn [raised_at]; auto.
  - eapply parse_raises; eassumption.
  - left. eapply high_medium_raises; eassumption.
  - eapply summary_unfixed_raises; eassumption.
Qed.

Lemma exceptions_leave_from_five_places_witness :
  exists before ev,
    [CloneRepo "https://github.com/acme/app.git" (Ok ("work/app" : str));
     BuildImage "app:security-scan" true;
     ScanImage "app:security-scan"
       (Ok (Sample.report [Sample.finding "requests" "HIGH"]));
     SaveReport "app_trivy_report.json";
     CreateBranch "security/fix-vulns-1" (Ok tt);
     UpdateDependencies [Sample.finding "requests" "HIGH"]
       (Raise (Exn NameError "name 'os' is not defined"))]
    = before ++ [ev]
    /\ raised_at (Exn NameError "name 'os' is not defined") ev.
Proof.
  apply (exceptions_leave_from_five_places
           (SampleRun.env (Sample.report [Sample.finding "requests" "HIGH"])
              (Raise (Exn NameError "name 'os' is not defined")))
           Sample.config "work").
  vm_compute. reflexivity.
Defined.

Ltac in_trace := cbn [In]; repeat (first [left; reflexivity | right]).

(** X4: a run that makes a commit, a push or a change-request call has
    run the tests before, they passed, and the dependency update had
    reported at least one package for at least one finding. *)
Theorem nothing_is_published_without_passed_tests E cfg wd ev :
  In ev (outcome E cfg wd).2 ->
  Observe.is_publication ev = true ->
  In (RunTests true) (outcome E cfg wd).2
  /\ exists vulns pkgs,
       In (UpdateDependencies vulns (Ok pkgs)) (outcome E cfg wd).2
       /\ vulns <> [] /\ pkgs <> [].
Proof.
  intros Hin Hpub. pose proof (run_repo_exit E cfg wd) as Hexit.
  destruct (outcome E cfg wd) as [r t]. cbn [fst snd] in *.
  inversion Hexit; subst; traces; cbn [In] in Hin.
  all: try (exfalso; intuition (subst; discriminate)).
  all: repeat match goal with
         | H : push_done _ _ _ _ _ _ _ |- _ => destruct H as (H & _)
         | H : tests_due _ _ _ _ _ _ _ |- _ => destruct H as ((? & _) & _ & ?)
         | H : branch_due _ _ _ _ _ _ |- _ => destruct H as (_ & _ & ?)
         end.
  all: split; [in_trace | eexists _, _; split; [in_trace | split; assumption]].
Qed.

Lemma nothing_is_published_without_passed_tests_witness :
  let t := (outcome (SampleRun.env
                       (Sample.report [Sample.finding "requests" "HIGH"])
                       (Ok ["requests" : str])) Sample.config "work").2 in
  In (RunTests true) t
  /\ exists vulns pkgs,
       In (UpdateDependencies vulns (Ok pkgs)) t /\ vulns <> [] /\ pkgs <> [].
Proof.
  apply (nothing_is_published_without_passed_tests
           (SampleRun.env (Sample.report [Sample.finding "requests" "HIGH"])
              (Ok ["requests" : str]))
           Sample.config "work"
           (PushChanges "security/fix-vulns-1" (Ok tt))).
  - vm_compute. do 9 right. left. reflexivity.
  - reflexivity.
Defined.

(** X5: the calls of a run are made in the order of the method (clone,
    build, scan, saved report, branch, update, summary, tests, commit,
    push, change request) and each at most once. *)
Theorem calls_follow_the_pipeline_order E cfg wd :
  StronglySorted lt (map stage (outcome E cfg wd).2).
Proof.
  destruct (run_repo_exit E cfg wd); traces; cbn [map stage].
  all: repeat (constructor; [|repeat constructor; lia]); constructor.
Qed.

(** X6: the findings handed to the dependency update are those findings of
    the scanned report whose ["Severity"] is the string HIGH or the string
    MEDIUM, in the order of the report, and there is at least one: a finding
    of any other severity (CRITICAL and LOW among them) is left out. *)
Theorem updater_gets_the_high_and_medium_findings E cfg wd vulns r :
  In (UpdateDependencies vulns r) (outcome E cfg wd).2 ->
  exists image report found,
    In (ScanImage image (Ok report)) (outcome E cfg wd).2
    /\ TrivyParser.parse_trivy_report report = Ok found
    /\ vulns = List.filter Observe.high_or_medium found
    /\ vulns <> [].
Proof.
  intros Hin. pose proof (run_repo_exit E cfg wd) as Hexit.
  destruct (outcome E cfg wd) as [r0 t]. cbn [fst snd] in *.
  inversion Hexit; subst; traces; cbn [In] in Hin.
  all: try (exfalso; intuition discriminate).
  all: repeat match goal with
         | H : push_done _ _ _ _ _ _ _ |- _ => destruct H as (H & _)
         | H : tests_due _ _ _ _ _ _ _ |- _ => destruct H as (H & _)
         | H : update_done _ _ _ _ _ _ _ |- _ => destruct H as (H & _)
         | H : branch_due _ _ _ _ _ _ |- _ =>
             destruct H as (_ & (found & Hparse & Hfilter) & Hne)
         end.
  all: assert (vulns0 = vulns) as -> by (intuition congruence).
  all: apply high_medium_sound in Hfilter; destruct Hfilter as [_ Hfilter].
  all: eexists _, _, found; split; [in_trace|]; auto.
Qed.

Lemma updater_gets_the_high_and_medium_findings_witness :
  exists image report found,
    In (ScanImage image (Ok report))
      (outcome (SampleRun.env SampleRun.critical_and_high (Ok []))
         Sample.config "work").2
    /\ TrivyParser.parse_trivy_report report = Ok found
    /\ [Sample.finding "requests" "HIGH"; Sample.finding "flask" "MEDIUM"]
       = List.filter Observe.high_or_medium found
    /\ [Sample.finding "requests" "HIGH"; Sample.finding "flask" "MEDIUM"] <> [].
Proof.
  apply (updater_gets_the_high_and_medium_findings
           (SampleRun.env SampleRun.critical_and_high (Ok []))
           Sample.config "work" _ (Ok [])).
  vm_compute. do 5 right. left. reflexivity.
Defined.

(** X7: a change-request call is made for the branch that was created and
    pushed, named after the number of findings handed to the update; its
    title names the repository and its body lists, separated by commas, the
    packages the update reported. *)
Theorem change_request_is_for_the_pushed_branch E cfg wd branch_name title body r :
  In (CreatePr branch_name title body r) (outcome E cfg wd).2 ->
  exists vulns pkgs,
    In (UpdateDependencies vulns (Ok pkgs)) (outcome E cfg wd).2
    /\ branch_name = "security/fix-vulns-" ++ Py.str_of_nat (length vulns)
    /\ In (CreateBranch branch_name (Ok tt)) (outcome E cfg wd).2
    /\ In (PushChanges branch_name (Ok tt)) (outcome E cfg wd).2
    /\ title = "Security Fixes for " ++ name cfg
    /\ body = "This PR updates dependencies to fix vulnerabilities detected by Trivy."
              ++ ["010"%char; "010"%char]
              ++ "**Fixed**: " ++ Py.join ", " pkgs
              ++ ["010"%char; "010"%char]
              ++ "See attached report for details."
    /\ r = GitClient.create_pr (git_token E) (api E) (url cfg) branch_name
             title body.
Proof.
  intros Hin. pose proof (run_repo_exit E cfg wd) as Hexit.
  destruct (outcome E cfg wd) as [r0 t]. cbn [fst snd] in *.
  inversion Hexit; subst; traces; cbn [In] in Hin.
  all: repeat (destruct Hin as [Hin|Hin]; [try discriminate Hin|]);
    try contradiction.
  all: injection Hin as <- <- <- <-.
  all: exists vulns, pkgs; split; [in_trace|].
  all: split; [reflexivity|]. all: split; [in_trace|].
  all: split; [in_trace|]. all: split; [reflexivity|].
  all: split; [reflexivity|]. all: symmetry; assumption.
Qed.

Lemma change_request_is_for_the_pushed_branch_witness :
  let E := SampleRun.env (Sample.report [Sample.finding "requests" "HIGH"])
             (Ok ["requests" : str; "flask" : str]) in
  let t := (outcome E Sample.config "work").2 in
  exists vulns pkgs,
    In (UpdateDependencies vulns (Ok pkgs)) t
    /\ ("security/fix-vulns-1" : str)
       = "security/fix-vulns-" ++ Py.str_of_nat (length vulns)
    /\ In (CreateBranch "security/fix-vulns-1" (Ok tt)) t
    /\ In (PushChanges "security/fix-vulns-1" (Ok tt)) t
    /\ ("Security Fixes for app" : str) = "Security Fixes for " ++ name Sample.config
    /\ ("This PR updates dependencies to fix vulnerabilities detected by Trivy."
        ++ ["010"%char; "010"%char] ++ "**Fixed**: requests, flask"
        ++ ["010"%char; "010"%char] ++ "See attached report for details.")
       = "This PR updates dependencies to fix vulnerabilities detected by Trivy."
         ++ ["010"%char; "010"%char]
         ++ "**Fixed**: " ++ Py.join ", " pkgs
         ++ ["010"%char; "010"%char]
         ++ "See attached report for details."
    /\ Ok (VStr "skipped")
       = GitClient.create_pr (git_token E) (api E) (url Sample.config)
           "security/fix-vulns-1" "Security Fixes for app"
           ("This PR updates dependencies to fix vulnerabilities detected by Trivy."
            ++ ["010"%char; "010"%char] ++ "**Fixed**: requests, flask"
            ++ ["010"%char; "010"%char] ++ "See attached report for details.").
Proof.
  intros E t.
  apply (change_request_is_for_the_pushed_branch E Sample.config "work").
  vm_compute. do 10 right. left. reflexivity.
Defined.

(** X8: when the dependency update reports no package, the run stops
    after the summary: no test is run, nothing is committed, pushed or
    requested, and the result is the skipped outcome, unless writing the
    summary raised. *)
Theorem no_updated_package_ends_the_run E cfg wd vulns :
  In (UpdateDependencies vulns (Ok [])) (outcome E cfg wd).2 ->
  Forall (λ ev, stage ev <= 7) (outcome E cfg wd).2
  /\ ((outcome E cfg wd).1 = Ok skipped
      \/ exists e, (outcome E cfg wd).1 = Raise e
                   /\ summary_unfixed vulns = Raise e).
Proof.
  intros Hin. pose proof (run_repo_exit E cfg wd) as Hexit.
  destruct (outcome E cfg wd) as [r0 t]. cbn [fst snd] in *.
  inversion Hexit; subst; traces; cbn [In] in Hin.
  all: try (exfalso; intuition discriminate).
  all: try (exfalso;
            repeat match goal with
              | H : push_done _ _ _ _ _ _ _ |- _ => destruct H as (H & _)
              | H : tests_due _ _ _ _ _ _ _ |- _ => destruct H as (_ & _ & H)
              end;
            assert (pkgs = []) by (intuition congruence); contradiction).
  all: split; [repeat constructor; cbn [stage]; lia|].
  - right. exists e. split; [reflexivity|].
    assert (vulns0 = vulns) as <- by (intuition congruence). assumption.
  - left. reflexivity.
Qed.

Lemma no_updated_package_ends_the_run_witness :
  let o := outcome (SampleRun.env
                      (Sample.report [Sample.finding "requests" "HIGH"]) (Ok []))
             Sample.config "work" in
  Forall (λ ev, stage ev <= 7) o.2
  /\ (o.1 = Ok skipped
      \/ exists e, o.1 = Raise e
                   /\ summary_unfixed [Sample.finding "requests" "HIGH"] = Raise e).
Proof.
  apply (no_updated_package_ends_the_run
           (SampleRun.env (Sample.report [Sample.finding "requests" "HIGH"])
              (Ok []))
           Sample.config "work" [Sample.finding "requests" "HIGH"]).
  vm_compute. do 5 right. left. reflexivity.
Defined.

End Exits.

(** ** The findings of a report *)

Section Parser.

Lemma either_casing_lists upper lower d items :
  Report.lists upper lower d items ->
  exists v, TrivyParser.either_casing (VDict d) upper lower = Ok v
            /\ Obj.iterate v = Ok items.
Proof.
  unfold Report.lists, TrivyParser.either_casing. cbn [Obj.get mbind exc_bind].
  intros [[-> Hne] | [Hu Hl]].
  - destruct items as [|x items]; [contradiction|]. eexists. split; reflexivity.
  - rewrite Hu. destruct Hl as [-> | [Hl ->]].
    + destruct items; eexists; split; reflexivity.
    + unfold Obj.or. rewrite Hl. eexists. split; reflexivity.
Qed.

Lemma collect_lists results findings :
  Forall2 Report.result_lists results findings ->
  TrivyParser.collect results = Ok (concat findings).
Proof.
  induction 1 as [|res vs results findings (d & -> & Hlists) _ IH];
    [reflexivity|].
  cbn [TrivyParser.collect]. unfold TrivyParser.result_findings.
  destruct (either_casing_lists _ _ _ _ Hlists) as (v & -> & Hiter).
  cbn [mbind exc_bind]. rewrite Hiter, IH. reflexivity.
Qed.

(** X9: for a report object that lists result objects under ["Results"]
    (or, when that key is missing or holds nothing, under ["results"]),
    each of which lists its findings under ["Vulnerabilities"] (or
    ["vulnerabilities"]) or lists none, [parse_trivy_report] returns the
    findings of all results in one list, result after result, each finding
    as it stands in the report; it raises nothing. *)
Theorem parse_flattens_the_results d results findings :
  Report.lists "Results" "results" d results ->
  Forall2 Report.result_lists results findings ->
  TrivyParser.parse_trivy_report (VDict d) = Ok (concat findings).
Proof.
  intros Hresults Hfindings. unfold TrivyParser.parse_trivy_report.
  destruct (either_casing_lists _ _ _ _ Hresults) as (v & -> & Hiter).
  cbn [mbind exc_bind]. rewrite Hiter. apply collect_lists, Hfindings.
Qed.

Lemma parse_flattens_the_results_witness :
  TrivyParser.parse_trivy_report
    (VDict [("Results" : str, VNone);
            ("results" : str,
             VList [VDict [("Vulnerabilities" : str,
                            VList [Sample.finding "flask" "MEDIUM";
                                   Sample.finding "zlib" "LOW"])];
                    VDict [("Target" : str, VStr "os")];
                    VDict [("Vulnerabilities" : str, VList []);
                           ("vulnerabilities" : str,
                            VList [Sample.finding "requests" "HIGH"])]])])
  = Ok (concat [[Sample.finding "flask" "MEDIUM"; Sample.finding "zlib" "LOW"];
                []; [Sample.finding "requests" "HIGH"]]).
Proof.
  apply (parse_flattens_the_results _
           [VDict [("Vulnerabilities" : str,
                    VList [Sample.finding "flask" "MEDIUM";
                           Sample.finding "zlib" "LOW"])];
            VDict [("Target" : str, VStr "os")];
            VDict [("Vulnerabilities" : str, VList []);
                   ("vulnerabilities" : str,
                    VList [Sample.finding "requests" "HIGH"])]]).
  - right. split; [reflexivity|]. left. reflexivity.
  - repeat constructor; eexists; (split; [reflexivity|]).
    + left. split; [reflexivity | discriminate].
    + right. split; [reflexivity|]. right. split; reflexivity.
    + right. split; [reflexivity|]. left. reflexivity.
Defined.

End Parser.

(** ** The Update Sets *)

Section UpdateSets.
Import DependencyUpdater.

Lemma dict_set_keys {V} (k : str) (v : V) d x :
  In x (map fst (Dict.set k v d)) -> x = k \/ In x (map fst d).
Proof.
  induction d as [|[k' v'] d IH]; simpl.
  - intros [<- | []]. left. reflexivity.
  - destruct (Py.eqb k' k) eqn:Hk; simpl.
    + apply eqb_eq in Hk. subst k'. tauto.
    + intros [<- | Hin]; [tauto|]. destruct (IH Hin); tauto.
Qed.

Lemma dict_set_nodup {V} (k : str) (v : V) d :
  List.NoDup (map fst d) -> List.NoDup (map fst (Dict.set k v d)).
Proof.
  induction d as [|[k' v'] d IH]; simpl; intros Hd.
  - constructor; [intros [] | constructor].
  - inversion Hd as [|? ? Hnotin Hd']; subst.
    destruct (Py.eqb k' k) eqn:Hk; simpl.
    + apply eqb_eq in Hk. subst k'. constructor; assumption.
    + apply eqb_neq in Hk. constructor; [|apply IH, Hd'].
      intros Hin. destruct (dict_set_keys _ _ _ _ Hin); [congruence | contradiction].
Qed.

Lemma dict_set_values {V} (P : V -> Prop) (k : str) (v : V) d :
  P v -> Forall (λ e : str * V, P e.2) d ->
  Forall (λ e : str * V, P e.2) (Dict.set k v d).
Proof.
  intros Hv. induction 1 as [|[k' v'] d Hv' Hd IH]; simpl.
  - repeat constructor. exact Hv.
  - destruct (Py.eqb k' k); constructor; auto.
Qed.

Lemma dict_set_length {V} (k : str) (v : V) d :
  length (Dict.set k v d) <= S (length d).
Proof.
  induction d as [|[k' v'] d IH]; simpl; [lia|].
  destruct (Py.eqb k' k); simpl; lia.
Qed.

(** What every turn of the loop keeps. *)
Lemma store_invariant (P : str -> Prop) norm updates v :
  (forall fixed, fixed <> [] -> P (norm fixed)) ->
  List.NoDup (map fst updates)
  /\ Forall (λ e : str * str, e.1 <> []) updates
  /\ Forall (λ e : str * str, P e.2) updates ->
  List.NoDup (map fst (Updates.store norm updates v))
  /\ Forall (λ e : str * str, e.1 <> []) (Updates.store norm updates v)
  /\ Forall (λ e : str * str, P e.2) (Updates.store norm updates v).
Proof.
  intros Hnorm (Hdup & Hnames & Hvers). unfold Updates.store.
  destruct (PkgName v) as [pkg|]; [|tauto].
  destruct (FixedVersion v) as [fixed|]; [|tauto].
  destruct pkg as [|c pkg]; [tauto|].
  destruct fixed as [|x fixed]; [tauto|]. cbn [Py.nonempty andb].
  split; [apply dict_set_nodup, Hdup|]. split.
  - apply (dict_set_names (λ k, k <> [])); [discriminate | exact Hnames].
  - apply (dict_set_values P); [apply Hnorm; discriminate | exact Hvers].
Qed.

Lemma fold_store_invariant (P : str -> Prop) norm vulns updates :
  (forall fixed, fixed <> [] -> P (norm fixed)) ->
  List.NoDup (map fst updates)
  /\ Forall (λ e : str * str, e.1 <> []) updates
  /\ Forall (λ e : str * str, P e.2) updates ->
  List.NoDup (map fst (fold_left (Updates.store norm) vulns updates))
  /\ Forall (λ e : str * str, e.1 <> [])
       (fold_left (Updates.store norm) vulns updates)
  /\ Forall (λ e : str * str, P e.2)
       (fold_left (Updates.store norm) vulns updates).
Proof.
  intros Hnorm. revert updates.
  induction vulns as [|v vulns IH]; intros updates H; simpl; [exact H|].
  apply IH, store_invariant; assumption.
Qed.

Lemma fold_store_length norm vulns updates :
  length (fold_left (Updates.store norm) vulns updates)
  <= length updates + length vulns.
Proof.
  revert updates. induction vulns as [|v vulns IH]; intros updates; simpl; [lia|].
  etransitivity; [apply IH|].
  assert (length (Updates.store norm updates v) <= S (length updates)); [|lia].
  unfold Updates.store.
  destruct (PkgName v); [|lia]. destruct (FixedVersion v); [|lia].
  destruct (_ && _); [apply dict_set_length | lia].
Qed.

Lemma split_no_separator c (s : str) :
  Forall (λ w, Py.has_char c w = false) (Py.split c s).
Proof.
  induction s as [|a s IH]; simpl; [repeat constructor|].
  destruct (Ascii.eqb a c) eqn:Hac.
  - constructor; [reflexivity | exact IH].
  - destruct (Py.split c s) as [|w ws]; [repeat constructor|].
    + unfold Py.has_char. simpl. rewrite Ascii.eqb_sym, Hac. reflexivity.
    + inversion IH as [|? ? Hw Hws]; subst. constructor; [|exact Hws].
      unfold Py.has_char in *. simpl. rewrite Ascii.eqb_sym, Hac. exact Hw.
Qed.

Lemma after_last_no_separator c (s : str) :
  Py.has_char c (Py.after_last c s) = false.
Proof.
  unfold Py.after_last. generalize (split_no_separator c s).
  generalize (Py.split c s). intros l Hl.
  induction Hl as [|w l Hw Hl IH]; [reflexivity|].
  destruct l; [exact Hw | exact IH].
Qed.

(** The version [PythonUpdater] stores holds no comma. *)
Lemma last_alternative_no_comma (fixed : str) :
  Py.has_char "," (Updates.last_alternative fixed) = false.
Proof.
  unfold Updates.last_alternative.
  destruct (Py.has_char "," fixed) eqn:Hcomma; [|exact Hcomma].
  apply has_char_false, Forall_strip, has_char_false, after_last_no_separator.
Qed.

(** X10: the Update Set of every updater is a dict of the fixes: no name
    occurs twice, no name is empty, and there are at most as many entries as
    findings.  The four updaters that store the fixed version as it is hold
    no empty version; the versions of the requirements.txt updater hold no
    comma. *)
Theorem update_set_is_a_dict_of_fixes u vulns :
  List.NoDup (map fst (update_set u vulns))
  /\ Forall (λ entry, entry.1 <> []) (update_set u vulns)
  /\ length (update_set u vulns) <= length vulns
  /\ Forall (λ entry, entry.2 <> []) (Updates.plain vulns)
  /\ Forall (λ entry, Py.has_char "," entry.2 = false) (Updates.python vulns).
Proof.
  assert (forall P : str -> Prop,
            List.NoDup (map fst ([] : list (str * str)))
            /\ Forall (λ e : str * str, e.1 <> []) []
            /\ Forall (λ e : str * str, P e.2) []) as Hempty
    by (intros P; repeat split; constructor).
  destruct (fold_store_invariant (λ ver, ver <> []) id vulns []
              (λ fixed H, H) (Hempty _)) as (Hplain & Hplain_names & Hplain_vers).
  destruct (fold_store_invariant (λ ver, Py.has_char "," ver = false)
              Updates.last_alternative vulns []
              (λ fixed _, last_alternative_no_comma fixed) (Hempty _))
    as (Hpython & Hpython_names & Hpython_vers).
  split; [destruct u; assumption|]. split; [destruct u; assumption|].
  split; [|split; assumption].
  destruct u; simpl; unfold Updates.python, Updates.plain;
    apply (fold_store_length _ vulns []).
Qed.

(** *** Every fixed version has one target *)

Lemma last_comma (s : str) :
  Py.has_char "," s = true ->
  exists before rest, s = before ++ ","%char :: rest /\ Py.has_char "," rest = false.
Proof.
  induction s as [|c s IH]; [discriminate|]. intros Hs.
  destruct (Py.has_char "," s) eqn:Hrest.
  - destruct (IH eq_refl) as (before & rest & -> & Hno).
    exists (c :: before), rest. split; [reflexivity | exact Hno].
  - unfold Py.has_char in Hs. cbn [existsb] in Hs. fold (Py.has_char "," s) in Hs.
    rewrite Hrest, orb_false_r in Hs. apply Ascii.eqb_eq in Hs. subst c.
    exists [], s. split; [reflexivity | exact Hrest].
Qed.

Lemma spaces_forallb (ws : str) :
  Forall (λ c, Py.isspace c = true) ws -> forallb Py.isspace ws = true.
Proof.
  intros H. apply forallb_forall. intros c Hc.
  exact (proj1 (Forall_forall _ _) H c Hc).
Qed.

Lemma strip_trimmed (s : str) : Spec.trimmed (Py.strip s) = true.
Proof.
  destruct (Py.strip s) as [|c r] eqn:Hs; [reflexivity|].
  cbn [Spec.trimmed]. rewrite (strip_head _ _ _ Hs). cbn [negb andb].
  apply negb_true_iff. apply (strip_last s (removelast (c :: r))).
  rewrite Hs. apply app_removelast_last. discriminate.
Qed.

Lemma strip_within (s : str) :
  exists ws ws',
    s = ws ++ Py.strip s ++ ws'
    /\ forallb Py.isspace ws = true /\ forallb Py.isspace ws' = true.
Proof.
  destruct (drop_while_split Py.isspace s) as (ws & Hs & Hws).
  destruct (drop_while_split Py.isspace (rev (Py.lstrip s))) as (back & Hr & Hback).
  exists ws, (rev back). split; [|split].
  - unfold Py.strip, Py.rstrip. rewrite <- rev_app_distr, <- Hr, rev_involutive.
    exact Hs.
  - apply spaces_forallb, Hws.
  - apply spaces_forallb, Forall_rev, Hback.
Qed.

(** The reduction is defined on every fixed version, and it names one
    target. *)
Lemma reduced_total (fixed : str) : exists target, Spec.reduced fixed target.
Proof.
  destruct (Py.has_char "," fixed) eqn:Hcomma.
  - destruct (last_comma fixed Hcomma) as (before & rest & -> & Hrest).
    destruct (strip_within rest) as (ws & ws' & Hdec & Hws & Hws').
    pose proof (strip_trimmed rest) as Htrim.
    remember (Py.strip rest) as alt eqn:Halt. clear Halt. subst rest.
    exists alt. rewrite !has_char_app in Hrest.
    apply orb_false_iff in Hrest as [_ Hrest].
    apply orb_false_iff in Hrest as [Hno _].
    exact (Spec.reduced_last before ws alt ws' Hno Hws Hws' Htrim).
  - exists fixed. apply Spec.reduced_single, Hcomma.
Qed.

Lemma reduced_unique (fixed target target' : str) :
  Spec.reduced fixed target -> Spec.reduced fixed target' -> target = target'.
Proof.
  intros H H'. rewrite <- (last_alternative_reduced _ _ H).
  apply last_alternative_reduced, H'.
Qed.

End UpdateSets.

(** ** What every updater keeps to *)

Section UpdaterRules.
Import DependencyUpdater Frame.

(** *** Without a fix *)

Lemma fold_store_unfixable norm vulns updates :
  Forall (λ v, Pending.fixable v = false) vulns ->
  fold_left (Updates.store norm) vulns updates = updates.
Proof.
  intros H. revert updates.
  induction H as [|v vulns Hv _ IH]; intros updates; simpl; [reflexivity|].
  rewrite <- (IH updates) at 2. f_equal.
  unfold Updates.store, Pending.fixable in *.
  destruct (PkgName v); [|reflexivity]. destruct (FixedVersion v); [|reflexivity].
  rewrite Hv. reflexivity.
Qed.

Lemma update_without_fix T u vulns (fs : files) :
  Forall (λ v, Pending.fixable v = false) vulns ->
  update T u vulns fs = (Ok [], fs).
Proof.
  intros Hnone.
  destruct u; simpl;
    unfold PythonUpdater.update, NodeUpdater.update, PoetryUpdater.update,
           PipenvUpdater.update, MavenUpdater.update,
           Updates.python, Updates.plain, mbind, io_bind, IO.exists_;
    rewrite (fold_store_unfixable _ _ _ Hnone);
    match goal with |- context [fs !! ?f] => destruct (fs !! f) end;
    reflexivity.
Qed.

Lemma update_each_quiet T us vulns acc (fs : files) :
  Forall (λ u, update T u vulns fs = (Ok [], fs)) us ->
  update_each T us vulns acc fs = (Ok acc, fs).
Proof.
  intros H. revert acc. induction H as [|u us Hu _ IH]; intros acc; simpl.
  - reflexivity.
  - unfold mbind, io_bind. rewrite Hu, app_nil_r. apply IH.
Qed.

(** X11: when no finding carries both a package name and a fixed version
    (the list of findings may be empty), every updater, and so
    [update_dependencies], returns the empty list and leaves every file as
    it is, whatever manifests the repository holds and whatever tools are
    installed: no file is read, no command is run. *)
Theorem no_fix_no_update T vulns (fs : files) :
  Forall (λ v, Pending.fixable v = false) vulns ->
  (forall u, update T u vulns fs = (Ok [], fs))
  /\ update_dependencies T vulns fs = (Ok [], fs).
Proof.
  intros Hnone. split.
  - intros u. apply update_without_fix, Hnone.
  - apply update_each_quiet. apply Forall_forall. intros u _.
    apply update_without_fix, Hnone.
Qed.

Lemma no_fix_no_update_witness :
  let T := SampleRepo.tools ["pipenv" : str; "poetry" : str; "npm" : str] in
  let vulns := [{| PkgName := Some ("requests" : str); FixedVersion := None |};
                {| PkgName := Some ("flask" : str); FixedVersion := Some [] |};
                {| PkgName := None; FixedVersion := Some ("1.0" : str) |}] in
  let fs : files :=
    {["Pipfile" := SampleRepo.pipfile; "pom.xml" := SampleRepo.pom]} in
  (forall u, update T u vulns fs = (Ok [], fs))
  /\ update_dependencies T vulns fs = (Ok [], fs).
Proof.
  intros T vulns fs. apply (no_fix_no_update T vulns fs).
  repeat constructor.
Defined.

(** *** The files an updater writes *)

Lemma preserves_ret {A} f (a : A) : preserves f (mret a).
Proof. intros fs. reflexivity. Qed.

Lemma preserves_bind {A B} f (m : io A) (k : A -> io B) :
  preserves f m -> (forall a, preserves f (k a)) -> preserves f (m ≫= k).
Proof.
  intros Hm Hk fs. unfold mbind, io_bind.
  specialize (Hm fs). destruct (m fs) as [[a|e] fs1]; simpl in *.
  - rewrite Hk. exact Hm.
  - exact Hm.
Qed.

Lemma preserves_raise {A} f e : preserves f (IO.raise e : io A).
Proof. intros fs. reflexivity. Qed.

Lemma preserves_lift {A} f (m : exc A) : preserves f (IO.lift m).
Proof. intros fs. reflexivity. Qed.

Lemma preserves_exists f file : preserves f (IO.exists_ file).
Proof. intros fs. reflexivity. Qed.

Lemma preserves_read f file : preserves f (IO.read_text file).
Proof. intros fs. unfold IO.read_text. destruct (fs !! file); reflexivity. Qed.

Lemma preserves_write f file content :
  f <> file -> preserves f (IO.write_text file content).
Proof.
  intros Hne fs. unfold IO.write_text. simpl.
  apply lookup_insert_ne. congruence.
Qed.

Lemma preserves_run_checked T f cmd :
  keeps T f -> preserves f (IO.run_checked T cmd).
Proof.
  intros Hkeeps fs. unfold IO.run_checked. specialize (Hkeeps cmd fs).
  destruct (subprocess_run T cmd fs) as [[?|e] fs1]; simpl in *; [exact Hkeeps|].
  destruct (kind e); exact Hkeeps.
Qed.

Ltac frame :=
  repeat first
    [ apply preserves_ret | apply preserves_raise | apply preserves_lift
    | apply preserves_exists | apply preserves_read
    | apply preserves_write; assumption
    | apply preserves_run_checked; assumption
    | apply preserves_bind; [|intros ?]
    | match goal with
      | |- preserves _ (let '(_, _) := ?x in _) => destruct x
      | |- preserves _ (if ?b then _ else _) => destruct b
      | |- preserves _ (match ?x with _ => _ end) => destruct x
      end ].

Lemma poetry_cli_preserves T f updates updated_pkgs :
  keeps T f -> preserves f (PoetryUpdater.cli T updates updated_pkgs).
Proof.
  intros Hkeeps. revert updated_pkgs.
  induction updates as [|[pkg ver] updates IH]; intros updated_pkgs;
    cbn [PoetryUpdater.cli]; frame. apply IH.
Qed.

Lemma pipenv_cli_preserves f updates updated_pkgs :
  preserves f (PipenvUpdater.cli updates updated_pkgs).
Proof. unfold PipenvUpdater.cli. frame. Qed.

Lemma update_preserves T u vulns f :
  f <> manifest u -> keeps T f -> preserves f (update T u vulns).
Proof.
  intros Hne Hkeeps.
  destruct u; simpl in *;
    unfold PythonUpdater.update, NodeUpdater.update, PoetryUpdater.update,
           PipenvUpdater.update, MavenUpdater.update;
    frame;
    first [apply poetry_cli_preserves; assumption | apply pipenv_cli_preserves].
Qed.

Lemma update_each_preserves T us vulns acc f :
  Forall (λ u, f <> manifest u) us -> keeps T f ->
  preserves f (update_each T us vulns acc).
Proof.
  intros Hus Hkeeps. revert acc.
  induction Hus as [|u us Hu _ IH]; intros acc; cbn [update_each]; frame.
  - apply update_preserves; assumption.
  - apply IH.
Qed.

(** X12: an updater writes no file but its own manifest: a file of another
    name that the commands it runs (poetry, npm) leave alone is after the
    update what it was before, be it present or absent.  So
    [update_dependencies] leaves every such file alone that is none of the
    five manifests. *)
Theorem updaters_write_only_their_manifest T vulns (fs : files) f :
  keeps T f ->
  (forall u, f <> manifest u -> (update T u vulns fs).2 !! f = fs !! f)
  /\ ((forall u, f <> manifest u) ->
      (update_dependencies T vulns fs).2 !! f = fs !! f).
Proof.
  intros Hkeeps. split.
  - intros u Hne. apply update_preserves; assumption.
  - intros Hne. apply update_each_preserves; [|assumption].
    apply Forall_forall. intros u _. apply Hne.
Qed.

Lemma updaters_write_only_their_manifest_witness :
  let T := SampleRepo.tools [] in
  let vulns := [SampleRepo.finding "requests" "2.26.0";
                SampleRepo.finding "jackson-databind" "2.12.0"] in
  let fs : files :=
    {["Pipfile" := SampleRepo.pipfile; "pom.xml" := SampleRepo.pom;
      "README.md" := ("requests = 2.25.1" : str)]} in
  (forall u, "README.md" <> manifest u ->
             (update T u vulns fs).2 !! "README.md" = fs !! "README.md")
  /\ ((forall u, "README.md" <> manifest u) ->
      (update_dependencies T vulns fs).2 !! "README.md" = fs !! "README.md").
Proof.
  intros T vulns fs.
  apply (updaters_write_only_their_manifest T vulns fs "README.md").
  intros cmd fs0. reflexivity.
Defined.

(** *** The packages an updater reports *)

Lemma yields_ret {A} (P : A -> Prop) (a : A) : P a -> yields P (mret a).
Proof. intros Ha fs r fs' [= <- _]. exact Ha. Qed.

Lemma yields_bind {A B} (Q : A -> Prop) (P : B -> Prop) (m : io A)
    (k : A -> io B) :
  yields Q m -> (forall a, Q a -> yields P (k a)) -> yields P (m ≫= k).
Proof.
  intros Hm Hk fs r fs'. unfold mbind, io_bind.
  destruct (m fs) as [[a|e] fs1] eqn:Hrun; [|discriminate].
  apply Hk. exact (Hm _ _ _ Hrun).
Qed.

Lemma yields_any {A} (m : io A) : yields (λ _, True) m.
Proof. intros fs r fs' _. exact I. Qed.

Lemma yields_raise {A} (P : A -> Prop) e : yields P (IO.raise e).
Proof. intros fs r fs' [=]. Qed.

Lemma yields_lift {A} (P : A -> Prop) (m : exc A) :
  (forall a, m = Ok a -> P a) -> yields P (IO.lift m).
Proof. intros Hm fs r fs' [= -> _]. apply Hm. reflexivity. Qed.

#[local] Abbreviation listed updates :=
  (Forall (λ pkg : str, In pkg (map fst (updates : list (str * str))))).

Lemma python_process_listed updates lines st :
  listed updates (PythonUpdater.updated_pkgs st) ->
  listed updates
    (PythonUpdater.updated_pkgs (fold_left (PythonUpdater.step updates) lines st)).
Proof.
  revert st. induction lines as [|line lines IH]; intros st Hst; simpl;
    [exact Hst|].
  apply IH. unfold PythonUpdater.step.
  destruct (PythonUpdater.clean line); [exact Hst|].
  destruct (PythonUpdater.first_match updates _) as [[pkg ver]|] eqn:Hfirst;
    [|exact Hst].
  simpl. apply Forall_app. split; [exact Hst|]. constructor; [|constructor].
  destruct (first_match_split _ _ _ _ Hfirst) as (before & after & -> & _).
  rewrite map_app. apply in_or_app. right. left. reflexivity.
Qed.

Lemma poetry_cli_listed T updates0 updates updated_pkgs :
  (forall e, In e updates -> In e.1 (map fst updates0)) ->
  listed updates0 updated_pkgs ->
  yields (listed updates0) (PoetryUpdater.cli T updates updated_pkgs).
Proof.
  revert updated_pkgs.
  induction updates as [|[pkg ver] updates IH]; intros updated_pkgs Hin Hacc;
    cbn [PoetryUpdater.cli].
  - apply yields_ret, Hacc.
  - eapply yields_bind; [apply yields_any|]. intros ok _.
    apply IH; [intros e He; apply Hin; right; exact He|].
    destruct ok; [|exact Hacc].
    apply Forall_app. split; [exact Hacc|]. constructor; [|constructor].
    apply (Hin (pkg, ver)). left. reflexivity.
Qed.

Lemma in_keys {V} (e : str * V) d : In e d -> In e.1 (map fst d).
Proof. apply in_map. Qed.

Lemma poetry_first_match_listed updates updated_pkgs clean_line line pkg ver :
  PoetryUpdater.first_match updates updated_pkgs clean_line line
  = Ok (Some (pkg, ver)) ->
  In pkg (map fst updates).
Proof.
  induction updates as [|[p v] updates IH]; cbn [PoetryUpdater.first_match];
    [discriminate|].
  destruct (Dict.mem p updated_pkgs); [intros H; right; exact (IH H)|].
  destruct (Re.match_assignment p clean_line) as [matched|]; [|discriminate].
  cbn [mbind exc_bind].
  destruct (matched && _).
  - intros [= -> _]. left. reflexivity.
  - intros H. right. exact (IH H).
Qed.

Lemma poetry_process_listed updates lines st st' :
  listed updates (PoetryUpdater.updated_pkgs st) ->
  PoetryUpdater.process updates st lines = Ok st' ->
  listed updates (PoetryUpdater.updated_pkgs st').
Proof.
  revert st. induction lines as [|line lines IH]; intros st Hst;
    cbn [PoetryUpdater.process].
  - intros [= <-]. exact Hst.
  - destruct (PoetryUpdater.step updates st line) as [st1|] eqn:Hstep;
      [|discriminate].
    cbn [mbind exc_bind]. apply IH.
    unfold PoetryUpdater.step in Hstep.
    destruct (PoetryUpdater.first_match updates _ _ line) as [[[pkg ver]|]|]
      eqn:Hfirst; cbn [mbind exc_bind] in Hstep; [| |discriminate].
    + destruct (Re.sub_quoted ver line); [|discriminate].
      injection Hstep as <-. simpl.
      apply Forall_app. split; [exact Hst|]. constructor; [|constructor].
      exact (poetry_first_match_listed _ _ _ _ _ _ Hfirst).
    + injection Hstep as <-. exact Hst.
Qed.

Lemma pipenv_first_match_listed updates updated_pkgs clean_line line pkg new_line :
  PipenvUpdater.first_match updates updated_pkgs clean_line line
  = Ok (Some (pkg, new_line)) ->
  In pkg (map fst updates).
Proof.
  induction updates as [|[p v] updates IH]; cbn [PipenvUpdater.first_match];
    [discriminate|].
  destruct (Dict.mem p updated_pkgs); [intros H; right; exact (IH H)|].
  destruct (Re.match_assignment p clean_line) as [matched|]; [|discriminate].
  cbn [mbind exc_bind].
  destruct (matched && _); [|intros H; right; exact (IH H)].
  destruct (PipenvUpdater.rewrite v line).
  - intros [= -> _]. left. reflexivity.
  - intros H. right. exact (IH H).
Qed.

Lemma pipenv_process_listed updates lines st st' :
  listed updates (PipenvUpdater.updated_pkgs st) ->
  PipenvUpdater.process updates st lines = Ok st' ->
  listed updates (PipenvUpdater.updated_pkgs st').
Proof.
  revert st. induction lines as [|line lines IH]; intros st Hst;
    cbn [PipenvUpdater.process].
  - intros [= <-]. exact Hst.
  - destruct (PipenvUpdater.step updates st line) as [st1|] eqn:Hstep;
      [|discriminate].
    cbn [mbind exc_bind]. apply IH.
    unfold PipenvUpdater.step in Hstep.
    destruct (PipenvUpdater.first_match updates _ _ line) as [[[pkg new_line]|]|]
      eqn:Hfirst; cbn [mbind exc_bind] in Hstep; [| |discriminate].
    + injection Hstep as <-. simpl.
      apply Forall_app. split; [exact Hst|]. constructor; [|constructor].
      exact (pipenv_first_match_listed _ _ _ _ _ _ Hfirst).
    + injection Hstep as <-. exact Hst.
Qed.

Lemma maven_process_listed updates0 updates content updated_pkgs content' pkgs :
  (forall e, In e updates -> In e.1 (map fst updates0)) ->
  listed updates0 updated_pkgs ->
  MavenUpdater.process updates content updated_pkgs = Ok (content', pkgs) ->
  listed updates0 pkgs.
Proof.
  revert content updated_pkgs.
  induction updates as [|[pkg ver] updates IH]; intros content updated_pkgs Hin Hacc;
    cbn [MavenUpdater.process].
  - intros [= _ <-]. exact Hacc.
  - assert (forall e, In e updates -> In e.1 (map fst updates0)) as Hin'
      by (intros e He; apply Hin; right; exact He).
    destruct (MavenUpdater.search _ content); [|apply IH; assumption].
    destruct (MavenUpdater.sub _ ver content) as [content1|]; [|discriminate].
    cbn [mbind exc_bind]. apply IH; [assumption|].
    apply Forall_app. split; [exact Hacc|]. constructor; [|constructor].
    apply (Hin (pkg, ver)). left. reflexivity.
Qed.

Lemma node_section_listed updates0 section updates st st' :
  (forall e, In e updates -> In e.1 (map fst updates0)) ->
  listed updates0 (NodeUpdater.updated_pkgs st) ->
  NodeUpdater.section_loop section updates st = Ok st' ->
  listed updates0 (NodeUpdater.updated_pkgs st').
Proof.
  revert st. induction updates as [|[pkg ver] updates IH]; intros st Hin Hst;
    cbn [NodeUpdater.section_loop].
  - intros [= <-]. exact Hst.
  - assert (forall e, In e updates -> In e.1 (map fst updates0)) as Hin'
      by (intros e He; apply Hin; right; exact He).
    destruct (NodeUpdater.getitem (NodeUpdater.data st) section) as [deps|];
      [|discriminate]. cbn [mbind exc_bind].
    destruct (NodeUpdater.str_in pkg deps) as [[]|]; cbn [mbind exc_bind];
      [|apply IH; assumption|discriminate].
    destruct (NodeUpdater.setitem deps pkg _) as [deps'|]; [|discriminate].
    cbn [mbind exc_bind].
    destruct (NodeUpdater.setitem (NodeUpdater.data st) section deps')
      as [data'|]; [|discriminate].
    cbn [mbind exc_bind]. apply IH; [assumption|]. simpl.
    apply Forall_app. split; [exact Hst|]. constructor; [|constructor].
    apply (Hin (pkg, ver)). left. reflexivity.
Qed.

Lemma node_sections_listed updates sections st st' :
  listed updates (NodeUpdater.updated_pkgs st) ->
  NodeUpdater.sections_loop sections updates st = Ok st' ->
  listed updates (NodeUpdater.updated_pkgs st').
Proof.
  revert st. induction sections as [|section sections IH]; intros st Hst;
    cbn [NodeUpdater.sections_loop].
  - intros [= <-]. exact Hst.
  - destruct (NodeUpdater.str_in section (NodeUpdater.data st)) as [present|];
      [|discriminate]. cbn [mbind exc_bind].
    destruct present.
    + destruct (NodeUpdater.section_loop section updates st) as [st1|] eqn:Hloop;
        [|discriminate].
      cbn [mbind exc_bind]. apply IH.
      eapply node_section_listed; [|exact Hst|exact Hloop].
      intros e. apply in_keys.
    + cbn [mbind exc_bind]. apply IH, Hst.
Qed.

Ltac reports :=
  repeat first
    [ apply yields_ret; first [assumption | constructor]
    | apply yields_raise
    | match goal with
      | |- yields _ (let '(_, _) := ?x in _) => destruct x eqn:?
      | |- yields _ (if ?b then _ else _) => destruct b eqn:?
      | |- yields _ (match ?x with _ => _ end) => destruct x eqn:?
      end ].

Lemma update_listed T u vulns :
  yields (listed (update_set u vulns)) (update T u vulns).
Proof.
  destruct u; simpl;
    unfold PythonUpdater.update, NodeUpdater.update, PoetryUpdater.update,
           PipenvUpdater.update, MavenUpdater.update.
  - (* requirements.txt *)
    eapply yields_bind; [apply yields_any|]. intros found _. reports.
    eapply yields_bind; [apply yields_any|]. intros content _. reports.
    eapply yields_bind; [apply yields_any|]. intros _ _.
    apply yields_ret, python_process_listed. constructor.
  - (* package.json *)
    eapply yields_bind; [apply yields_any|]. intros found _. reports.
    eapply yields_bind; [apply yields_any|]. intros text _. reports.
    eapply yields_bind.
    { apply (yields_lift (λ st, listed (Updates.plain vulns)
                                  (NodeUpdater.updated_pkgs st))).
      intros st. apply node_sections_listed. constructor. }
    intros st Hst. reports.
    eapply yields_bind; [apply yields_any|]. intros _ _.
    eapply yields_bind; [apply yields_any|]. intros _ _. reports.
  - (* pyproject.toml *)
    eapply yields_bind; [apply yields_any|]. intros found _. reports.
    eapply (yields_bind (listed (Updates.plain vulns))).
    { reports. apply poetry_cli_listed; [|constructor].
      intros e. apply in_keys. }
    intros via_cli Hcli. reports.
    eapply yields_bind; [apply yields_any|]. intros content _.
    eapply yields_bind.
    { apply (yields_lift (λ st, listed (Updates.plain vulns)
                                  (PoetryUpdater.updated_pkgs st))).
      intros st. apply poetry_process_listed. exact Hcli. }
    intros st Hst.
    eapply yields_bind; [apply yields_any|]. intros _ _. reports.
  - (* Pipfile *)
    eapply yields_bind; [apply yields_any|]. intros found _. reports.
    eapply (yields_bind (listed (Updates.plain vulns))).
    { unfold PipenvUpdater.cli. reports. }
    intros via_cli Hcli. reports.
    eapply yields_bind; [apply yields_any|]. intros content _.
    eapply yields_bind.
    { apply (yields_lift (λ st, listed (Updates.plain vulns)
                                  (PipenvUpdater.updated_pkgs st))).
      intros st. apply pipenv_process_listed. exact Hcli. }
    intros st Hst.
    eapply yields_bind; [apply yields_any|]. intros _ _. reports.
  - (* pom.xml *)
    eapply yields_bind; [apply yields_any|]. intros found _. reports.
    eapply yields_bind; [apply yields_any|]. intros original _.
    eapply yields_bind.
    { apply (yields_lift (λ r, listed (Updates.plain vulns) r.2)).
      intros [content pkgs]. apply maven_process_listed; [|constructor].
      intros e. apply in_keys. }
    intros [content pkgs] Hpkgs. reports.
    eapply yields_bind; [apply yields_any|]. intros _ _. reports.
Qed.

Lemma in_keys_get {V} (k : str) (d : list (str * V)) :
  In k (map fst d) -> exists v, Dict.get k d = Some v.
Proof.
  induction d as [|[k' v'] d IH]; simpl; [intros []|].
  destruct (Py.eqb k' k) eqn:Hk; [eauto|].
  apply eqb_neq in Hk. intros [Heq | Hin]; [contradiction | exact (IH Hin)].
Qed.

Lemma last_fixed_in pkg vulns fixed :
  Spec.last_fixed pkg vulns = Some fixed ->
  exists v, In v vulns /\ Spec.fixes pkg v = Some fixed.
Proof.
  induction vulns as [|v vulns IH]; simpl; [discriminate|].
  destruct (Spec.last_fixed pkg vulns) as [later|].
  - intros [= ->]. destruct (IH eq_refl) as (w & Hw & Hfix). eauto.
  - intros Hfix. eauto.
Qed.

Lemma fixes_has_fix pkg v fixed vulns :
  In v vulns -> Spec.fixes pkg v = Some fixed -> Pending.has_fix vulns pkg.
Proof.
  intros Hin. unfold Spec.fixes.
  destruct (PkgName v) as [p|] eqn:Hname; [|discriminate].
  destruct (FixedVersion v) as [f|] eqn:Hfixed; [|discriminate].
  destruct (Py.eqb p pkg) eqn:Hp; [|discriminate]. apply eqb_eq in Hp. subst p.
  destruct pkg as [|c pkg]; [discriminate|]. destruct f as [|c' f]; [discriminate|].
  intros _. exists v, (c' :: f). repeat split; auto; discriminate.
Qed.

Lemma listed_has_fix u vulns pkg :
  In pkg (map fst (update_set u vulns)) -> Pending.has_fix vulns pkg.
Proof.
  intros Hin. apply in_keys_get in Hin. destruct Hin as [ver Hget].
  rewrite update_set_get in Hget.
  destruct (Spec.last_fixed pkg vulns) as [fixed|] eqn:Hlast; [|discriminate].
  destruct (last_fixed_in _ _ _ Hlast) as (v & Hin & Hfix).
  exact (fixes_has_fix _ _ _ _ Hin Hfix).
Qed.

Lemma update_each_has_fix T us vulns acc :
  Forall (Pending.has_fix vulns) acc ->
  yields (Forall (Pending.has_fix vulns)) (update_each T us vulns acc).
Proof.
  revert acc. induction us as [|u us IH]; intros acc Hacc; cbn [update_each].
  - apply yields_ret, Hacc.
  - eapply yields_bind; [apply (update_listed T u vulns)|].
    intros updated Hupdated. apply IH, Forall_app. split; [exact Hacc|].
    revert Hupdated. apply Forall_impl. intros pkg. apply listed_has_fix.
Qed.

(** X13: every package that an updater reports as updated is a name of
    its Update Set, and every package that [update_dependencies] reports is
    named by a finding that carries a fixed version, both non-empty: a
    package for which the scan knows no fix is never reported. *)
Theorem reported_packages_have_a_fix T vulns (fs : files) :
  (forall u pkgs fs',
      update T u vulns fs = (Ok pkgs, fs') ->
      Forall (λ pkg, exists fixed, Dict.get pkg (update_set u vulns) = Some fixed)
        pkgs)
  /\ (forall pkgs fs',
        update_dependencies T vulns fs = (Ok pkgs, fs') ->
        Forall (Pending.has_fix vulns) pkgs).
Proof.
  split.
  - intros u pkgs fs' Hrun.
    generalize (update_listed T u vulns _ _ _ Hrun).
    apply Forall_impl. intros pkg. apply in_keys_get.
  - intros pkgs fs' Hrun.
    exact (update_each_has_fix T updaters vulns [] (Forall_nil _) _ _ _ Hrun).
Qed.

End UpdaterRules.

(** ** The updaters with a command-line path: pyproject.toml and Pipfile *)

Section CommandLine.
Import DependencyUpdater Frame.

Lemma mem_false (k : str) (l : list str) : Dict.mem k l = false -> ~ In k l.
Proof.
  unfold Dict.mem. intros Hmem Hin.
  assert (existsb (Py.eqb k) l = true) as Htrue; [|congruence].
  apply existsb_exists. exists k. split; [exact Hin | apply eqb_refl].
Qed.

Lemma nodup_snoc (l : list str) (k : str) :
  List.NoDup l -> ~ In k l -> List.NoDup (l ++ [k]).
Proof.
  induction 1 as [|x l Hx Hl IH]; intros Hk; simpl.
  - constructor; [intros [] | constructor].
  - constructor.
    + intros Hin. apply in_app_or in Hin. destruct Hin as [Hin | [-> | []]].
      * contradiction.
      * apply Hk. left. reflexivity.
    + apply IH. intros Hin. apply Hk. right. exact Hin.
Qed.

Lemma poetry_cli_nodup T updates updated_pkgs :
  List.NoDup (updated_pkgs ++ map fst updates) ->
  yields (@List.NoDup str) (PoetryUpdater.cli T updates updated_pkgs).
Proof.
  revert updated_pkgs.
  induction updates as [|[pkg ver] updates IH]; intros updated_pkgs Hdup;
    cbn [PoetryUpdater.cli].
  - apply yields_ret. rewrite app_nil_r in Hdup. exact Hdup.
  - eapply yields_bind; [apply yields_any|]. intros ok _. apply IH.
    destruct ok.
    + rewrite <- app_assoc. exact Hdup.
    + simpl in Hdup. exact (List.NoDup_remove_1 _ _ _ Hdup).
Qed.

Lemma poetry_first_match_fresh updates updated_pkgs clean_line line pkg ver :
  PoetryUpdater.first_match updates updated_pkgs clean_line line
  = Ok (Some (pkg, ver)) ->
  ~ In pkg updated_pkgs.
Proof.
  induction updates as [|[p v] updates IH]; cbn [PoetryUpdater.first_match];
    [discriminate|].
  destruct (Dict.mem p updated_pkgs) eqn:Hmem; [exact IH|].
  destruct (Re.match_assignment p clean_line) as [matched|]; [|discriminate].
  cbn [mbind exc_bind].
  destruct (matched && _); [|exact IH].
  intros [= <- _]. apply mem_false, Hmem.
Qed.

Lemma poetry_process_nodup updates lines st st' :
  List.NoDup (PoetryUpdater.updated_pkgs st) ->
  PoetryUpdater.process updates st lines = Ok st' ->
  List.NoDup (PoetryUpdater.updated_pkgs st').
Proof.
  revert st. induction lines as [|line lines IH]; intros st Hst;
    cbn [PoetryUpdater.process].
  - intros [= <-]. exact Hst.
  - destruct (PoetryUpdater.step updates st line) as [st1|] eqn:Hstep;
      [|discriminate].
    cbn [mbind exc_bind]. apply IH.
    unfold PoetryUpdater.step in Hstep.
    destruct (PoetryUpdater.first_match updates _ _ line) as [[[pkg ver]|]|]
      eqn:Hfirst; cbn [mbind exc_bind] in Hstep; [| |discriminate].
    + destruct (Re.sub_quoted ver line); [|discriminate].
      injection Hstep as <-. simpl. apply nodup_snoc; [exact Hst|].
      exact (poetry_first_match_fresh _ _ _ _ _ _ Hfirst).
    + injection Hstep as <-. exact Hst.
Qed.

Lemma pipenv_first_match_fresh updates updated_pkgs clean_line line pkg new_line :
  PipenvUpdater.first_match updates updated_pkgs clean_line line
  = Ok (Some (pkg, new_line)) ->
  ~ In pkg updated_pkgs.
Proof.
  induction updates as [|[p v] updates IH]; cbn [PipenvUpdater.first_match];
    [discriminate|].
  destruct (Dict.mem p updated_pkgs) eqn:Hmem; [exact IH|].
  destruct (Re.match_assignment p clean_line) as [matched|]; [|discriminate].
  cbn [mbind exc_bind].
  destruct (matched && _); [|exact IH].
  destruct (PipenvUpdater.rewrite v line); [|exact IH].
  intros [= <- _]. apply mem_false, Hmem.
Qed.

Lemma pipenv_process_nodup updates lines st st' :
  List.NoDup (PipenvUpdater.updated_pkgs st) ->
  PipenvUpdater.process updates st lines = Ok st' ->
  List.NoDup (PipenvUpdater.updated_pkgs st').
Proof.
  revert st. induction lines as [|line lines IH]; intros st Hst;
    cbn [PipenvUpdater.process].
  - intros [= <-]. exact Hst.
  - destruct (PipenvUpdater.step updates st line) as [st1|] eqn:Hstep;
      [|discriminate].
    cbn [mbind exc_bind]. apply IH.
    unfold PipenvUpdater.step in Hstep.
    destruct (PipenvUpdater.first_match updates _ _ line) as [[[pkg new_line]|]|]
      eqn:Hfirst; cbn [mbind exc_bind] in Hstep; [| |discriminate].
    + injection Hstep as <-. simpl. apply nodup_snoc; [exact Hst|].
      exact (pipenv_first_match_fresh _ _ _ _ _ _ Hfirst).
    + injection Hstep as <-. exact Hst.
Qed.

Lemma plain_nodup vulns : List.NoDup (map fst (Updates.plain vulns)).
Proof.
  unfold Updates.plain.
  apply (fold_store_invariant (λ _, True) id vulns []); [auto|].
  repeat split; constructor.
Qed.

(** X14: the pyproject.toml updater and the Pipfile updater report no
    package twice: a package that the command line has updated is passed
    over by the text replacement, and the text replacement rewrites for
    each package the first line that matches it and no later one. *)
Theorem poetry_and_pipenv_report_a_package_once T vulns (fs : files) :
  (forall pkgs fs',
      PoetryUpdater.update T vulns fs = (Ok pkgs, fs') -> List.NoDup pkgs)
  /\ (forall pkgs fs',
        PipenvUpdater.update T vulns fs = (Ok pkgs, fs') -> List.NoDup pkgs).
Proof.
  split; intros pkgs fs'.
  - revert fs pkgs fs'. change (yields (@List.NoDup str) (PoetryUpdater.update T vulns)).
    unfold PoetryUpdater.update.
    eapply yields_bind; [apply yields_any|]. intros found _.
    destruct (negb found); [apply yields_ret; constructor|].
    destruct (negb _); [apply yields_ret; constructor|].
    eapply (yields_bind (@List.NoDup str)).
    { destruct (which T "poetry"); [|apply yields_ret; constructor].
      apply poetry_cli_nodup. apply plain_nodup. }
    intros via_cli Hcli. destruct (_ <? _); [|apply yields_ret, Hcli].
    eapply yields_bind; [apply yields_any|]. intros content _.
    eapply yields_bind.
    { apply (yields_lift (λ st, List.NoDup (PoetryUpdater.updated_pkgs st))).
      intros st. apply poetry_process_nodup. exact Hcli. }
    intros st Hst.
    eapply yields_bind; [apply yields_any|]. intros _ _.
    apply yields_ret, Hst.
  - revert fs pkgs fs'. change (yields (@List.NoDup str) (PipenvUpdater.update T vulns)).
    unfold PipenvUpdater.update.
    eapply yields_bind; [apply yields_any|]. intros found _.
    destruct (negb found); [apply yields_ret; constructor|].
    destruct (negb _); [apply yields_ret; constructor|].
    eapply (yields_bind (@List.NoDup str)).
    { destruct (which T "pipenv"); [|apply yields_ret; constructor].
      unfold PipenvUpdater.cli. destruct (Updates.plain vulns).
      - apply yields_ret. constructor.
      - apply yields_raise. }
    intros via_cli Hcli. destruct (_ <? _); [|apply yields_ret, Hcli].
    eapply yields_bind; [apply yields_any|]. intros content _.
    eapply yields_bind.
    { apply (yields_lift (λ st, List.NoDup (PipenvUpdater.updated_pkgs st))).
      intros st. apply pipenv_process_nodup. exact Hcli. }
    intros st Hst.
    eapply yields_bind; [apply yields_any|]. intros _ _.
    apply yields_ret, Hst.
Qed.

(** The requirements.txt updater does report a package once for every
    line that it rewrites. *)
Example python_reports_a_package_twice :
  (PythonUpdater.update [SampleRepo.finding "requests" "2.31.0"]
     {["requirements.txt" :=
         SampleRepo.text ["requests==2.0.0" : str; "requests>=1.0" : str]]}).1
  = Ok ["requests" : str; "requests" : str].
Proof. vm_compute. reflexivity. Qed.

Lemma poetry_cli_succeeds T updates updated_pkgs (fs : files) :
  Commands.succeed T ->
  PoetryUpdater.cli T updates updated_pkgs fs
  = (Ok (updated_pkgs ++ map fst updates),
     Commands.after T (Commands.poetry_add updates) fs).
Proof.
  intros Hok. revert updated_pkgs fs.
  induction updates as [|[pkg ver] updates IH]; intros updated_pkgs fs;
    cbn [PoetryUpdater.cli Commands.poetry_add Commands.after map].
  - rewrite app_nil_r. reflexivity.
  - unfold mbind, io_bind, IO.run_checked. specialize (Hok
      ["poetry" : str; "add" : str; pkg ++ ">=" ++ ver] fs).
    cbn [fst snd].
    destruct (subprocess_run T _ fs) as [r fs1]. simpl in Hok. subst r.
    cbn [fst snd]. rewrite IH, <- app_assoc. reflexivity.
Qed.

(** X15: with a pyproject.toml present, poetry installed and every
    command coming to its end without an error, the pyproject.toml updater
    runs [poetry add pkg>=ver] once for every entry of its Update Set, in
    the order of the set, reports every package of the set, and does no
    text replacement: the files are what the commands left. *)
Theorem poetry_command_line_updates_every_package T vulns (fs : files) :
  is_Some (fs !! "pyproject.toml") ->
  which T "poetry" = true ->
  Commands.succeed T ->
  PoetryUpdater.update T vulns fs
  = (Ok (map fst (Updates.plain vulns)),
     Commands.after T (Commands.poetry_add (Updates.plain vulns)) fs).
Proof.
  intros [content Hfile] Hwhich Hok.
  unfold PoetryUpdater.update, mbind at 1, io_bind at 1, IO.exists_.
  rewrite Hfile, bool_decide_true by eauto. cbn [negb].
  destruct (Updates.plain vulns) as [|entry updates] eqn:Hupdates; [reflexivity|].
  cbn [Py.nonempty_list negb]. unfold mbind at 1, io_bind at 1.
  rewrite Hwhich, poetry_cli_succeeds by exact Hok. cbn [app].
  rewrite length_map, Nat.ltb_irrefl. reflexivity.
Qed.

Lemma poetry_command_line_updates_every_package_witness :
  let T := SampleRepo.tools ["poetry" : str] in
  let vulns := [SampleRepo.finding "requests" "2.26.0";
                SampleRepo.finding "flask" "2.2.5"] in
  let fs : files := {["pyproject.toml" := SampleRepo.pyproject]} in
  PoetryUpdater.update T vulns fs
  = (Ok (map fst (Updates.plain vulns)),
     Commands.after T (Commands.poetry_add (Updates.plain vulns)) fs).
Proof.
  intros T vulns fs.
  apply (poetry_command_line_updates_every_package T vulns fs).
  - eexists. reflexivity.
  - reflexivity.
  - intros cmd fs0. reflexivity.
Defined.

End CommandLine.

(** ** Replacing text *)

Section Replace.

Lemma replace_from_skip old new k (s : str) :
  Py.replace_from old new k s = Py.replace_from old new 0 (skipn k s).
Proof.
  revert k. induction s as [|c s IH]; intros [|k]; try reflexivity.
  simpl. apply IH.
Qed.

Lemma startswith_app (p s : str) : Py.startswith (p ++ s) p = true.
Proof. unfold Py.startswith. rewrite strip_prefix_app. reflexivity. Qed.

(** An occurrence at the start is replaced, and the replacement goes on
    behind it. *)
Lemma replace_hit x (o new s : str) :
  Py.replace (x :: o) new ((x :: o) ++ s) = new ++ Py.replace (x :: o) new s.
Proof.
  unfold Py.replace. cbn [app Py.replace_from].
  pose proof (startswith_app (x :: o) s) as Hstart. cbn [app] in Hstart.
  rewrite Hstart. f_equal.
  rewrite replace_from_skip. cbn [length Nat.sub]. rewrite Nat.sub_0_r.
  rewrite skipn_app, skipn_all, Nat.sub_diag. reflexivity.
Qed.

(** Text that does not hold the first character of [old] is copied. *)
Lemma replace_plain x (o new a s : str) :
  Py.has_char x a = false ->
  Py.replace (x :: o) new (a ++ s) = a ++ Py.replace (x :: o) new s.
Proof.
  unfold Py.replace. induction a as [|c a IH]; [reflexivity|].
  intros [Hc Ha]%has_char_cons. cbn [app Py.replace_from].
  unfold Py.startswith. cbn [Py.strip_prefix].
  rewrite Ascii.eqb_sym, Hc, IH by exact Ha. reflexivity.
Qed.

Lemma replace_nothing x (o new a : str) :
  Py.has_char x a = false -> Py.replace (x :: o) new a = a.
Proof.
  intros Ha. rewrite <- (app_nil_r a) at 1.
  rewrite replace_plain by exact Ha. apply app_nil_r.
Qed.

(** Text that does not hold [old] is copied. *)
Lemma replace_absent (old new s : str) :
  Py.contains old s = false -> Py.replace old new s = s.
Proof.
  unfold Py.replace. induction s as [|c s IH]; [reflexivity|].
  cbn [Py.contains Py.replace_from].
  intros [Hhere Hlater]%orb_false_iff. rewrite Hhere, IH by exact Hlater.
  reflexivity.
Qed.

Lemma replace_miss (old new : str) c (s : str) :
  Py.startswith (c :: s) old = false ->
  Py.replace old new (c :: s) = c :: Py.replace old new s.
Proof.
  unfold Py.replace. cbn [Py.replace_from]. intros ->. reflexivity.
Qed.

End Replace.

(** ** The Pipfile text replacement *)

Section Pipfile.

Lemma search_quoted_first (pre old post : str) :
  Py.has_char Re.quote pre = false ->
  Py.has_char Re.quote old = false ->
  Re.search_quoted (pre ++ SampleRepo.quoted old ++ post) = Some old.
Proof.
  intros Hpre Hold. induction pre as [|c pre IH].
  - unfold SampleRepo.quoted. cbn [app Re.search_quoted].
    rewrite Ascii.eqb_refl. rewrite <- app_assoc. cbn [app].
    rewrite find_quote_app by exact Hold.
    rewrite firstn_app, firstn_all, Nat.sub_diag. cbn [firstn].
    rewrite app_nil_r. reflexivity.
  - apply has_char_cons in Hpre. destruct Hpre as [Hc Hpre].
    cbn [app Re.search_quoted]. rewrite Hc. apply IH, Hpre.
Qed.

(** X16: on a line whose first quoted text is [old], the Pipfile text
    replacement puts the fixed version in its place, behind [==] when [old]
    starts with [==] and bare otherwise (any other operator is dropped); it
    keeps what stands before, and behind it replaces every further
    occurrence of the quoted [old] in the same way.  When nothing quoted
    follows, the rest of the line is kept. *)
Theorem pipfile_line_keeps_the_equality_operator (ver pre old post : str) :
  Py.has_char Re.quote pre = false ->
  Py.has_char Re.quote old = false ->
  let new_ver := if Py.startswith old "==" then "==" ++ ver else ver in
  PipenvUpdater.rewrite ver (pre ++ SampleRepo.quoted old ++ post)
  = Some (pre ++ SampleRepo.quoted new_ver
          ++ Py.replace (SampleRepo.quoted old) (SampleRepo.quoted new_ver) post)
  /\ (Py.has_char Re.quote post = false ->
      PipenvUpdater.rewrite ver (pre ++ SampleRepo.quoted old ++ post)
      = Some (pre ++ SampleRepo.quoted new_ver ++ post)).
Proof.
  intros Hpre Hold new_ver.
  assert (PipenvUpdater.rewrite ver (pre ++ SampleRepo.quoted old ++ post)
          = Some (pre ++ SampleRepo.quoted new_ver
                  ++ Py.replace (SampleRepo.quoted old)
                       (SampleRepo.quoted new_ver) post)) as Hgeneral.
  { unfold PipenvUpdater.rewrite.
    rewrite search_quoted_first by assumption. fold new_ver. f_equal.
    change ([Re.quote] ++ old ++ [Re.quote]) with (SampleRepo.quoted old).
    change ([Re.quote] ++ new_ver ++ [Re.quote]) with (SampleRepo.quoted new_ver).
    unfold SampleRepo.quoted at 1 3. cbn [app].
    rewrite replace_plain by exact Hpre. f_equal.
    exact (replace_hit Re.quote (old ++ [Re.quote]) _ post). }
  split; [exact Hgeneral|].
  intros Hpost. rewrite Hgeneral. do 3 f_equal.
  unfold SampleRepo.quoted at 1. cbn [app].
  apply replace_nothing, Hpost.
Qed.

Lemma pipfile_line_keeps_the_equality_operator_witness :
  PipenvUpdater.rewrite "2.26.0"
    ("requests = " ++ SampleRepo.quoted "==2.25.1" ++ "  # pinned")
  = Some ("requests = " ++ SampleRepo.quoted "==2.26.0" ++ "  # pinned").
Proof.
  apply (pipfile_line_keeps_the_equality_operator
           "2.26.0" "requests = " "==2.25.1" "  # pinned");
    reflexivity.
Defined.

Example pipfile_line_drops_another_operator :
  PipenvUpdater.rewrite "2.26.0" ("requests = " ++ SampleRepo.quoted ">=2.25.1")
  = Some ("requests = " ++ SampleRepo.quoted "2.26.0").
Proof. reflexivity. Qed.

End Pipfile.

(** ** The pattern of the two text replacements *)

Section Assignment.

Lemma compile_literal_name (pkg : str) :
  Forall (λ c, Re.is_meta c = false) pkg ->
  Re.compile_name pkg = Ok (map Re.Lit pkg).
Proof.
  induction 1 as [|c pkg Hc _ IH]; [reflexivity|].
  cbn [Re.compile_name map]. rewrite IH. cbn [mbind exc_bind].
  rewrite Hc.
  destruct (Ascii.eqb c ".") eqn:Hdot; [|reflexivity].
  apply Ascii.eqb_eq in Hdot. subst c. discriminate.
Qed.

Lemma match_literal_atoms (pkg s : str) :
  Re.match_atoms (map Re.Lit pkg) s = Py.strip_prefix pkg s.
Proof.
  revert s. induction pkg as [|c pkg IH]; intros s; [reflexivity|].
  destruct s as [|x s]; [reflexivity|]. cbn [map Re.match_atoms Py.strip_prefix].
  rewrite IH. reflexivity.
Qed.

(** X17: for a package name without a character that is special in a
    pattern, the test of the two text replacements never raises, and it
    holds of a stripped line exactly when the line is the name, then white
    space or none, then an equals sign, then anything.  So the line of a
    package whose name only starts with the name is passed over. *)
Theorem assignment_pattern_matches_name_and_equals (pkg clean_line : str) :
  Forall (λ c, Re.is_meta c = false) pkg ->
  (exists matched, Re.match_assignment pkg clean_line = Ok matched)
  /\ (Re.match_assignment pkg clean_line = Ok true
      <-> exists ws rest,
            clean_line = pkg ++ ws ++ "="%char :: rest
            /\ Forall (λ c, Py.isspace c = true) ws).
Proof.
  intros Hpkg. unfold Re.match_assignment.
  rewrite compile_literal_name by exact Hpkg. cbn [mbind exc_bind].
  rewrite match_literal_atoms. split; [eexists; reflexivity|]. split.
  - destruct (Py.strip_prefix pkg clean_line) as [after|] eqn:Hpre;
      [|discriminate].
    apply strip_prefix_Some in Hpre.
    destruct (drop_while_split Py.isspace after) as (ws & Hafter & Hws).
    destruct (Py.drop_while Py.isspace after) as [|c rest]; [discriminate|].
    destruct (Ascii.eqb_spec c "="); [subst c | ].
    + intros _. exists ws, rest. split; [congruence | exact Hws].
    + destruct c as [[] [] [] [] [] [] [] []]; try discriminate. congruence.
  - intros (ws & rest & -> & Hws).
    rewrite strip_prefix_app, drop_while_all by exact Hws. reflexivity.
Qed.

Lemma assignment_pattern_matches_name_and_equals_witness :
  (exists matched,
      Re.match_assignment "requests" "requests-oauthlib = 1" = Ok matched)
  /\ (Re.match_assignment "requests" "requests-oauthlib = 1" = Ok true
      <-> exists ws rest,
            ("requests-oauthlib = 1" : str)
            = ("requests" : str) ++ ws ++ "="%char :: rest
            /\ Forall (λ c, Py.isspace c = true) ws).
Proof.
  apply (assignment_pattern_matches_name_and_equals
           "requests" "requests-oauthlib = 1").
  repeat constructor.
Defined.

(** A name is pasted into the pattern as it is: a dot in it stands for any
    character of the line. *)
Example assignment_pattern_reads_a_dot_as_any_character :
  Re.match_assignment "zope.interface" "zope-interface = 5" = Ok true.
Proof. reflexivity. Qed.

End Assignment.

(** ** The package.json updater *)

Section Node.
Import NodeUpdater PackageJson.

Lemma dict_set_set {V} (k : str) (v w : V) d :
  Dict.set k v (Dict.set k w d) = Dict.set k v d.
Proof.
  induction d as [|[k' v'] d IH]; simpl.
  - rewrite eqb_refl. reflexivity.
  - destruct (Py.eqb k' k) eqn:Hk; simpl.
    + rewrite eqb_refl. reflexivity.
    + rewrite Hk, IH. reflexivity.
Qed.

Lemma dict_set_same {V} (k : str) (v : V) d :
  Dict.get k d = Some v -> Dict.set k v d = d.
Proof.
  induction d as [|[k' v'] d IH]; simpl; [discriminate|].
  destruct (Py.eqb k' k) eqn:Hk.
  - apply eqb_eq in Hk. subst k'. intros [= ->]. reflexivity.
  - intros H. rewrite IH by exact H. reflexivity.
Qed.

Lemma dict_set_present_keys {V} (k : str) (v w : V) d :
  Dict.get k d = Some w -> map fst (Dict.set k v d) = map fst d.
Proof.
  induction d as [|[k' v'] d IH]; simpl; [discriminate|].
  destruct (Py.eqb k' k) eqn:Hk; simpl.
  - apply eqb_eq in Hk. subst k'. reflexivity.
  - intros H. rewrite IH by exact H. reflexivity.
Qed.

Lemma dict_get_keys {V W} (k : str) (d : list (str * V)) (d' : list (str * W)) :
  map fst d = map fst d' ->
  (match Dict.get k d with Some _ => true | None => false end)
  = (match Dict.get k d' with Some _ => true | None => false end).
Proof.
  revert d'. induction d as [|[k1 v1] d IH]; intros [|[k2 v2] d'];
    simpl; try discriminate; [reflexivity|].
  intros [= <- Hkeys]. destruct (Py.eqb k1 k); [reflexivity | apply IH, Hkeys].
Qed.

Lemma dict_get_none_keys {V} (k : str) (d : list (str * V)) :
  Dict.get k d = None -> ~ In k (map fst d).
Proof.
  induction d as [|[k' v'] d IH]; simpl; [tauto|].
  destruct (Py.eqb k' k) eqn:Hk; [discriminate|]. apply eqb_neq in Hk.
  intros H [Heq | Hin]; [contradiction | exact (IH H Hin)].
Qed.

Lemma pinned_nil deps : pinned [] deps = deps.
Proof.
  unfold pinned. induction deps as [|[k v] deps IH]; [reflexivity|].
  cbn [map fst snd Dict.get]. f_equal. exact IH.
Qed.

(** A name that the section does not list changes nothing. *)
Lemma pinned_absent pkg ver updates deps :
  Dict.get pkg deps = None ->
  pinned ((pkg, ver) :: updates) deps = pinned updates deps.
Proof.
  intros Habsent. apply dict_get_none_keys in Habsent.
  unfold pinned. apply map_ext_in. intros [k v] Hin. simpl.
  destruct (Py.eqb pkg k) eqn:Hk; [|reflexivity].
  apply eqb_eq in Hk. subst k. exfalso. apply Habsent.
  exact (in_map fst _ _ Hin).
Qed.

(** Setting one entry first and pinning the others afterwards is pinning
    all of them. *)
Lemma pinned_present pkg ver updates deps :
  ~ In pkg (map fst updates) ->
  List.NoDup (map fst deps) ->
  pinned updates (Dict.set pkg (VStr ver) deps)
  = pinned ((pkg, ver) :: updates) deps
  \/ Dict.get pkg deps = None.
Proof.
  intros Hfresh Hdup.
  destruct (Dict.get pkg deps) as [old|] eqn:Hget; [left | right; reflexivity].
  assert (Dict.get pkg updates = None) as Hnone.
  { destruct (Dict.get pkg updates) as [x|] eqn:Hx; [|reflexivity].
    exfalso. apply Hfresh.
    clear -Hx. induction updates as [|[k v] updates IH]; simpl in *; [discriminate|].
    destruct (Py.eqb k pkg) eqn:Hk; [left; apply eqb_eq, Hk | right; auto]. }
  revert old Hget. induction deps as [|[k v] deps IH]; intros old Hget;
    simpl in *; [discriminate|].
  inversion Hdup as [|? ? Hk_notin Hdup']; subst.
  destruct (Py.eqb k pkg) eqn:Hk.
  - apply eqb_eq in Hk. subst k. unfold pinned. simpl.
    rewrite eqb_refl, Hnone. f_equal.
    apply map_ext_in. intros [k v'] Hin. simpl.
    destruct (Py.eqb pkg k) eqn:Hk; [|reflexivity].
    apply eqb_eq in Hk. subst k. exfalso. apply Hk_notin.
    exact (in_map fst _ _ Hin).
  - unfold pinned in *. simpl. rewrite (IH Hdup' old Hget).
    f_equal. simpl. apply eqb_neq in Hk.
    assert (Py.eqb pkg k = false) as -> by (apply eqb_neq; congruence).
    reflexivity.
Qed.

Lemma hits_same_keys updates (deps deps' : list (str * value)) :
  map fst deps = map fst deps' -> hits updates deps = hits updates deps'.
Proof.
  intros Hkeys. unfold hits. apply filter_ext. intros pkg.
  apply dict_get_keys, Hkeys.
Qed.

(** The loop over the Update Set for a section that is an object. *)
Lemma section_loop_pins section updates d deps changed acc :
  Dict.get section d = Some (VDict deps) ->
  List.NoDup (map fst deps) ->
  List.NoDup (map fst updates) ->
  section_loop section updates (State (VDict d) changed acc)
  = Ok (State (VDict (Dict.set section (VDict (pinned updates deps)) d))
          (changed || Py.nonempty_list (hits updates deps))
          (acc ++ hits updates deps)).
Proof.
  revert d deps changed acc.
  induction updates as [|[pkg ver] updates IH];
    intros d deps changed acc Hsection Hdeps Hupdates.
  - cbn [section_loop hits map List.filter Py.nonempty_list].
    rewrite pinned_nil, dict_set_same, orb_false_r, app_nil_r by exact Hsection.
    reflexivity.
  - cbn [map] in Hupdates. inversion Hupdates as [|? ? Hfresh Hupdates']; subst.
    cbn [section_loop data getitem]. rewrite Hsection.
    cbn [mbind exc_bind str_in].
    unfold hits. cbn [map List.filter fst]. fold (hits updates deps).
    destruct (Dict.get pkg deps) as [old|] eqn:Hpkg; cbn [mbind exc_bind].
    + cbn [setitem mbind exc_bind data updated_pkgs].
      rewrite (IH _ (Dict.set pkg (VStr ver) deps));
        [| apply dict_get_set_same | apply dict_set_nodup, Hdeps | exact Hupdates'].
      destruct (pinned_present pkg ver updates deps Hfresh Hdeps) as [-> | Hnone];
        [|congruence].
      rewrite dict_set_set.
      rewrite (hits_same_keys updates _ deps)
        by (eapply dict_set_present_keys; exact Hpkg).
      cbn [Py.nonempty_list orb]. rewrite orb_true_r, <- app_assoc. reflexivity.
    + rewrite (IH d deps) by assumption.
      rewrite pinned_absent by exact Hpkg. reflexivity.
Qed.

Lemma hits_nil updates : hits updates [] = [].
Proof.
  unfold hits. induction (map fst updates) as [|k ks IH]; [reflexivity | exact IH].
Qed.

(** One turn of the loop over the sections, before the turns [k] that
    follow it. *)
Lemma section_turn section updates d changed acc (k : state -> exc state) :
  object_or_missing section d ->
  List.NoDup (map fst updates) ->
  (present ← str_in section (VDict d);
   st' ← (if present : bool
          then section_loop section updates (State (VDict d) changed acc)
          else Ok (State (VDict d) changed acc));
   k st')
  = k (State (VDict (pin updates section d))
         (changed || Py.nonempty_list (hits updates (entries section d)))
         (acc ++ hits updates (entries section d))).
Proof.
  intros [Hmissing | (deps & Hsection & Hdeps)] Hupdates;
    unfold pin, entries; cbn [str_in mbind exc_bind].
  - rewrite Hmissing, hits_nil, orb_false_r, app_nil_r. reflexivity.
  - rewrite Hsection, (section_loop_pins _ _ _ deps) by assumption. reflexivity.
Qed.

Lemma pin_other updates section other d :
  section <> other ->
  Dict.get other (pin updates section d) = Dict.get other d.
Proof.
  intros Hne. unfold pin.
  destruct (Dict.get section d) as [[]|]; try reflexivity.
  apply dict_get_set_other, Hne.
Qed.

Lemma sections_loop_pins updates d :
  object_or_missing "dependencies" d ->
  object_or_missing "devDependencies" d ->
  List.NoDup (map fst updates) ->
  sections_loop ["dependencies" : str; "devDependencies" : str] updates
    (State (VDict d) false [])
  = Ok (State
          (VDict (pin updates "devDependencies" (pin updates "dependencies" d)))
          (Py.nonempty_list (hits updates (entries "dependencies" d)
                             ++ hits updates (entries "devDependencies" d)))
          (hits updates (entries "dependencies" d)
           ++ hits updates (entries "devDependencies" d))).
Proof.
  intros Hdeps Hdev Hupdates.
  assert (Dict.get "devDependencies" (pin updates "dependencies" d)
          = Dict.get "devDependencies" d) as Hother
    by (apply pin_other; discriminate).
  cbn [sections_loop data].
  rewrite section_turn by assumption. cbn [data].
  rewrite section_turn;
    [| unfold object_or_missing; rewrite Hother; exact Hdev | exact Hupdates].
  unfold entries at 2 4. rewrite Hother.
  fold (entries "devDependencies" d). cbn [app orb mbind exc_bind].
  do 2 f_equal.
  destruct (hits updates (entries "dependencies" d)); reflexivity.
Qed.

(** X18: when package.json holds an object whose sections
    ["dependencies"] and ["devDependencies"] are objects or are missing,
    the updater sets every entry of the two sections whose name is in the
    Update Set to the fixed version itself, with no range operator, and
    keeps every other entry, every other key and the order of all; it
    reports the names it has set, those of ["dependencies"] first, so that
    a package listed in both sections is reported twice.  It writes the
    file only when it has set an entry, and then a failing npm does not
    fail the update. *)
Theorem node_update_pins_the_fixed_versions T vulns (fs : files) text d :
  fs !! "package.json" = Some text ->
  json_loads T text = Ok (VDict d) ->
  object_or_missing "dependencies" d ->
  object_or_missing "devDependencies" d ->
  fails_softly T npm_install ->
  let updates := Updates.plain vulns in
  let pkgs := hits updates (entries "dependencies" d)
              ++ hits updates (entries "devDependencies" d) in
  let document :=
    VDict (pin updates "devDependencies" (pin updates "dependencies" d)) in
  NodeUpdater.update T vulns fs
  = (Ok pkgs,
     match pkgs with
     | [] => fs
     | _ :: _ => written T (json_dumps T document ++ ["010"%char]) fs
     end).
Proof.
  intros Hfile Hloads Hdeps Hdev Hsoft. cbv zeta.
  pose proof (plain_nodup vulns) as Hdup.
  unfold NodeUpdater.update, mbind at 1, io_bind at 1, IO.exists_.
  rewrite Hfile, bool_decide_true by eauto. cbn [negb].
  generalize dependent (Updates.plain vulns). intros updates Hdup.
  destruct (Py.nonempty_list updates) eqn:Hsome;
    [|destruct updates; [reflexivity | discriminate]].
  cbn [negb].
  unfold mbind at 1, io_bind at 1, IO.read_text. rewrite Hfile, Hloads.
  unfold mbind at 1, io_bind at 1, IO.lift.
  rewrite sections_loop_pins by assumption.
  cbn [modified data updated_pkgs].
  set (pkgs := hits updates (entries "dependencies" d)
               ++ hits updates (entries "devDependencies" d)).
  set (document := VDict _).
  destruct pkgs as [|pkg more]; [reflexivity|]. cbn [Py.nonempty_list].
  unfold mbind, io_bind, IO.write_text, written, IO.run_checked.
  destruct (which T "npm"); [|reflexivity].
  specialize (Hsoft (<["package.json" := json_dumps T document ++ ["010"%char]]> fs)).
  fold npm_install.
  destruct (subprocess_run T npm_install _) as [[?|e] fs1]; [reflexivity|].
  cbn [fst snd] in *. rewrite (Hsoft e eq_refl). reflexivity.
Qed.

Lemma node_update_pins_the_fixed_versions_witness :
  let T := SamplePackage.tools (Ok (VDict SamplePackage.document)) in
  let vulns := [SampleRepo.finding "lodash" "4.17.21";
                SampleRepo.finding "minimist" "1.2.6"] in
  let fs : files := {["package.json" := ("{}" : str)]} in
  NodeUpdater.update T vulns fs
  = (Ok ["lodash" : str; "lodash" : str],
     {["package.json" := ("{}" : str) ++ ["010"%char]]}).
Proof.
  intros T vulns fs.
  refine (eq_trans
            (node_update_pins_the_fixed_versions T vulns fs "{}"
               SamplePackage.document _ _ _ _ _) _).
  - reflexivity.
  - reflexivity.
  - right. eexists. split; [reflexivity|]. repeat constructor; simpl; intuition discriminate.
  - right. eexists. split; [reflexivity|]. repeat constructor; simpl; intuition discriminate.
  - intros fs0 e [=].
  - vm_compute. reflexivity.
Defined.

(** The document of the sample after the update. *)
Example pinned_sample_document :
  pin [("lodash" : str, "4.17.21" : str); ("minimist" : str, "1.2.6" : str)]
    "devDependencies"
    (pin [("lodash" : str, "4.17.21" : str); ("minimist" : str, "1.2.6" : str)]
       "dependencies" SamplePackage.document)
  = [("name" : str, VStr "app");
     ("dependencies" : str,
      VDict [("lodash" : str, VStr "4.17.21"); ("express" : str, VStr "^4.17.1")]);
     ("devDependencies" : str, VDict [("lodash" : str, VStr "4.17.21")]);
     ("license" : str, VStr "MIT")].
Proof. reflexivity. Qed.



Example node_update_raises_on_a_null_section :
  NodeUpdater.update
    (SamplePackage.tools (Ok (VDict [("dependencies" : str, VNone)])))
    [SampleRepo.finding "lodash" "4.17.21"]
    {["package.json" := ("{}" : str)]}
  = (Raise (Exn TypeError "argument is not iterable"),
     {["package.json" := ("{}" : str)]}).
Proof. reflexivity. Qed.

End Node.

(** ** What the pom.xml updater reports *)

Section MavenReport.
Import MavenUpdater.

(** The loop reports a package for every substitution it makes: when it
    reports none, the content is what it was. *)
Lemma process_reports_its_changes updates content acc content' pkgs :
  process updates content acc = Ok (content', pkgs) ->
  exists more, pkgs = acc ++ more /\ (more = [] -> content' = content).
Proof.
  revert content acc.
  induction updates as [|[pkg ver] updates IH]; intros content acc;
    cbn [process].
  - intros [= <- <-]. exists []. rewrite app_nil_r. auto.
  - destruct (search _ content).
    + destruct (sub _ ver content) as [content1|]; [|discriminate].
      cbn [mbind exc_bind]. intros Hrest.
      destruct (IH _ _ Hrest) as (more & -> & _).
      exists (pkg :: more). rewrite <- app_assoc. split; [reflexivity | discriminate].
    + apply IH.
Qed.

(** X20: the pom.xml updater reports packages exactly when it changes
    the file.  Either it returns the empty list and leaves every file as it
    is (so also when the version tag already holds the fixed version), or
    it returns at least one package and pom.xml holds a content that
    differs from the one it held. *)
Theorem maven_reports_only_a_changed_file vulns (fs fs' : files) pkgs :
  update vulns fs = (Ok pkgs, fs') ->
  (pkgs = [] /\ fs' = fs)
  \/ (pkgs <> []
      /\ exists content content',
           fs !! "pom.xml" = Some content
           /\ fs' = <["pom.xml" := content']> fs
           /\ content' <> content).
Proof.
  destruct (fs !! "pom.xml") as [content|] eqn:Hfile.
  - destruct (Updates.plain vulns) as [|entry updates] eqn:Hupdates.
    + unfold update, mbind, io_bind, IO.exists_. rewrite Hfile, Hupdates.
      rewrite bool_decide_true by eauto. cbn [negb Py.nonempty_list].
      intros [= <- <-]. left. split; reflexivity.
    + rewrite (update_unfold _ _ _ Hfile) by (rewrite Hupdates; discriminate).
      destruct (process (Updates.plain vulns) content []) as [[content' l]|]
        eqn:Hprocess; [|discriminate].
      destruct (Py.eqb content' content) eqn:Hsame.
      * intros [= <- <-]. left. split; reflexivity.
      * intros [= <- <-]. right. apply eqb_neq in Hsame.
        destruct (process_reports_its_changes _ _ _ _ _ Hprocess)
          as (more & -> & Hmore).
        split; [|eauto].
        destruct more; [exfalso; apply Hsame, Hmore; reflexivity | discriminate].
  - pose proof (update_without_manifest (SampleRepo.tools [])
                  DependencyUpdater.Maven vulns fs Hfile) as Habsent.
    cbn [DependencyUpdater.update] in Habsent. rewrite Habsent.
    intros [= <- <-]. left. split; reflexivity.
Qed.

Lemma maven_reports_only_a_changed_file_witness :
  let fs : files := {["pom.xml" := Pom.test_pom "2.12.0"]} in
  (([] : list str) = [] /\ fs = fs)
  \/ (([] : list str) <> []
      /\ exists content content',
           fs !! "pom.xml" = Some content
           /\ fs = <["pom.xml" := content']> fs
           /\ content' <> content).
Proof.
  intros fs.
  apply (maven_reports_only_a_changed_file
           [SampleRepo.finding "jackson-databind" "2.12.0"] fs fs []).
  vm_compute. reflexivity.
Defined.

End MavenReport.

(** ** A repository with one manifest *)

Section OneManifest.
Import DependencyUpdater Frame.

Lemma update_each_absent T us vulns acc (fs : files) :
  Forall (λ u, fs !! manifest u = None) us ->
  update_each T us vulns acc fs = (Ok acc, fs).
Proof.
  intros H. apply update_each_quiet. revert H. apply Forall_impl.
  intros u. apply update_without_manifest.
Qed.

Lemma update_each_one T before u after vulns (fs : files) :
  Forall (λ w, fs !! manifest w = None) before ->
  Forall (λ w, fs !! manifest w = None /\ manifest w <> manifest u
               /\ keeps T (manifest w)) after ->
  update_each T (before ++ u :: after) vulns [] fs = update T u vulns fs.
Proof.
  intros Hbefore Hafter.
  assert (forall acc, update_each T (before ++ u :: after) vulns acc fs
                      = update_each T (u :: after) vulns acc fs) as ->.
  { induction Hbefore as [|w before Hw _ IH]; intros acc; [reflexivity|].
    cbn [app update_each]. unfold mbind, io_bind.
    rewrite (update_without_manifest T w vulns fs Hw), app_nil_r. apply IH. }
  cbn [update_each app]. unfold mbind at 1, io_bind at 1.
  destruct (update T u vulns fs) as [[updated|e] fs1] eqn:Hrun; [|reflexivity].
  rewrite update_each_absent; [reflexivity|].
  revert Hafter. apply Forall_impl. intros w (Habsent & Hne & Hkeeps).
  pose proof (update_preserves T u vulns (manifest w) Hne Hkeeps fs) as Hsame.
  rewrite Hrun in Hsame. cbn [snd] in Hsame. congruence.
Qed.

(** X21: in a repository that holds the manifest of one updater only,
    and with tools whose commands create none of the other four manifests,
    [update_dependencies] does what that updater does: it returns what the
    updater returns, raises what it raises, and leaves the files the
    updater leaves. *)
Theorem dispatcher_with_one_manifest T u vulns (fs : files) :
  (forall w, w <> u -> fs !! manifest w = None /\ keeps T (manifest w)) ->
  update_dependencies T vulns fs = update T u vulns fs.
Proof.
  intros Hothers. unfold update_dependencies, updaters.
  assert (forall w, w <> u ->
            fs !! manifest w = None /\ manifest w <> manifest u
            /\ keeps T (manifest w)) as H.
  { intros w Hw. destruct (Hothers w Hw) as [Habsent Hkeeps].
    repeat split; try assumption.
    destruct w, u; try discriminate; contradiction. }
  destruct u.
  - apply (update_each_one T [] Python [Node; Poetry; Pipenv; Maven]);
      repeat constructor; try apply H; discriminate.
  - apply (update_each_one T [Python] Node [Poetry; Pipenv; Maven]);
      repeat constructor; try apply H; try apply Hothers; discriminate.
  - apply (update_each_one T [Python; Node] Poetry [Pipenv; Maven]);
      repeat constructor; try apply H; try apply Hothers; discriminate.
  - apply (update_each_one T [Python; Node; Poetry] Pipenv [Maven]);
      repeat constructor; try apply H; try apply Hothers; discriminate.
  - apply (update_each_one T [Python; Node; Poetry; Pipenv] Maven []);
      repeat constructor; try apply H; try apply Hothers; discriminate.
Qed.

Lemma dispatcher_with_one_manifest_witness :
  let T := SampleRepo.tools ["pipenv" : str] in
  let vulns := [SampleRepo.finding "requests" "2.26.0"] in
  let fs : files := {["Pipfile" := SampleRepo.pipfile]} in
  update_dependencies T vulns fs = update T Pipenv vulns fs.
Proof.
  intros T vulns fs. apply (dispatcher_with_one_manifest T Pipenv vulns fs).
  intros w Hw. split.
  - destruct w; try reflexivity. contradiction.
  - intros cmd fs0. reflexivity.
Defined.

End OneManifest.

(** ** What the requirements.txt updater reports *)

Section PinnedListReport.
Import Lines Reported.

Lemma process_reported updates lines st :
  PythonUpdater.updated_pkgs (fold_left (PythonUpdater.step updates) lines st)
  = PythonUpdater.updated_pkgs st ++ of_lines updates lines.
Proof.
  revert st. induction lines as [|line lines IH]; intros st;
    cbn [fold_left of_lines flat_map].
  - rewrite app_nil_r. reflexivity.
  - rewrite IH. fold (of_lines updates lines).
    unfold PythonUpdater.step, of_line.
    destruct (PythonUpdater.clean line) as [|c cl]; [reflexivity|].
    destruct (PythonUpdater.first_match updates (c :: cl)) as [[pkg ver]|];
      simpl; [rewrite <- app_assoc|]; reflexivity.
Qed.

Lemma of_lines_unhit updates lines :
  existsb (hit updates) lines = false -> of_lines updates lines = [].
Proof.
  induction lines as [|line lines IH]; [reflexivity|].
  cbn [existsb of_lines flat_map]. intros [Hline Hrest]%orb_false_iff.
  fold (of_lines updates lines). rewrite IH by exact Hrest.
  unfold hit in Hline. unfold of_line.
  destruct (PythonUpdater.clean line); [reflexivity|].
  destruct (PythonUpdater.first_match updates _) as [[pkg ver]|];
    [discriminate | reflexivity].
Qed.

(** What [PythonUpdater.update] returns for an existing requirements.txt. *)
Lemma python_update_reported vulns content (fs : files) :
  fs !! "requirements.txt" = Some content ->
  (PythonUpdater.update vulns fs).1
  = Ok (of_lines (Updates.python vulns) (Py.splitlines content)).
Proof.
  intros Hfile.
  unfold PythonUpdater.update, mbind, io_bind, IO.exists_, IO.read_text,
    IO.write_text, mret, io_ret.
  rewrite Hfile, bool_decide_true by eauto. cbn [negb].
  destruct (Updates.python vulns) as [|entry updates] eqn:Hupd.
  - cbn [Py.nonempty_list negb fst]. f_equal.
    induction (Py.splitlines content) as [|l ls IH]; [reflexivity|].
    cbn [of_lines flat_map]. fold (of_lines [] ls). rewrite <- IH.
    unfold of_line. destruct (PythonUpdater.clean l); reflexivity.
  - cbn [Py.nonempty_list negb]. rewrite Hfile. unfold PythonUpdater.process.
    pose proof (process_reported (entry :: updates) (Py.splitlines content)
                  (PythonUpdater.State [] false [])) as Hpkgs.
    destruct (process_fold (entry :: updates) (Py.splitlines content)
                (PythonUpdater.State [] false [])) as [pkgs Hfold].
    rewrite Hfold in Hpkgs |- *. cbn [PythonUpdater.updated_pkgs
      PythonUpdater.modified PythonUpdater.new_lines app orb] in Hpkgs |- *.
    destruct (existsb (hit (entry :: updates)) (Py.splitlines content)) eqn:Hhit.
    + cbn [fst]. f_equal. exact Hpkgs.
    + cbn [fst]. rewrite of_lines_unhit by exact Hhit. reflexivity.
Qed.

(** A rewritten line is matched by the package that rewrote it. *)
Lemma rewritten_line_matched updates line pkg ver :
  Forall stable_entry updates ->
  Forall (λ e : str * str, e.1 <> []) updates ->
  no_linebreak line ->
  PythonUpdater.first_match updates (PythonUpdater.clean line) = Some (pkg, ver) ->
  of_line updates (pkg ++ ">=" ++ ver ++ PythonUpdater.comment_of line) = [pkg].
Proof.
  intros Hstable Hnames Hline Hfirst.
  destruct (first_match_split _ _ _ _ Hfirst)
    as (before & after & -> & Hhit & Hbefore).
  apply Forall_app in Hstable. destruct Hstable as [Hsb Hsa].
  inversion Hsa as [|? ? (Hop & Hvh & Hvl) _]; subst. simpl in Hop, Hvh, Hvl.
  apply Forall_app in Hnames. destruct Hnames as [_ Hna].
  inversion Hna as [|? ? Hne _]; subst. simpl in Hne.
  destruct (pattern_match_prefix _ _ Hhit) as [rest Hclean].
  destruct pkg as [|c p]; [contradiction|].
  assert (Py.isspace c = false) as Hc.
  { unfold PythonUpdater.clean in Hclean. apply (strip_head _ _ _ Hclean). }
  assert (Py.has_char "#" (c :: p) = false) as Hhash.
  { pose proof (clean_no_hash line) as H. rewrite Hclean, has_char_app in H.
    apply orb_false_iff in H. tauto. }
  assert (no_linebreak (PythonUpdater.clean line)) as Hcl.
  { apply Forall_clean, Hline. }
  rewrite Hclean in Hcl. apply Forall_app in Hcl. destruct Hcl as [Hpl Hrl].
  destruct (clean_rewritten c p ver (PythonUpdater.comment_of line) Hc Hhash Hvh)
    as (y & Hclean' & Hy).
  { destruct (comment_of_cases line) as [[_ ->] | [_ ->]]; eauto. }
  assert (Forall (λ x, x <> "010"%char) y) as Hynl.
  { apply Hy; [|discriminate]. apply no_linebreak_no_newline, Hvl. }
  unfold of_line. rewrite Hclean'.
  rewrite <- app_comm_cons. rewrite app_comm_cons.
  rewrite first_match_found; [reflexivity | |].
  - rewrite Forall_forall in Hbefore, Hsb |- *. intros e He.
    apply unmatched_stays_unmatched with (rest := rest).
    + apply (Hsb e He).
    + exact Hop.
    + apply no_linebreak_no_newline, Hpl.
    + exact Hynl.
    + rewrite <- Hclean. exact Hhit.
    + rewrite <- Hclean. apply (Hbefore e He).
  - rewrite pattern_match_app; [reflexivity|].
    constructor; [discriminate|]. constructor; [discriminate | exact Hynl].
Qed.

Lemma of_line_rewritten updates line :
  Forall stable_entry updates ->
  Forall (λ e : str * str, e.1 <> []) updates ->
  no_linebreak line ->
  of_line updates (line_out updates line) = of_line updates line.
Proof.
  intros Hstable Hnames Hline.
  destruct (PythonUpdater.clean line) as [|c cl] eqn:Hclean.
  - rewrite line_out_blank by exact Hclean. reflexivity.
  - destruct (PythonUpdater.first_match updates (c :: cl)) as [[pkg ver]|]
      eqn:Hfirst.
    + assert (line_out updates line
              = pkg ++ ">=" ++ ver ++ PythonUpdater.comment_of line) as ->.
      { unfold line_out. rewrite Hclean, Hfirst. reflexivity. }
      rewrite rewritten_line_matched by (try rewrite Hclean; assumption).
      unfold of_line. rewrite Hclean, Hfirst. reflexivity.
    + rewrite line_out_unmatched by (rewrite Hclean; exact Hfirst).
      reflexivity.
Qed.

Lemma of_lines_rewritten updates lines :
  Forall stable_entry updates ->
  Forall (λ e : str * str, e.1 <> []) updates ->
  Forall no_linebreak lines ->
  of_lines updates (map (line_out updates) lines) = of_lines updates lines.
Proof.
  intros Hstable Hnames. induction 1 as [|l ls Hl _ IH]; [reflexivity|].
  cbn [map of_lines flat_map]. rewrite of_line_rewritten by assumption.
  f_equal. exact IH.
Qed.

(** X22: for an Update Set whose names hold no version operator and whose
    versions hold no [#] and no line boundary, a second application of the
    requirements.txt updater with the same findings reports the same
    packages as the first although it changes no line: the updater reports
    a package for every line that matches it, also when the line already
    reads as the updater would write it. *)
Theorem pinned_list_second_run_reports_again vulns (fs : files) :
  Forall stable_entry (Updates.python vulns) ->
  (PythonUpdater.update vulns (once vulns fs)).1
  = (PythonUpdater.update vulns fs).1.
Proof.
  intros Hstable.
  assert (Forall (λ e : str * str, e.1 <> []) (Updates.python vulns)) as Hnames.
  { apply update_set_names_nonempty. constructor. }
  destruct (fs !! "requirements.txt") as [content|] eqn:Hfile.
  - unfold once.
    destruct (python_update_written vulns content fs Hfile) as [pkgs Hw].
    rewrite (python_update_reported vulns content fs Hfile).
    rewrite Hw. cbn [snd].
    rewrite (python_update_reported vulns
               (written (Updates.python vulns) content))
      by apply lookup_insert_eq.
    f_equal. unfold written.
    destruct (existsb (hit (Updates.python vulns)) (Py.splitlines content))
      eqn:Hhit; [|reflexivity].
    pose proof (splitlines_no_linebreak content) as Hlines.
    rewrite splitlines_join.
    + apply of_lines_rewritten; assumption.
    + apply Forall_map. revert Hlines. apply Forall_impl. intros l Hl.
      apply line_out_idempotent; assumption.
    + destruct (Py.splitlines content); discriminate.
  - pose proof (update_without_manifest (SampleRepo.tools [])
                  DependencyUpdater.Python vulns fs Hfile) as Hn.
    cbn [DependencyUpdater.update] in Hn. unfold once. rewrite Hn. cbn [snd].
    rewrite Hn. reflexivity.
Qed.

Lemma pinned_list_second_run_reports_again_witness :
  let vulns := [SampleRepo.finding "requests" "2.31.0";
                SampleRepo.finding "flask" "2.0.0, 2.2.5"] in
  let fs : files :=
    {["requirements.txt" :=
        SampleRepo.text ["requests>=2.31.0" : str; "flask>=1.0.0 # comment" : str;
                         "django" : str]]} in
  (PythonUpdater.update vulns (once vulns fs)).1
  = (PythonUpdater.update vulns fs).1
  /\ (PythonUpdater.update vulns fs).1 = Ok ["requests" : str; "flask" : str].
Proof.
  intros vulns fs. split; [|vm_compute; reflexivity].
  refine (pinned_list_second_run_reports_again vulns fs _).
  change (Forall stable_entry [("requests" : str, "2.31.0" : str);
                               ("flask" : str, "2.2.5" : str)]).
  repeat (apply Forall_cons; [split; [|split]|]); try apply Forall_nil;
    try reflexivity;
    unfold no_linebreak; repeat (apply Forall_cons; [reflexivity|]);
    apply Forall_nil.
Defined.

End PinnedListReport.

(** ** The change request *)

Section ChangeRequest.
Import PullRequest.

(** The last two segments of an address. *)
Lemma last_two_segments (prefix owner repo_name : str) :
  Py.has_char "/" owner = false ->
  Py.has_char "/" repo_name = false ->
  GitClient.last_two (Py.split "/" (prefix ++ "/" ++ owner ++ "/" ++ repo_name))
  = Ok (owner, repo_name).
Proof.
  intros Howner Hrepo. change ("/" : str) with ["/"%char]. cbn [app].
  rewrite split_app, split_app, (split_word _ owner), (split_word _ repo_name)
    by assumption.
  unfold GitClient.last_two. rewrite !rev_app_distr. reflexivity.
Qed.

(** A final [.git] is taken off a text that holds no other. *)
Lemma replace_final_dot_git (s : str) :
  Py.contains ".git" s = false -> Py.replace ".git" [] (s ++ ".git") = s.
Proof.
  induction s as [|c s IH]; [reflexivity|].
  cbn [Py.contains]. intros [Hhere Hlater]%orb_false_iff.
  cbn [app]. rewrite replace_miss; [rewrite IH by exact Hlater; reflexivity|].
  revert Hhere. unfold Py.startswith.
  destruct s as [|a [|b [|d s]]];
    cbn [app Py.strip_prefix list_ascii_of_string];
    repeat match goal with
      | |- context [Ascii.eqb ?x ?y] => destruct (Ascii.eqb x y) eqn:?
      end; auto.
  all: repeat match goal with
         | H : Ascii.eqb _ _ = true |- _ => apply Ascii.eqb_eq in H; subst
         end.
  all: discriminate.
Qed.

Lemma replaced_address prefix owner repo_name (suffix : str) :
  address prefix owner repo_name ->
  suffix = [] \/ suffix = ".git" ->
  Py.replace ".git" [] (prefix ++ "/" ++ owner ++ "/" ++ repo_name ++ suffix)
  = prefix ++ "/" ++ owner ++ "/" ++ repo_name.
Proof.
  intros (Hgit & _ & _) [-> | ->].
  - rewrite app_nil_r. apply replace_absent, Hgit.
  - replace (prefix ++ "/" ++ owner ++ "/" ++ repo_name ++ ".git")
      with ((prefix ++ "/" ++ owner ++ "/" ++ repo_name) ++ ".git")
      by (rewrite <- !app_assoc; reflexivity).
    apply replace_final_dot_git, Hgit.
Qed.

(** [create_pr] with a token, once the address is read. *)
Lemma create_pr_unfold c tok H prefix owner repo_name suffix branch_name title body :
  address prefix owner repo_name ->
  suffix = [] \/ suffix = ".git" ->
  GitClient.create_pr (Some (c :: tok)) H
    (prefix ++ "/" ++ owner ++ "/" ++ repo_name ++ suffix) branch_name title body
  = (resp ← post H (pulls owner repo_name) (c :: tok) (data branch_name title body);
     if (status_code resp =? 201)%Z then
       j ← json resp; Obj.get j "html_url"
     else if (status_code resp =? 422)%Z
             && Py.contains "A pull request already exists" (text resp) then
       match GitClient.existing_pr H (lookup owner repo_name branch_name) (c :: tok) with
       | Some pr_url => Ok pr_url
       | None => Ok (VStr "exists")
       end
     else Ok (VStr "failed")).
Proof.
  intros Haddress Hsuffix. unfold GitClient.create_pr.
  rewrite replaced_address by assumption.
  destruct Haddress as (_ & Howner & Hrepo).
  rewrite last_two_segments by assumption. reflexivity.
Qed.

(** X23: with a token, for an address that ends in the owner, a slash and
    the name of the repository, with or without a final [.git] (and with
    [.git] nowhere else), the change request is posted to the pulls address
    of that owner and name, for the given branch against main; when the
    answer is 201, [create_pr] returns what the answer holds under
    ["html_url"]. *)
Theorem create_pr_posts_to_the_pulls_address
    c tok H prefix owner repo_name suffix branch_name title body resp j :
  address prefix owner repo_name ->
  suffix = [] \/ suffix = ".git" ->
  post H (pulls owner repo_name) (c :: tok) (data branch_name title body) = Ok resp ->
  status_code resp = 201%Z ->
  json resp = Ok j ->
  GitClient.create_pr (Some (c :: tok)) H
    (prefix ++ "/" ++ owner ++ "/" ++ repo_name ++ suffix) branch_name title body
  = Obj.get j "html_url".
Proof.
  intros Haddress Hsuffix Hpost Hstatus Hjson.
  rewrite create_pr_unfold by assumption.
  rewrite Hpost. cbn [mbind exc_bind]. rewrite Hstatus, Hjson. reflexivity.
Qed.

Lemma create_pr_posts_to_the_pulls_address_witness :
  GitClient.create_pr (Some ("ghp_token" : str)) Sample.api_created
    (("https://github.com" : str) ++ "/" ++ ("acme" : str) ++ "/" ++ ("app" : str)
     ++ ".git")
    "security/fix-vulns-1" "Security Fixes for app" "body"
  = Obj.get (VDict [("html_url" : str, VStr "https://github.com/acme/app/pull/7")])
      "html_url".
Proof.
  apply (create_pr_posts_to_the_pulls_address
           "g" "hp_token" Sample.api_created "https://github.com" "acme" "app"
           ".git" "security/fix-vulns-1" "Security Fixes for app" "body"
           (Response 201 []
              (Ok (VDict [("html_url" : str,
                           VStr "https://github.com/acme/app/pull/7")])))).
  - repeat split; reflexivity.
  - right. reflexivity.
  - reflexivity.
  - reflexivity.
  - reflexivity.
Defined.

(** An address whose [.git] is not at the end loses it all the same. *)
Example create_pr_reads_a_pages_repository :
  GitClient.last_two
    (Py.split "/" (Py.replace ".git" [] "https://github.com/acme/acme.github.io"))
  = Ok ("acme" : str, "acmehub.io" : str).
Proof. reflexivity. Qed.

(** What the lookup of an existing request gives, when it gives
    something: the request answered 200 with a JSON body that is not
    empty, and the first element of the body holds the result under
    ["html_url"]. *)
Lemma existing_pr_found H query_url token pr_url :
  GitClient.existing_pr H query_url token = Some pr_url ->
  exists found body first_found,
    get_ H query_url token = Ok found
    /\ status_code found = 200%Z
    /\ json found = Ok body
    /\ Obj.truthy body = true
    /\ Obj.first body = Ok first_found
    /\ Obj.get first_found "html_url" = Ok pr_url.
Proof.
  unfold GitClient.existing_pr.
  destruct (get_ H query_url token) as [found|] eqn:Hget; [|discriminate].
  destruct (status_code found =? 200)%Z eqn:Hstatus; [|discriminate].
  apply Z.eqb_eq in Hstatus.
  destruct (json found) as [body|] eqn:Hjson; [|discriminate].
  destruct (Obj.truthy body) eqn:Htruthy; [|discriminate].
  destruct (Obj.first body) as [first_found|] eqn:Hfirst; [|discriminate].
  cbn [mbind exc_bind].
  destruct (Obj.get first_found "html_url") as [url|] eqn:Hurl; [|discriminate].
  intros [= <-]. exists found, body, first_found. repeat split; assumption.
Qed.

(** X24: with a token and an address as in X23, when the post is
    answered with a status other than 201, [create_pr] raises nothing.  It
    answers "failed", unless the status is 422 and the text of the answer
    says that a pull request already exists: then it answers what the
    lookup of the existing request found, and "exists" when the lookup
    raised or found nothing. *)
Theorem create_pr_without_a_new_request
    c tok H prefix owner repo_name suffix branch_name title body resp :
  address prefix owner repo_name ->
  suffix = [] \/ suffix = ".git" ->
  post H (pulls owner repo_name) (c :: tok) (data branch_name title body) = Ok resp ->
  status_code resp <> 201%Z ->
  exists answer,
    GitClient.create_pr (Some (c :: tok)) H
      (prefix ++ "/" ++ owner ++ "/" ++ repo_name ++ suffix) branch_name title body
    = Ok answer
    /\ ((status_code resp =? 422)%Z
        && Py.contains "A pull request already exists" (text resp) = false ->
        answer = VStr "failed")
    /\ ((status_code resp =? 422)%Z
        && Py.contains "A pull request already exists" (text resp) = true ->
        (answer = VStr "exists"
         /\ GitClient.existing_pr H (lookup owner repo_name branch_name) (c :: tok)
            = None)
        \/ exists found body first_found,
             get_ H (lookup owner repo_name branch_name) (c :: tok) = Ok found
             /\ status_code found = 200%Z
             /\ json found = Ok body
             /\ Obj.truthy body = true
             /\ Obj.first body = Ok first_found
             /\ Obj.get first_found "html_url" = Ok answer)
    /\ (forall e,
          (status_code resp =? 422)%Z
          && Py.contains "A pull request already exists" (text resp) = true ->
          get_ H (lookup owner repo_name branch_name) (c :: tok) = Raise e ->
          answer = VStr "exists").
Proof.
  intros Haddress Hsuffix Hpost Hstatus.
  rewrite create_pr_unfold by assumption.
  rewrite Hpost. cbn [mbind exc_bind].
  apply Z.eqb_neq in Hstatus. rewrite Hstatus.
  destruct ((status_code resp =? 422)%Z && _) eqn:Hexists.
  - destruct (GitClient.existing_pr H _ (c :: tok)) as [pr_url|] eqn:Hlookup.
    + exists pr_url. split; [reflexivity|]. split; [discriminate|]. split.
      * intros _. right. exact (existing_pr_found _ _ _ _ Hlookup).
      * intros e _ Hraise. unfold GitClient.existing_pr in Hlookup.
        rewrite Hraise in Hlookup. discriminate.
    + exists (VStr "exists"). split; [reflexivity|]. split; [discriminate|].
      split; [intros _; left; split; reflexivity | reflexivity].
  - exists (VStr "failed"). split; [reflexivity|].
    split; [reflexivity|]. split; discriminate.
Qed.

Lemma create_pr_without_a_new_request_witness :
  exists answer,
    GitClient.create_pr (Some ("ghp_token" : str)) Sample.api_exists
      (("https://github.com" : str) ++ "/" ++ ("acme" : str) ++ "/" ++ ("app" : str)
       ++ [])
      "security/fix-vulns-1" "Security Fixes for app" "body"
    = Ok answer
    /\ answer = VStr "exists".
Proof.
  destruct (create_pr_without_a_new_request
              "g" "hp_token" Sample.api_exists "https://github.com" "acme" "app"
              [] "security/fix-vulns-1" "Security Fixes for app" "body"
              (Response 422
                 "Validation Failed: A pull request already exists for acme:fix."
                 (Ok VNone)))
    as (answer & Hanswer & _ & _ & Hraise).
  - repeat split; reflexivity.
  - left. reflexivity.
  - reflexivity.
  - discriminate.
  - exists answer. split; [exact Hanswer|].
    apply (Hraise (Exn RequestException "connection reset")); reflexivity.
Defined.

End ChangeRequest.

(** ** Cloning *)

Section Cloning.
Import Clone.

Lemma after_last_segment (before name : str) :
  Py.has_char "/" name = false ->
  Py.after_last "/" (before ++ "/" ++ name) = name.
Proof.
  intros Hname. unfold Py.after_last.
  change ("/" : str) with ["/"%char]. cbn [app].
  rewrite split_app, (split_word _ name) by exact Hname.
  apply last_last.
Qed.

Lemma repo_name_of_address (before name suffix : str) :
  Py.has_char "/" name = false ->
  Py.contains ".git" name = false ->
  suffix = [] \/ suffix = ".git" ->
  repo_name (before ++ "/" ++ name ++ suffix) = name.
Proof.
  intros Hslash Hgit Hsuffix. unfold repo_name.
  rewrite after_last_segment.
  - destruct Hsuffix as [-> | ->].
    + rewrite app_nil_r. apply replace_absent, Hgit.
    + apply replace_final_dot_git, Hgit.
  - rewrite has_char_app, Hslash. destruct Hsuffix as [-> | ->]; reflexivity.
Qed.

Lemma auth_url_https c tok (rest : str) :
  Py.contains "https://" rest = false ->
  auth_url (Some (c :: tok)) ("https://" ++ rest)
  = "https://" ++ (c :: tok) ++ "@" ++ rest.
Proof.
  intros Hrest. unfold auth_url.
  assert (Py.contains "https://" ("https://" ++ rest) = true) as ->.
  { change ("https://" : str) with (["h"; "t"; "t"; "p"; "s"; ":"; "/"; "/"]%char : str).
    cbn [app Py.contains]. unfold Py.startswith at 1.
    cbn [Py.strip_prefix]. rewrite !Ascii.eqb_refl. reflexivity. }
  change ("https://" : str) with ("h"%char :: ("ttps://" : str)) at 1 3.
  rewrite (replace_hit "h" "ttps://" _ rest).
  rewrite replace_absent by exact Hrest.
  rewrite <- !app_assoc. reflexivity.
Qed.

(** X25: for an https address that ends in a slash and the name of the
    repository, with or without a final [.git], and with nothing yet at
    the destination, [clone_repo] clones into the directory of that name
    under [dest]; with a token it clones from the address with the token
    and an [@] put between [https://] and the rest, without a token from
    the address as it is; it returns the directory when the clone
    succeeds and fails as the clone fails. *)
Theorem clone_puts_the_token_into_the_address
    G c tok (site name suffix dest : str) :
  Py.contains "https://" (site ++ "/" ++ name ++ suffix) = false ->
  Py.has_char "/" name = false ->
  Py.contains ".git" name = false ->
  suffix = [] \/ suffix = ".git" ->
  exists_ G (Path dest name) = false ->
  let repo_url := "https://" ++ site ++ "/" ++ name ++ suffix in
  clone_repo (Some (c :: tok)) G repo_url dest
  = match clone_from G ("https://" ++ (c :: tok) ++ "@" ++ site ++ "/" ++ name ++ suffix)
            (Path dest name) with
    | Done _ => Done (Path dest name)
    | Failed e => Failed e
    end
  /\ clone_repo None G repo_url dest
     = match clone_from G repo_url (Path dest name) with
       | Done _ => Done (Path dest name)
       | Failed e => Failed e
       end.
Proof.
  intros Hrest Hslash Hgit Hsuffix Hnew repo_url.
  assert (repo_name repo_url = name) as Hname.
  { subst repo_url.
    replace ("https://" ++ site ++ "/" ++ name ++ suffix)
      with (("https://" ++ site) ++ "/" ++ name ++ suffix)
      by (rewrite <- !app_assoc; reflexivity).
    apply repo_name_of_address; assumption. }
  unfold clone_repo. rewrite Hname, Hnew. unfold fresh.
  split; [|reflexivity].
  subst repo_url. rewrite auth_url_https by exact Hrest. reflexivity.
Qed.

Lemma clone_puts_the_token_into_the_address_witness :
  let G := SampleClone.offline [] in
  clone_repo (Some ("ghp_token" : str)) G "https://github.com/acme/app.git" "temp_repos"
  = match clone_from G "https://ghp_token@github.com/acme/app.git"
            (Path "temp_repos" "app") with
    | Done _ => Done (Path "temp_repos" "app")
    | Failed e => Failed e
    end.
Proof.
  intros G.
  apply (clone_puts_the_token_into_the_address G "g" "hp_token"
           "github.com/acme" "app" ".git" "temp_repos"); try reflexivity.
  right. reflexivity.
Defined.

(** X26: when the destination directory exists and is a repository,
    [clone_repo] returns that directory, whatever a clone would answer, when
    the calls that bring the copy up to date succeed and also when one of
    them fails with a git command error. *)
Theorem clone_reuses_an_existing_repository token G repo_url dest :
  let dest_path := Path dest (repo_name repo_url) in
  exists_ G dest_path = true ->
  open_repo G dest_path = Done tt ->
  (forall e, refresh G dest_path = Failed e -> exists msg, e = GitCommandError msg) ->
  forall f,
    clone_repo token (SampleClone.with_clone G f) repo_url dest = Done dest_path.
Proof.
  intros dest_path Hexists Hopen Hrefresh f.
  unfold clone_repo. cbn [exists_ open_repo SampleClone.with_clone].
  fold dest_path. rewrite Hexists, Hopen.
  change (refresh (SampleClone.with_clone G f) dest_path)
    with (refresh G dest_path).
  destruct (refresh G dest_path) as [[]|e] eqn:Hr; [reflexivity|].
  destruct (Hrefresh e eq_refl) as [msg ->]. reflexivity.
Qed.

Lemma clone_reuses_an_existing_repository_witness :
  clone_repo None
    (SampleClone.with_clone (SampleClone.offline ["app" : str])
       (λ _ _, Done tt))
    "https://github.com/acme/app.git" "temp_repos"
  = Done (Path "temp_repos" (repo_name "https://github.com/acme/app.git")).
Proof.
  refine (clone_reuses_an_existing_repository None
            (SampleClone.offline ["app" : str])
            "https://github.com/acme/app.git" "temp_repos" _ _ _
            (λ _ _, Done tt)).
  - reflexivity.
  - reflexivity.
  - intros e [= <-]. eexists. reflexivity.
Defined.

End Cloning.

(** ** The status a scan task leaves *)

Section ScanStatus.
Import RepoRunner Pipeline ScanApi.

Lemma run_repo_result_shape E cfg wd r :
  (outcome E cfg wd).1 = Ok r ->
  r = no_action \/ r = skipped \/ (exists pr_url, r = pr_created pr_url)
  \/ (exists step error, r = failed step error).
Proof.
  intros Hr. pose proof (run_repo_exit E cfg wd) as Hexit.
  rewrite Hr in Hexit. clear Hr.
  inversion Hexit; subst; eauto 6.
Qed.

Lemma read_config_truthy r c : read_config r = Ok c -> Obj.truthy r = true.
Proof.
  destruct r as [| | | | |d]; try discriminate.
  destruct d; [discriminate | reflexivity].
Qed.

Lemma get_present_default cfg key v dflt :
  Obj.get cfg key = Ok v -> v <> VNone ->
  get_default cfg key dflt = Ok v /\ Obj.truthy cfg = true.
Proof.
  destruct cfg as [| | | | |d]; try discriminate. cbn [Obj.get get_default].
  intros [= <-] Hv. destruct (Obj.lookup key d) as [w|] eqn:Hw.
  - split; [reflexivity|]. destruct d; [discriminate | reflexivity].
  - contradiction.
Qed.

Lemma set_message_running repo_name message status text store :
  set_message repo_name message
    (Dict.set repo_name (entry status text) store)
  = Ok (Dict.set repo_name (entry status message) store).
Proof.
  unfold set_message. cbn [NodeUpdater.getitem].
  rewrite dict_get_set_same. cbn [mbind exc_bind entry NodeUpdater.setitem].
  f_equal. rewrite dict_set_set. f_equal.
Qed.

(** X27: for a configuration file that lists the repository with a url and
    a name that are strings, the task makes exactly the calls of one
    [run_repo] in the directory temp_repos and leaves a status that tells
    its end: "success" with the address of the change request when one was
    made, "success" without an address when nothing had to be done,
    "success" with the message "Scan skipped: no_updates_possible" when no
    package could be updated, "failed" with the step and the error of a
    failed result, and "failed" with "Unexpected error: " and the text of
    the exception when [run_repo] raised. *)
Theorem scan_status_reports_the_run
    safe_load repr E (fs : files) repo_name store content cfg items r c :
  fs !! CONFIG_PATH = Some content ->
  safe_load content = Ok cfg ->
  Obj.get cfg "repos" = Ok (VList items) ->
  find_repo items repo_name = Ok (Some r) ->
  read_config r = Ok c ->
  (run_repo_scan safe_load repr E fs repo_name store).2
  = (outcome E c "temp_repos").2
  /\ exists status,
       Dict.get repo_name (run_repo_scan safe_load repr E fs repo_name store).1
       = Some status
       /\ match (outcome E c "temp_repos").1 with
          | Raise e =>
              status = entry "failed" ("Unexpected error: " ++ message e)
          | Ok result =>
              (result = no_action /\ status = entry_with_pr VNone)
              \/ (result = skipped
                  /\ status = entry "success" "Scan skipped: no_updates_possible")
              \/ (exists pr_url,
                    result = pr_created pr_url /\ status = entry_with_pr pr_url)
              \/ (exists step error,
                    result = failed step error
                    /\ status = entry "failed"
                                  ("Scan failed at step " ++ step ++ ": " ++ error))
          end.
Proof.
  intros Hfile Hload Hrepos Hfind Hread.
  destruct (get_present_default cfg "repos" (VList items) (VList []) Hrepos)
    as [Hget Hcfg]; [discriminate|].
  unfold run_repo_scan, attempt, ConfigLoader.load_yaml.
  rewrite Hfile, Hload. cbn [mbind exc_bind]. unfold Obj.or. rewrite Hcfg, Hget.
  cbn [mbind exc_bind Obj.iterate]. rewrite Hfind. cbn [default from_option id].
  rewrite (read_config_truthy _ _ Hread). cbn [negb].
  rewrite set_message_running. unfold run_config. rewrite Hread.
  pose proof (run_repo_result_shape E c "temp_repos") as Hshape.
  destruct (outcome E c "temp_repos") as [[result|e] calls]; cbn [fst snd] in *.
  - destruct (Hshape result eq_refl)
      as [-> | [-> | [[pr_url ->] | (step & error & ->)]]].
    + cbn. split; [reflexivity|]. eexists. rewrite dict_get_set_same.
      split; [reflexivity|]. left. split; reflexivity.
    + cbn. split; [reflexivity|]. eexists. rewrite dict_get_set_same.
      split; [reflexivity|]. right. left. split; reflexivity.
    + cbn. split; [reflexivity|]. eexists. rewrite dict_get_set_same.
      split; [reflexivity|]. right. right. left. eexists. split; reflexivity.
    + cbn. split; [reflexivity|]. eexists. rewrite dict_get_set_same.
      split; [reflexivity|]. right. right. right. eexists _, _.
      split; reflexivity.
  - cbn [fst snd]. split; [reflexivity|]. eexists. rewrite dict_get_set_same.
    split; reflexivity.
Qed.

Lemma scan_status_reports_the_run_witness :
  (run_repo_scan (SampleScan.loads (SampleScan.document ["api" : str; "app" : str]))
     SampleScan.repr
     (Sample.env (Sample.report [Sample.finding "requests" "HIGH"]) 0
        (Some ("ghp_token" : str)) Sample.api_created)
     SampleScan.configured "app" []).2
  = (outcome
       (Sample.env (Sample.report [Sample.finding "requests" "HIGH"]) 0
          (Some ("ghp_token" : str)) Sample.api_created)
       Sample.config "temp_repos").2.
Proof.
  refine (proj1 (scan_status_reports_the_run
            (SampleScan.loads (SampleScan.document ["api" : str; "app" : str]))
            SampleScan.repr
            (Sample.env (Sample.report [Sample.finding "requests" "HIGH"]) 0
               (Some ("ghp_token" : str)) Sample.api_created)
            SampleScan.configured "app" [] ("repos: ..." : str)
            (SampleScan.document ["api" : str; "app" : str])
            (map SampleScan.repo ["api" : str; "app" : str])
            (SampleScan.repo "app") Sample.config _ _ _ _ _)).
  - reflexivity.
  - reflexivity.
  - reflexivity.
  - vm_compute. reflexivity.
  - vm_compute. reflexivity.
Defined.

Lemma find_repo_absent items repo_name :
  Forall (λ r, exists n, NodeUpdater.getitem r "name" = Ok n
                         /\ Obj.eq_str n repo_name = false) items ->
  find_repo items repo_name = Ok None.
Proof.
  induction 1 as [|r items (n & Hn & Hne) _ IH]; [reflexivity|].
  cbn [find_repo]. rewrite Hn. cbn [mbind exc_bind]. rewrite Hne. exact IH.
Qed.

(** X28: without a usable entry no run is made and the status is "failed".
    When the configuration file is missing the message is "Unexpected
    error: Config file not found: configs/repos.yaml"; when the file holds
    an object whose "repos" list (or none) has entries with a name, none of
    them the name of the repository, the message is "Repo config not found
    during execution". *)
Theorem scan_without_a_configured_repository
    safe_load repr E (fs : files) repo_name store :
  (fs !! CONFIG_PATH = None ->
   run_repo_scan safe_load repr E fs repo_name store
   = (Dict.set repo_name
        (entry "failed"
           "Unexpected error: Config file not found: configs/repos.yaml") store,
      []))
  /\ (forall content d items,
        fs !! CONFIG_PATH = Some content ->
        safe_load content = Ok (VDict d) ->
        default (VList []) (Obj.lookup "repos" d) = VList items ->
        Forall (λ r, exists n, NodeUpdater.getitem r "name" = Ok n
                               /\ Obj.eq_str n repo_name = false) items ->
        run_repo_scan safe_load repr E fs repo_name store
        = (Dict.set repo_name
             (entry "failed" "Repo config not found during execution") store,
           [])).
Proof.
  split.
  - intros Hfile. unfold run_repo_scan, attempt, ConfigLoader.load_yaml.
    rewrite Hfile. cbn [message]. rewrite dict_set_set. reflexivity.
  - intros content d items Hfile Hload Hrepos Hnames.
    unfold run_repo_scan, attempt, ConfigLoader.load_yaml.
    rewrite Hfile, Hload. cbn [mbind exc_bind].
    assert (get_default (Obj.or (VDict d) (VDict [])) "repos" (VList [])
            = Ok (VList items)) as ->.
    { unfold Obj.or. destruct d; cbn [Obj.truthy get_default]; f_equal; exact Hrepos. }
    cbn [mbind exc_bind Obj.iterate]. rewrite (find_repo_absent _ _ Hnames).
    cbn [default from_option id Obj.truthy negb]. rewrite dict_set_set. reflexivity.
Qed.

Lemma scan_without_a_configured_repository_witness :
  run_repo_scan (SampleScan.loads (SampleScan.document ["api" : str]))
    SampleScan.repr
    (Sample.env (Sample.report []) 0 None Sample.api_down)
    SampleScan.configured "app"
    [("api" : str, entry "success" "Scan completed successfully")]
  = ([("api" : str, entry "success" "Scan completed successfully");
      ("app" : str, entry "failed" "Repo config not found during execution")],
     []).
Proof.
  refine (proj2 (scan_without_a_configured_repository
            (SampleScan.loads (SampleScan.document ["api" : str]))
            SampleScan.repr
            (Sample.env (Sample.report []) 0 None Sample.api_down)
            SampleScan.configured "app"
            [("api" : str, entry "success" "Scan completed successfully")])
            ("repos: ..." : str) _ [SampleScan.repo "api"] _ _ _ _).
  - reflexivity.
  - reflexivity.
  - reflexivity.
  - apply Forall_cons; [|apply Forall_nil].
    exists (VStr "api"). split; reflexivity.
Defined.

Lemma report_status repr result status :
  report repr result = Ok status ->
  exists s message rest,
    status = VDict (("status" : str, VStr s) :: ("message" : str, VStr message) :: rest)
    /\ (s = ("success" : str) \/ s = ("failed" : str)).
Proof.
  unfold report.
  destruct (NodeUpdater.getitem result "status") as [st|]; [|discriminate].
  cbn [mbind exc_bind].
  destruct (Obj.eq_str st "success").
  - destruct (Obj.get result "pr_url"); [|discriminate].
    cbn [mbind exc_bind]. intros [= <-]. unfold entry_with_pr. eauto 6.
  - destruct (Obj.eq_str st "skipped").
    + destruct (Obj.get result "reason"); [|discriminate].
      cbn [mbind exc_bind]. intros [= <-]. unfold entry. eauto 6.
    + destruct (Obj.get result "step"); [|discriminate].
      destruct (Obj.get result "error"); [|discriminate].
      cbn [mbind exc_bind]. intros [= <-]. unfold entry. eauto 6.
Qed.

(** X29: whatever the configuration file holds and however the run ends,
    the task leaves the status of its repository at "success" or "failed",
    with a message, never at "running" or "queued", and it leaves the
    status of every other repository as it was. *)
Theorem scan_task_settles_its_own_status
    safe_load repr E (fs : files) repo_name store :
  (exists s message rest,
      Dict.get repo_name (run_repo_scan safe_load repr E fs repo_name store).1
      = Some (VDict (("status" : str, VStr s)
                     :: ("message" : str, VStr message) :: rest))
      /\ (s = ("success" : str) \/ s = ("failed" : str)))
  /\ (forall other,
        other <> repo_name ->
        Dict.get other (run_repo_scan safe_load repr E fs repo_name store).1
        = Dict.get other store).
Proof.
  assert (forall status, exists s message rest,
             Some (entry "failed" status)
             = Some (VDict (("status" : str, VStr s)
                            :: ("message" : str, VStr message) :: rest))
             /\ (s = ("success" : str) \/ s = ("failed" : str))) as Hfailed.
  { intros status. unfold entry. eauto 6. }
  assert (forall other v w, other <> repo_name ->
             Dict.get other (Dict.set repo_name v (Dict.set repo_name w store))
             = Dict.get other store) as Hother.
  { intros other v w Hne.
    rewrite !dict_get_set_other by congruence. reflexivity. }
  unfold run_repo_scan, attempt. cbv zeta.
  destruct (ConfigLoader.load_yaml safe_load fs CONFIG_PATH) as [cfg|e].
  2: { cbn [fst]. rewrite dict_get_set_same. split; [apply Hfailed | intros; apply Hother; assumption]. }
  destruct (_ ← get_default cfg "repos" (VList []); _) as [found|e].
  2: { cbn [fst]. rewrite dict_get_set_same. split; [apply Hfailed | intros; apply Hother; assumption]. }
  destruct (negb (Obj.truthy (default VNone found))).
  { cbn [fst]. rewrite dict_get_set_same. split; [apply Hfailed | intros; apply Hother; assumption]. }
  rewrite set_message_running.
  destruct (run_config E (default VNone found)) as [[result|e] calls].
  2: { cbn [fst]. rewrite dict_get_set_same.
       split; [apply Hfailed | intros; apply Hother; assumption]. }
  destruct (report repr result) as [status|e] eqn:Hreport.
  2: { cbn [fst]. rewrite dict_get_set_same.
       split; [apply Hfailed | intros; apply Hother; assumption]. }
  cbn [fst]. rewrite dict_get_set_same.
  split; [|intros; apply Hother; assumption].
  destruct (report_status _ _ _ Hreport) as (s & message & rest & -> & Hs).
  exists s, message, rest. split; [reflexivity | exact Hs].
Qed.

End ScanStatus.
